(** * form-filler: the PDF layout, table flow, text fitting and file naming
      of [src/pdf/acknowledgment_pdf.py] and [src/pdf/transfer_pdf.py]

    The two generators are embedded as pure functions.  Canvas calls become a
    list of drawing commands, the cursor [y] is passed explicitly, Python
    dicts are finite maps with string keys, and the output directory is a
    finite set of existing paths.  Lengths are Python floats in the source;
    here they are exact rationals. *)

From Stdlib Require Import QArith Qround Lqa.
From Stdlib Require Import Ascii DecimalString DecimalNat.
From stdpp Require Import base list strings gmap.

Local Open Scope Q_scope.
Local Open Scope stdpp_scope.

(** ** Python strings *)

Module Py.

(** [len(s)] *)
Definition len (s : string) : nat := String.length s.

(** [bool(s)]: a string is truthy when it is not empty. *)
Definition truthy (s : string) : bool :=
  match s with EmptyString => false | String _ _ => true end.

(** [a or b] on strings. *)
Definition or_else (a b : string) : string := if truthy a then a else b.

(** [s[:n]] for [n >= 0]. *)
Fixpoint take (n : nat) (s : string) : string :=
  match n, s with
  | S n', String c s' => String c (take n' s')
  | _, _ => EmptyString
  end.

(** [s[n:]] for [n >= 0]. *)
Fixpoint drop (n : nat) (s : string) : string :=
  match n, s with
  | S n', String _ s' => drop n' s'
  | _, _ => s
  end.

(** [s[:-k]]: everything but the last [k] characters (empty when
    [len(s) <= k]). *)
Definition drop_last (k : nat) (s : string) : string := take (len s - k) s.

(** [s[:n]] for any Python integer [n]. *)
Definition slice_to (n : Z) (s : string) : string :=
  if (0 <=? n)%Z then take (Z.to_nat n) s else drop_last (Z.to_nat (- n)) s.

(** [str.isspace] on one character, for code points below 256. *)
Definition isspace (c : ascii) : bool :=
  let n := nat_of_ascii c in
  ((9 <=? n)%nat && (n <=? 13)%nat) || ((28 <=? n)%nat && (n <=? 32)%nat)
  || (n =? 133)%nat || (n =? 160)%nat.

Fixpoint lstrip (s : string) : string :=
  match s with
  | EmptyString => EmptyString
  | String c s' => if isspace c then lstrip s' else s
  end.

Fixpoint rstrip (s : string) : string :=
  match s with
  | EmptyString => EmptyString
  | String c s' =>
      match rstrip s' with
      | EmptyString => if isspace c then EmptyString else String c EmptyString
      | r => String c r
      end
  end.

(** [s.strip()] *)
Definition strip (s : string) : string := rstrip (lstrip s).

(** [s.replace(c, d)] for one-character [c] and [d]. *)
Fixpoint replace (c d : ascii) (s : string) : string :=
  match s with
  | EmptyString => EmptyString
  | String a s' => String (if Ascii.eqb a c then d else a) (replace c d s')
  end.

(** [sep.join(l)] *)
Definition join (sep : string) (l : list string) : string := String.concat sep l.

(** [s.split()]: the maximal runs of non-space characters.  [cur] is the
    word being read. *)
Fixpoint split_go (cur : string) (s : string) : list string :=
  match s with
  | EmptyString => if truthy cur then [cur] else []
  | String c s' =>
      if isspace c
      then (if truthy cur then cur :: split_go EmptyString s' else split_go EmptyString s')
      else split_go (cur +:+ String c EmptyString) s'
  end.

Definition split (s : string) : list string := split_go EmptyString s.

(** [str(n)] for a natural number. *)
Definition str (n : nat) : string := NilEmpty.string_of_uint (Nat.to_uint n).

(** [s.startswith(c)] and [s.endswith(c)] for a one-character [c]. *)
Definition startswith (c : ascii) (s : string) : bool :=
  match s with String a _ => Ascii.eqb a c | EmptyString => false end.

Fixpoint endswith (c : ascii) (s : string) : bool :=
  match s with
  | EmptyString => false
  | String a EmptyString => Ascii.eqb a c
  | String _ s' => endswith c s'
  end.

(** [a < b] and [a > b] on numbers. *)
Definition lt (a b : Q) : bool := negb (Qle_bool b a).
Definition gt (a b : Q) : bool := lt b a.

(** [int(q)]: truncation towards zero. *)
Definition int (q : Q) : Z := (Qnum q ÷ Z.pos (Qden q))%Z.

(** [d.get(k, "")] on a dict of strings. *)
Definition get (d : gmap string string) (k : string) : string := default "" (d !! k).

End Py.

(** ** The drawing backend

    The calls the generators make on a reportlab canvas, in call order.
    [rect] always has the default [fill=0, stroke=1]. *)

Inductive color := BLUE | BLACK | WHITE | HexColor (code : string).

Inductive cmd :=
| setFillColor (c : color)
| setStrokeColor (c : color)
| setFont (name : string) (size : Q)
| setLineWidth (w : Q)
| drawString (x y : Q) (text : string)
| drawCentredString (x y : Q) (text : string)
| drawImage (path : string) (x y w h : Q)
| rect (x y w h : Q)
| line (x1 y1 x2 y2 : Q)
| circle (x y r : Q) (fill : bool)
| showPage.

(** What a render reads from outside the form data: glyph measurement
    [c.stringWidth(text, font, size)], [get_form_date()], the logo file
    ([logo_ok] when it exists and [drawImage] does not raise) and
    [get_output_path()]. *)
Record env := {
  stringWidth : string -> string -> Q -> Q;
  date_text : string;
  logo_path : string;
  logo_ok : bool;
  output_dir : string
}.

(** [reportlab.lib.units] and [reportlab.lib.pagesizes]. *)
Definition inch : Q := 72.
Definition mm : Q := inch / 2.54 * 0.1.
Definition A4 : Q * Q := (210 * mm, 297 * mm).

(** A form is a dict of strings plus its list of row dicts (["items"] or
    ["assets"]; an absent key reads as the empty list). *)
Record form_data := {
  fields : gmap string string;
  rows : list (gmap string string)
}.

(** The column loops [for .. in zip(headers, col_widths)] and
    [for col, width in enumerate(col_widths)]: [x] starts at [x_start] and
    advances by each width. *)
Fixpoint columns {A} (f : nat -> Q -> A -> Q -> list cmd)
    (col : nat) (x : Q) (l : list (A * Q)) : list cmd :=
  match l with
  | [] => []
  | (a, w) :: l' => f col x a w ++ columns f (S col) (x + w) l'
  end.

(** Table-cell truncation, the same in both tables:
    [max_chars = int(width / 5.5); if len(text) > max_chars and col != 0:
    text = text[:max_chars]]. *)
Definition cell_text (col : nat) (width : Q) (text : string) : string :=
  let max_chars := Py.int (width / 5.5) in
  if (Z.of_nat (Py.len text) >? max_chars)%Z && negb (col =? 0)%nat
  then Py.slice_to max_chars text
  else text.

(** The table drawers emit their output in blocks: a page break, a header
    row drawn with its top at [y], or the data row [row_num] drawn with its
    top at [y]; [item] is [items[row_num]] when [row_num < len(items)]. *)
Inductive block :=
| PageBreak
| HeaderRow (y : Q)
| DataRow (row_num : nat) (y : Q) (item : option (gmap string string)).

(** The word wrap of [_draw_declaration] and [_draw_device_selection]:
    one step of [for word in words], on the pair [(lines, current_line)]. *)
Definition wrap_step (width : string -> Q) (max_width : Q)
    (st : list string * list string) (word : string) : list string * list string :=
  let '(lines, current_line) := st in
  let current_line := current_line ++ [word] in
  let test_line := Py.join " " current_line in
  if Py.gt (width test_line) max_width
  then (lines ++ [Py.join " " (removelast current_line)], [word])
  else (lines, current_line).

Definition wrap_words (width : string -> Q) (max_width : Q) (words : list string)
    : list string :=
  let '(lines, current_line) := foldl (wrap_step width max_width) ([], []) words in
  match current_line with
  | [] => lines
  | _ :: _ => lines ++ [Py.join " " current_line]
  end.

Definition word_wrap (width : string -> Q) (max_width : Q) (text : string)
    : list string :=
  wrap_words width max_width (Py.split text).

(** [for line in lines: c.drawString(x, y, line); y -= step] *)
Fixpoint draw_lines (x y step : Q) (lines : list string) : Q * list cmd :=
  match lines with
  | [] => (y, [])
  | l :: lines' =>
      let '(y', out) := draw_lines x (y - step) step lines' in
      (y', drawString x y l :: out)
  end.

(** [_truncate_text] of the Transfer form.  The [while] loop drops one
    character per round, so [len(text)] rounds always reach its exit. *)
Fixpoint truncate_loop (width : string -> Q) (max_width : Q) (fuel : nat) (text : string)
    : string :=
  match fuel with
  | O => text
  | S fuel' =>
      if (0 <? Py.len text)%nat && Py.gt (width (text +:+ "...")) max_width
      then truncate_loop width max_width fuel' (Py.drop_last 1 text)
      else text
  end.

Definition _truncate_text (width : string -> Q) (text : string) (max_width : Q) : string :=
  if negb (Py.truthy text) then ""
  else if Qle_bool (width text) max_width then text
  else
    let text := truncate_loop width max_width (Py.len text) text in
    if Py.truthy text then text +:+ "..." else "".

(** ** File naming, shared by both generators *)

(** [invalid_chars]: less-than, greater-than, colon, double quote, slash,
    backslash, bar, question mark and star; the double quote and the
    backslash are given by their codes 34 and 92. *)
Definition invalid_chars : list ascii :=
  ["<"; ">"; ":"; "034"; "/"; "092"; "|"; "?"; "*"]%char.

(** [for char in invalid_chars: s = s.replace(char, '_')] *)
Definition clean (s : string) : string :=
  foldl (fun s char => Py.replace char "_"%char s) s invalid_chars.

(** [os.path.join(a, b)] of [posixpath]. *)
Definition path_join (a b : string) : string :=
  if Py.startswith "/"%char b then b
  else if negb (Py.truthy a) || Py.endswith "/"%char a then a +:+ b
  else a +:+ "/" +:+ b.

(** The name tried for [counter]: [f"{base_name} (#{counter}).pdf"]. *)
Definition numbered (base_name : string) (counter : nat) : string :=
  base_name +:+ " (#" +:+ Py.str counter +:+ ").pdf".

(** The [while True] probe of [_get_unique_filepath].  [fs] is the set of
    paths for which [os.path.exists] holds.  [None] stands for a loop that
    has not returned within [fuel] rounds. *)
Fixpoint probe (fs : gset string) (output_dir base_name : string) (fuel counter : nat)
    : option string :=
  match fuel with
  | O => None
  | S fuel' =>
      let new_filepath := path_join output_dir (numbered base_name counter) in
      if bool_decide (new_filepath ∈ fs)
      then probe fs output_dir base_name fuel' (S counter)
      else Some new_filepath
  end.

(** [_get_unique_filepath], identical in both classes.  The probe is given
    one round more than there are existing paths. *)
Definition _get_unique_filepath (fs : gset string) (output_dir filename : string)
    : option string :=
  let filepath := path_join output_dir filename in
  if negb (bool_decide (filepath ∈ fs)) then Some filepath
  else
    let base_name := Py.drop_last 4 filename in
    probe fs output_dir base_name (S (size fs)) 2.

(** What one [generate()] call leaves behind: the returned path, the canvas
    commands, the recorded signature rectangle and the paths that exist
    after the file is written. *)
Record outcome := {
  filepath : string;
  canvas : list cmd;
  sig_field_rect : Q * Q * Q * Q;
  files : gset string
}.

(** What the GUI handler [_generate_pdf] shows. *)
Inductive shown :=
| showwarning (message : string)
| showinfo (o : outcome).

(** ** Acknowledgment of Receipt: [AcknowledgmentPDFGenerator] *)

Module Ack.

Definition width : Q := fst A4.
Definition height : Q := snd A4.
Definition margin : Q := 0.6 * inch.
Definition bottom_margin : Q := 0.5 * inch.

(** *** [_draw_items_table] *)

(** Each header is kept as its lines, [header.split('\n')]. *)
Definition headers : list (list string) :=
  [["No."]; ["Store Code"]; ["Item Description"]; ["Qty."]; ["Purchase Date"; "/LPO"]].
Definition col_widths : list Q :=
  [0.35 * inch; 1.1 * inch; 3.2 * inch; 0.45 * inch; 1.1 * inch].
Definition table_width : Q := foldl Qplus 0 col_widths.
Definition x_start : Q := (width - table_width) / 2.
Definition row_height : Q := 0.32 * inch.
Definition header_height : Q := 0.4 * inch.

Definition header_cell (y : Q) (col : nat) (x : Q) (lines : list string) (w : Q)
    : list cmd :=
  rect x (y - header_height) w header_height ::
  match lines with
  | l0 :: l1 :: _ =>
      [drawCentredString (x + w / 2) (y - 0.15 * inch) l0;
       drawCentredString (x + w / 2) (y - 0.28 * inch) l1]
  | _ => [drawCentredString (x + w / 2) (y - 0.25 * inch) (hd "" lines)]
  end.

(** The header row with its top at [y], then the font of the data rows. *)
Definition draw_header_row (y : Q) : list cmd :=
  [setStrokeColor BLACK; setFillColor BLACK; setFont "Helvetica-Bold" 9]
  ++ columns (header_cell y) 0 x_start (zip headers col_widths)
  ++ [setFont "Helvetica" 9].

(** The text of column [col] before truncation. *)
Definition cell_source (item : gmap string string) (row_num col : nat) : string :=
  match col with
  | 0%nat => Py.str (row_num + 1)
  | 1%nat => Py.get item "store_code"
  | 2%nat => Py.get item "description"
  | 3%nat => Py.get item "qty"
  | 4%nat => Py.get item "purchase_date"
  | _ => ""
  end.

Definition data_cell (row_num : nat) (y : Q) (item : option (gmap string string))
    (col : nat) (x : Q) (_ : unit) (w : Q) : list cmd :=
  rect x (y - row_height) w row_height ::
  match item with
  | Some it =>
      let text := cell_text col w (cell_source it row_num col) in
      if (col =? 0)%nat
      then [drawCentredString (x + w / 2) (y - 0.2 * inch) text]
      else [drawString (x + 0.04 * inch) (y - 0.2 * inch) text]
  | None => []
  end.

Definition block_cmds (b : block) : list cmd :=
  match b with
  | PageBreak => [showPage]
  | HeaderRow y => draw_header_row y
  | DataRow row_num y item =>
      columns (data_cell row_num y item) 0 x_start (map (pair tt) col_widths)
  end.

(** [for row_num in range(num_rows)], from cursor [y]. *)
Fixpoint draw_rows (items : list (gmap string string)) (row_nums : list nat) (y : Q)
    : Q * list block :=
  match row_nums with
  | [] => (y, [])
  | row_num :: row_nums' =>
      let '(y, brk) :=
        if Py.lt (y - row_height) (bottom_margin + 4 * inch)
        then (height - margin - header_height, [PageBreak; HeaderRow (height - margin)])
        else (y, []) in
      let '(y', out) := draw_rows items row_nums' (y - row_height) in
      (y', brk ++ DataRow row_num y (items !! row_num) :: out)
  end.

Definition num_rows (items : list (gmap string string)) : nat :=
  match items with [] => 1%nat | _ :: _ => length items end.

Definition table_blocks (y : Q) (items : list (gmap string string)) : Q * list block :=
  let '(y', out) := draw_rows items (seq 0 (num_rows items)) (y - header_height) in
  (y' - 0.25 * inch, HeaderRow y :: out).

Definition _draw_items_table (y : Q) (items : list (gmap string string))
    : Q * list cmd :=
  let '(y', blocks) := table_blocks y items in
  (y', concat (map block_cmds blocks)).

(** *** The other sections *)

Definition _check_page_break (y needed_space : Q) : Q * list cmd :=
  if Py.lt (y - needed_space) bottom_margin
  then (height - margin, [showPage])
  else (y, []).

Definition _draw_header (e : env) (y : Q) : Q * list cmd :=
  let logo_height := 0.9 * inch in
  let logo_width := 2.8 * inch in
  let logo_x := (width - logo_width) / 2 in
  let logo :=
    if logo_ok e
    then [drawImage (logo_path e) logo_x (y - logo_height) logo_width logo_height]
    else [] in
  let y := y - 1.1 * inch in
  let title := [setFillColor BLUE; setFont "Helvetica-Bold" 16;
                drawCentredString (width / 2) y "Main Store"] in
  let y := y - 0.35 * inch in
  (y - 0.4 * inch,
   logo ++ title ++
   [setFillColor BLACK; setFont "Helvetica-Bold" 13;
    drawCentredString (width / 2) y "Acknowledgement of Receipt"]).

Definition _draw_date (e : env) (y : Q) : Q * list cmd :=
  (y,
   [setFillColor BLACK; setFont "Helvetica" 11;
    drawString (width - 2.3 * inch) (y + 0.25 * inch) "Date:";
    rect (width - 1.8 * inch) (y + 0.1 * inch) (1.1 * inch) (0.28 * inch);
    drawString (width - 1.7 * inch) (y + 0.18 * inch) (date_text e)]).

Definition _draw_custodian_details (y : Q) (data : form_data) : Q * list cmd :=
  let head := [setFillColor BLUE; setFont "Helvetica-Bold" 10;
               drawString margin y "Custodian Details:"] in
  let y := y - 0.28 * inch in
  let name :=
    [setFillColor BLACK; setFont "Helvetica-Bold" 9;
     drawString margin y "Name:";
     line (margin + 0.45 * inch) (y - 0.04 * inch) (4 * inch) (y - 0.04 * inch);
     setFont "Helvetica" 9;
     drawString (margin + 0.5 * inch) y (Py.get (fields data) "custodian_name");
     setFont "Helvetica-Bold" 9;
     drawString (4.3 * inch) y "Emp. ID:";
     rect (4.9 * inch) (y - 0.08 * inch) (0.9 * inch) (0.26 * inch);
     setFont "Helvetica" 9;
     drawString (4.95 * inch) y (Py.get (fields data) "emp_id")] in
  let y := y - 0.35 * inch in
  (y - 0.4 * inch,
   head ++ name ++
   [setFont "Helvetica-Bold" 9;
    drawString margin y "College / Department:";
    line (margin + 1.35 * inch) (y - 0.04 * inch) (5 * inch) (y - 0.04 * inch);
    setFont "Helvetica" 9;
    drawString (margin + 1.4 * inch) y (Py.get (fields data) "department")]).

Definition _draw_radio (x y : Q) (selected : bool) : list cmd :=
  [setStrokeColor BLACK; circle (x + 0.08 * inch) (y + 0.04 * inch) (0.065 * inch) false]
  ++ (if selected
      then [setFillColor BLACK;
            circle (x + 0.08 * inch) (y + 0.04 * inch) (0.035 * inch) true]
      else []).

Definition buildings : list string := ["SZH"; "J1"; "J2"; "Student Hub"; "Hostel"; "Others:"].
Definition floors : list string := ["Ground"; "1st"; "2nd"; "3rd"; "Others:"].
Definition sections : list string := ["Male"; "Female"].

(** [choice == selected or (choice == "Others:" and selected == "Others")] *)
Definition is_selected (choice selected : string) : bool :=
  String.eqb choice selected
  || (String.eqb choice "Others:" && String.eqb selected "Others").

Definition is_others (choice selected : string) : bool :=
  String.eqb choice "Others:" && String.eqb selected "Others".

Definition _draw_location_section (y : Q) (data : form_data) : Q * list cmd :=
  let col1_x := margin in
  let col2_x := 2.6 * inch in
  let col3_x := 4.2 * inch in
  let head :=
    [setFillColor BLUE; setFont "Helvetica-Bold" 11;
     drawString col1_x y "Location: Building";
     drawString col2_x y "Floor";
     drawString col3_x y "Section";
     setStrokeColor BLUE;
     line col1_x (y - 0.04 * inch) (col1_x + 1.35 * inch) (y - 0.04 * inch);
     line col2_x (y - 0.04 * inch) (col2_x + 0.42 * inch) (y - 0.04 * inch);
     line col3_x (y - 0.04 * inch) (col3_x + 0.55 * inch) (y - 0.04 * inch)] in
  let y := y - 0.32 * inch in
  let selected_building := Py.get (fields data) "building" in
  let selected_floor := Py.get (fields data) "floor" in
  let selected_section := Py.get (fields data) "section" in
  let line_height := 0.24 * inch in
  let building_row (i : nat) (building : string) : list cmd :=
    let by_ := y - inject_Z (Z.of_nat i) * line_height in
    _draw_radio col1_x by_ (is_selected building selected_building)
    ++ [drawString (col1_x + 0.22 * inch) by_ building]
    ++ (if is_others building selected_building
        then [line (col1_x + 0.7 * inch) (by_ - 0.04 * inch)
                   (col1_x + 1.6 * inch) (by_ - 0.04 * inch);
              drawString (col1_x + 0.72 * inch) by_ (Py.get (fields data) "building_other")]
        else []) in
  let floor_row (i : nat) (floor : string) : list cmd :=
    let fy := y - inject_Z (Z.of_nat i) * line_height in
    _draw_radio col2_x fy (is_selected floor selected_floor)
    ++ (if bool_decide (floor ∈ ["1st"; "2nd"; "3rd"])
        then [drawString (col2_x + 0.22 * inch) fy (Py.take 1 floor);
              setFont "Helvetica" 6;
              drawString (col2_x + 0.3 * inch) (fy + 0.06 * inch) (Py.drop 1 floor);
              setFont "Helvetica" 9]
        else [drawString (col2_x + 0.22 * inch) fy floor])
    ++ (if is_others floor selected_floor
        then [line (col2_x + 0.65 * inch) (fy - 0.04 * inch)
                   (col2_x + 1.3 * inch) (fy - 0.04 * inch);
              drawString (col2_x + 0.67 * inch) fy (Py.get (fields data) "floor_other")]
        else []) in
  let section_row (i : nat) (section : string) : list cmd :=
    let sy := y - inject_Z (Z.of_nat i) * line_height in
    _draw_radio col3_x sy (String.eqb section selected_section)
    ++ [drawString (col3_x + 0.22 * inch) sy section] in
  (y - inject_Z (Z.of_nat (length buildings)) * line_height - 0.15 * inch,
   head ++ [setFillColor BLACK; setFont "Helvetica" 9]
   ++ concat (imap building_row buildings)
   ++ concat (imap floor_row floors)
   ++ concat (imap section_row sections)).

Definition declaration_text : string :=
  "I confirm that this device(s) is a property of Ajman University and to be "
  +:+ "returned back to AU Store after usage. This device(s) can't be shifted to "
  +:+ "any other user/location without a written approval from the Store.".

Definition _draw_declaration (e : env) (y : Q) : Q * list cmd :=
  let max_width := width - 2 * margin in
  let lines :=
    word_wrap (fun s => stringWidth e s "Helvetica-BoldOblique" 9) max_width
      declaration_text in
  let '(y, out) := draw_lines margin y (0.16 * inch) lines in
  (y - 0.12 * inch, [setFillColor BLACK; setFont "Helvetica-BoldOblique" 9] ++ out).

Definition office_text : string :=
  "I understand that I will be responsible for any misuse or damages that may occur. "
  +:+ "I confirm that this device(s) will be used for work purpose only.".

Definition lab_text : string :=
  "I understand that the lab supervisor shall monitor the lab devices to avoid any misuse or damage.".

Definition _draw_device_selection (e : env) (y : Q) (data : form_data) : Q * list cmd :=
  let head := [setFont "Helvetica-BoldOblique" 9; setFillColor BLACK;
               drawString margin y "Please select one of the following:"] in
  let y := y - 0.28 * inch in
  let device_type := Py.get (fields data) "device_type" in
  let office :=
    _draw_radio (margin + 0.15 * inch) y (String.eqb device_type "Office")
    ++ [setFont "Helvetica-Bold" 9; drawString (margin + 0.4 * inch) y "Office Device"] in
  let y := y - 0.18 * inch in
  let max_width := width - 2 * margin - 0.4 * inch in
  let lines := word_wrap (fun s => stringWidth e s "Helvetica" 8) max_width office_text in
  let '(y, out) := draw_lines (margin + 0.4 * inch) y (0.13 * inch) lines in
  let y := y - 0.12 * inch in
  let lab :=
    _draw_radio (margin + 0.15 * inch) y (String.eqb device_type "Lab")
    ++ [setFont "Helvetica-Bold" 9; drawString (margin + 0.4 * inch) y "Lab Device"] in
  let y := y - 0.18 * inch in
  (y - 0.3 * inch,
   head ++ office ++ [setFont "Helvetica" 8] ++ out ++ lab
   ++ [setFont "Helvetica" 8; drawString (margin + 0.4 * inch) y lab_text]).

(** Returns the recorded [sig_field_rect] with the commands. *)
Definition _draw_signature (y : Q) : (Q * Q * Q * Q) * list cmd :=
  let '(y, brk) :=
    if Py.lt y (1.3 * inch) then (height - margin, [showPage]) else (y, []) in
  let head := [setFont "Helvetica-Bold" 10; setFillColor BLACK;
               drawString margin y "Employee Signature:"] in
  let y := y - 0.12 * inch in
  let box_width := 2.2 * inch in
  let box_height := 1 * inch in
  let x1 := margin in
  let y1 := y - box_height in
  let x2 := margin + box_width in
  let y2 := y in
  ((x1, y1, x2, y2),
   brk ++ head ++
   [setStrokeColor BLACK; setLineWidth 0.5;
    rect x1 y1 box_width box_height;
    setFont "Helvetica-Oblique" 8; setFillColor (HexColor "#666666");
    drawString margin (y1 - 0.12 * inch) "Click here to sign in Adobe Acrobat"]).

(** The part of [_draw_form] after the items table: the coarse page-break
    check, the four sections and the signature. *)
Definition draw_after_table (e : env) (y : Q) (data : form_data)
    : (Q * Q * Q * Q) * list cmd :=
  let remaining_content_height := 4.5 * inch in
  let '(y, c0) := _check_page_break y remaining_content_height in
  let '(y, c1) := _draw_custodian_details y data in
  let '(y, c2) := _draw_location_section y data in
  let '(y, c3) := _draw_declaration e y in
  let '(y, c4) := _draw_device_selection e y data in
  let '(r, c5) := _draw_signature y in
  (r, c0 ++ c1 ++ c2 ++ c3 ++ c4 ++ c5).

Definition _draw_form (e : env) (data : form_data) : (Q * Q * Q * Q) * list cmd :=
  let y := height - margin in
  let '(y, h) := _draw_header e y in
  let '(y, d) := _draw_date e y in
  let '(y, t) := _draw_items_table y (rows data) in
  let '(r, rest) := draw_after_table e y data in
  (r, h ++ d ++ t ++ rest).

(** *** File name and [generate] *)

Definition _generate_filename (form_data : form_data) : string :=
  let emp_id := Py.or_else (Py.strip (Py.get (fields form_data) "emp_id")) "Unknown" in
  let name := Py.or_else (Py.strip (Py.get (fields form_data) "custodian_name")) "Unknown" in
  let items := rows form_data in
  let asset_name :=
    match items with
    | item0 :: _ =>
        if Py.truthy (Py.get item0 "description")
        then
          let asset_name := Py.strip (Py.get item0 "description") in
          if (30 <? Py.len asset_name)%nat then Py.take 30 asset_name else asset_name
        else "Asset"
    | [] => "Asset"
    end in
  clean emp_id +:+ " - " +:+ clean name +:+ " - acknowledgement form "
    +:+ clean asset_name +:+ ".pdf".

Definition generate (e : env) (fs : gset string) (form_data : form_data)
    (filename : option string) : option outcome :=
  let filename := default (_generate_filename form_data) filename in
  match _get_unique_filepath fs (output_dir e) filename with
  | None => None
  | Some filepath =>
      let '(r, cmds) := _draw_form e form_data in
      Some {| filepath := filepath; canvas := cmds; sig_field_rect := r;
              files := {[filepath]} ∪ fs |}
  end.

(** *** The GUI handler, [gui/acknowledgment_form.py] *)

(** The text typed into the widgets. *)
Record widgets := {
  item_widgets : list (gmap string string);
  name_entry : string;
  emp_id_entry : string;
  dept_entry : string;
  building_var : string;
  building_other_entry : string;
  floor_var : string;
  floor_other_entry : string;
  section_var : string;
  device_var : string
}.

Definition _get_items (ws : list (gmap string string)) : list (gmap string string) :=
  flat_map (fun w =>
    let store_code := Py.strip (Py.get w "store_code") in
    let description := Py.strip (Py.get w "description") in
    let qty := Py.strip (Py.get w "qty") in
    let purchase_date := Py.strip (Py.get w "purchase_date") in
    if Py.truthy store_code || Py.truthy description || Py.truthy qty
       || Py.truthy purchase_date
    then [list_to_map [("store_code", store_code); ("description", description);
                       ("qty", qty); ("purchase_date", purchase_date)]]
    else []) ws.

Definition _generate_pdf (e : env) (fs : gset string) (w : widgets) : option shown :=
  let items := _get_items (item_widgets w) in
  match items with
  | [] => Some (showwarning "Please add at least one item.")
  | _ :: _ =>
      let form_data :=
        {| rows := items;
           fields := list_to_map
             [("custodian_name", Py.strip (name_entry w));
              ("emp_id", Py.strip (emp_id_entry w));
              ("department", Py.strip (dept_entry w));
              ("building", building_var w);
              ("building_other", Py.strip (building_other_entry w));
              ("floor", floor_var w);
              ("floor_other", Py.strip (floor_other_entry w));
              ("section", section_var w);
              ("device_type", device_var w)] |} in
      showinfo <$> generate e fs form_data None
  end.

End Ack.

(** ** Asset Transfer Form: [TransferPDFGenerator] *)

Module Transfer.

Definition width : Q := fst A4.
Definition height : Q := snd A4.
Definition margin : Q := 0.75 * inch.

(** *** [_draw_assets_table] *)

Definition headers : list string :=
  ["No."; "Store Code"; "Asset Name"; "Description"; "Old Asset No."].
Definition col_widths : list Q :=
  [0.35 * inch; 1 * inch; 1.3 * inch; 2.3 * inch; 1.15 * inch].
Definition table_width : Q := foldl Qplus 0 col_widths.
Definition x_start : Q := (width - table_width) / 2.
Definition row_height : Q := 0.3 * inch.
Definition header_height : Q := 0.35 * inch.

Definition header_cell (y : Q) (col : nat) (x : Q) (header : string) (w : Q) : list cmd :=
  [rect x (y - header_height) w header_height;
   drawCentredString (x + w / 2) (y - 0.22 * inch) header].

Definition draw_header_row (y : Q) : list cmd :=
  [setStrokeColor BLACK; setFillColor BLACK; setFont "Helvetica-Bold" 9]
  ++ columns (header_cell y) 0 x_start (zip headers col_widths)
  ++ [setFont "Helvetica" 9].

Definition cell_source (asset : gmap string string) (row_num col : nat) : string :=
  match col with
  | 0%nat => Py.str (row_num + 1)
  | 1%nat => Py.get asset "store_code"
  | 2%nat => Py.get asset "asset_name"
  | 3%nat => Py.get asset "description"
  | 4%nat => Py.get asset "old_asset_no"
  | _ => ""
  end.

Definition data_cell (row_num : nat) (y : Q) (asset : option (gmap string string))
    (col : nat) (x : Q) (_ : unit) (w : Q) : list cmd :=
  rect x (y - row_height) w row_height ::
  match asset with
  | Some it =>
      let text := cell_text col w (cell_source it row_num col) in
      if (col =? 0)%nat
      then [drawCentredString (x + w / 2) (y - 0.19 * inch) text]
      else [drawString (x + 0.04 * inch) (y - 0.19 * inch) text]
  | None => []
  end.

Definition block_cmds (b : block) : list cmd :=
  match b with
  | PageBreak => [showPage]
  | HeaderRow y => draw_header_row y
  | DataRow row_num y asset =>
      columns (data_cell row_num y asset) 0 x_start (map (pair tt) col_widths)
  end.

(** [for row_num in range(num_rows)]: no page-break test in this loop. *)
Fixpoint draw_rows (assets : list (gmap string string)) (row_nums : list nat) (y : Q)
    : Q * list block :=
  match row_nums with
  | [] => (y, [])
  | row_num :: row_nums' =>
      let '(y', out) := draw_rows assets row_nums' (y - row_height) in
      (y', DataRow row_num y (assets !! row_num) :: out)
  end.

Definition num_rows (assets : list (gmap string string)) : nat :=
  match assets with [] => 1%nat | _ :: _ => length assets end.

Definition table_blocks (y : Q) (assets : list (gmap string string)) : Q * list block :=
  let '(y', out) := draw_rows assets (seq 0 (num_rows assets)) (y - header_height) in
  (y' - 0.3 * inch, HeaderRow y :: out).

Definition _draw_assets_table (y : Q) (assets : list (gmap string string))
    : Q * list cmd :=
  let '(y', blocks) := table_blocks y assets in
  (y', concat (map block_cmds blocks)).

(** *** The other sections *)

Definition _draw_header (e : env) (y : Q) : Q * list cmd :=
  let logo_height := 0.9 * inch in
  let logo_width := 2.8 * inch in
  let logo_x := (width - logo_width) / 2 in
  let logo :=
    if logo_ok e
    then [drawImage (logo_path e) logo_x (y - logo_height) logo_width logo_height]
    else [] in
  let y := y - 1.1 * inch in
  let title := [setFillColor BLACK; setFont "Helvetica-Bold" 16;
                drawCentredString (width / 2) y "Main Store"] in
  let y := y - 0.5 * inch in
  let atf := [setFillColor BLUE; setFont "Helvetica-Bold" 18;
              drawCentredString (width / 2) y "ATF";
              setStrokeColor BLUE;
              line (width / 2 - 0.3 * inch) (y - 0.05 * inch)
                   (width / 2 + 0.3 * inch) (y - 0.05 * inch)] in
  let y := y - 0.3 * inch in
  (y - 0.5 * inch,
   logo ++ title ++ atf ++
   [setFillColor BLACK; setFont "Helvetica" 12;
    drawCentredString (width / 2) y "(Asset Transfer Form)";
    line (width / 2 - 1 * inch) (y - 0.05 * inch)
         (width / 2 + 1 * inch) (y - 0.05 * inch)]).

Definition _draw_date (e : env) (y : Q) : Q * list cmd :=
  (y,
   [setFillColor BLACK; setStrokeColor BLACK; setFont "Helvetica" 11;
    drawString (width - 2.5 * inch) (y + 1.2 * inch) "Date :";
    rect (width - 2 * inch) (y + 1.05 * inch) (1.3 * inch) (0.3 * inch);
    drawString (width - 1.9 * inch) (y + 1.15 * inch) (date_text e)]).

(** [_draw_transferred_from] and [_draw_transferred_to] differ in the
    title, the length of its underline and the three keys read. *)
Definition draw_party (e : env) (y : Q) (data : form_data)
    (title : string) (underline : Q) (name_key dept_key emp_key : string)
    : Q * list cmd :=
  let fit (text : string) (max_width : Q) : string :=
    _truncate_text (fun s => stringWidth e s "Helvetica" 10) text max_width in
  let head := [setFillColor BLACK; setStrokeColor BLACK; setFont "Helvetica-Bold" 10;
               drawString margin y title;
               line margin (y - 0.05 * inch) (margin + underline) (y - 0.05 * inch)] in
  let y := y - 0.32 * inch in
  let name_x := margin + 1.35 * inch in
  let name_width := 3.5 * inch in
  let name_text := fit (Py.get (fields data) name_key) (name_width - 0.1 * inch) in
  let name := [setFont "Helvetica" 10;
               drawString margin y "Custodian Name:";
               line name_x (y - 0.05 * inch) (name_x + name_width) (y - 0.05 * inch);
               drawString (name_x + 0.05 * inch) y name_text] in
  let y := y - 0.35 * inch in
  let dept_x := margin + 1 * inch in
  let dept_width := 2.3 * inch in
  let dept_text := fit (Py.get (fields data) dept_key) (dept_width - 0.1 * inch) in
  let emp_label_x := 4.2 * inch in
  let emp_x := emp_label_x + 0.65 * inch in
  let emp_width := 1 * inch in
  let emp_text := fit (Py.get (fields data) emp_key) (emp_width - 0.1 * inch) in
  (y - 0.4 * inch,
   head ++ name ++
   [drawString margin y "Department:";
    line dept_x (y - 0.05 * inch) (dept_x + dept_width) (y - 0.05 * inch);
    drawString (dept_x + 0.05 * inch) y dept_text;
    drawString emp_label_x y "Emp. ID:";
    rect emp_x (y - 0.08 * inch) emp_width (0.28 * inch);
    drawString (emp_x + 0.05 * inch) y emp_text]).

Definition _draw_transferred_from (e : env) (y : Q) (data : form_data) : Q * list cmd :=
  draw_party e y data "Transferred from:" (1.2 * inch)
    "from_name" "from_department" "from_emp_id".

Definition _draw_transferred_to (e : env) (y : Q) (data : form_data) : Q * list cmd :=
  draw_party e y data "Transferred to:" (1.1 * inch)
    "to_name" "to_department" "to_emp_id".

Definition declaration_lines : list string :=
  ["This device is a property of AU and to be returned back to AU store after usage, this device can't";
   "be shifted to any other user without a written approval from the stores.";
   "I confirm that this device will be used for work purpose only.";
   "I also understand that I will be responsible for any misuse or damages that may occur."].

Definition _draw_declaration (y : Q) : Q * list cmd :=
  let head := [setFillColor BLACK; setFont "Helvetica-Bold" 10;
               drawString margin y "Declaration:";
               line margin (y - 0.05 * inch) (margin + 0.9 * inch) (y - 0.05 * inch)] in
  let y := y - 0.25 * inch in
  let '(y, out) := draw_lines margin y (0.16 * inch) declaration_lines in
  (y - 0.2 * inch, head ++ [setFont "Helvetica" 9] ++ out).

Definition _draw_signature (y : Q) : (Q * Q * Q * Q) * list cmd :=
  let '(y, brk) :=
    if Py.lt y (1.5 * inch) then (height - margin, [showPage]) else (y, []) in
  let head := [setFont "Helvetica-Bold" 10; setFillColor BLACK;
               drawString margin y "Signature :"] in
  let y := y - 0.12 * inch in
  let box_width := 2.2 * inch in
  let box_height := 0.9 * inch in
  let x1 := margin in
  let y1 := y - box_height in
  let x2 := margin + box_width in
  let y2 := y in
  ((x1, y1, x2, y2),
   brk ++ head ++
   [setStrokeColor BLACK; setLineWidth 0.5;
    rect x1 y1 box_width box_height;
    setFont "Helvetica-Oblique" 8; setFillColor (HexColor "#666666");
    drawString margin (y1 - 0.12 * inch) "Click here to sign in Adobe Acrobat"]).

(** The sections of [_draw_form] up to the signature, with the cursor
    they leave. *)
Definition draw_before_signature (e : env) (data : form_data) : Q * list cmd :=
  let y := height - margin in
  let '(y, h) := _draw_header e y in
  let '(y, d) := _draw_date e y in
  let '(y, f) := _draw_transferred_from e y data in
  let '(y, t) := _draw_assets_table y (rows data) in
  let '(y, o) := _draw_transferred_to e y data in
  let '(y, c) := _draw_declaration y in
  (y, h ++ d ++ f ++ t ++ o ++ c).

Definition _draw_form (e : env) (data : form_data) : (Q * Q * Q * Q) * list cmd :=
  let '(y, pre) := draw_before_signature e data in
  let '(r, s) := _draw_signature y in
  (r, pre ++ s).

(** *** File name and [generate] *)

Definition _generate_filename (form_data : form_data) : string :=
  let from_emp_id := Py.or_else (Py.strip (Py.get (fields form_data) "from_emp_id")) "Unknown" in
  let from_name := Py.or_else (Py.strip (Py.get (fields form_data) "from_name")) "Unknown" in
  let to_emp_id := Py.or_else (Py.strip (Py.get (fields form_data) "to_emp_id")) "Unknown" in
  let to_name := Py.or_else (Py.strip (Py.get (fields form_data) "to_name")) "Unknown" in
  "Asset Transfer - From " +:+ clean from_emp_id +:+ "-" +:+ clean from_name
    +:+ " to " +:+ clean to_emp_id +:+ "-" +:+ clean to_name +:+ ".pdf".

Definition generate (e : env) (fs : gset string) (form_data : form_data)
    (filename : option string) : option outcome :=
  let filename := default (_generate_filename form_data) filename in
  match _get_unique_filepath fs (output_dir e) filename with
  | None => None
  | Some filepath =>
      let '(r, cmds) := _draw_form e form_data in
      Some {| filepath := filepath; canvas := cmds; sig_field_rect := r;
              files := {[filepath]} ∪ fs |}
  end.

(** *** The GUI handler, [gui/transfer_form.py] *)

Record widgets := {
  asset_widgets : list (gmap string string);
  from_name_entry : string;
  from_dept_entry : string;
  from_emp_id_entry : string;
  to_name_entry : string;
  to_dept_entry : string;
  to_emp_id_entry : string
}.

Definition _get_assets (ws : list (gmap string string)) : list (gmap string string) :=
  flat_map (fun w =>
    let store_code := Py.strip (Py.get w "store_code") in
    let asset_name := Py.strip (Py.get w "asset_name") in
    let description := Py.strip (Py.get w "description") in
    let old_asset_no := Py.strip (Py.get w "old_asset_no") in
    if Py.truthy store_code || Py.truthy asset_name || Py.truthy description
       || Py.truthy old_asset_no
    then [list_to_map [("store_code", store_code); ("asset_name", asset_name);
                       ("description", description); ("old_asset_no", old_asset_no)]]
    else []) ws.

Definition _generate_pdf (e : env) (fs : gset string) (w : widgets) : option shown :=
  let assets := _get_assets (asset_widgets w) in
  match assets with
  | [] => Some (showwarning "Please add at least one asset.")
  | _ :: _ =>
      let form_data :=
        {| rows := assets;
           fields := list_to_map
             [("from_name", Py.strip (from_name_entry w));
              ("from_department", Py.strip (from_dept_entry w));
              ("from_emp_id", Py.strip (from_emp_id_entry w));
              ("to_name", Py.strip (to_name_entry w));
              ("to_department", Py.strip (to_dept_entry w));
              ("to_emp_id", Py.strip (to_emp_id_entry w))] |} in
      showinfo <$> generate e fs form_data None
  end.

End Transfer.

(** ** The file-name rule in the spec's words *)

(** A character of the forbidden set. *)
Definition is_invalid (c : ascii) : bool := existsb (Ascii.eqb c) invalid_chars.

(** Every forbidden character replaced by an underscore. *)
Fixpoint replace_invalid (s : string) : string :=
  match s with
  | EmptyString => EmptyString
  | String c s' => String (if is_invalid c then "_"%char else c) (replace_invalid s')
  end.

(** A string with no surrounding whitespace, as the GUI layer supplies
    every field. *)
Definition trimmed (s : string) : Prop := Py.strip s = s.

(** The description of the first row, empty when there is none. *)
Definition first_description (data : form_data) : string :=
  match rows data with
  | item0 :: _ => Py.get item0 "description"
  | [] => ""
  end.

(** The fields the two file names are built from are trimmed. *)
Definition names_trimmed (data : form_data) : Prop :=
  Forall (fun k => trimmed (Py.get (fields data) k))
    ["emp_id"; "custodian_name"; "from_emp_id"; "from_name"; "to_emp_id"; "to_name"]
  /\ trimmed (first_description data).

(** A Transfer submission with an empty sender, and an Acknowledgment
    submission with forbidden characters and a long first description. *)
Definition transfer_no_sender : form_data :=
  {| fields := list_to_map [("from_emp_id", ""); ("from_name", "");
                            ("to_emp_id", "E77"); ("to_name", "Ann Lee")];
     rows := [list_to_map [("asset_name", "Monitor")]] |}.

Definition ack_long_description : form_data :=
  {| fields := list_to_map [("emp_id", "E1/2"); ("custodian_name", "Bob")];
     rows := [list_to_map
                [("description", "Laptop <Dell> with a very long description text")]] |}.

(** A closed line of the word wrap: a non-empty group of words whose
    joined width fits. *)
Definition closed_line (width : string -> Q) (max_width : Q) (g : list string) : Prop :=
  g <> [] /\ width (Py.join " " g) <= max_width.

(** The path probed for [counter] after a collision on [filename]. *)
Definition candidate (output_dir filename : string) (counter : nat) : string :=
  path_join output_dir (numbered (Py.drop_last 4 filename) counter).

(** An output directory in which a report and its first two numbered
    copies exist already. *)
Definition crowded_dir : gset string :=
  {[ "/out/report.pdf"; "/out/report (#2).pdf"; "/out/report (#3).pdf"; "/out/summary" ]}.

(** Two [generate()] calls on the same data: when neither the generated
    name nor its copy numbered 2 exists beforehand, both calls return, the
    first writes the generated name, the second the name with the number 2
    in brackets before [.pdf]. *)
Definition second_call_numbered
    (generate : env -> gset string -> form_data -> option string -> option outcome)
    (name : form_data -> string) : Prop :=
  forall (e : env) (fs : gset string) (data : form_data),
    path_join (output_dir e) (name data) ∉ fs ->
    candidate (output_dir e) (name data) 2 ∉ fs ->
    exists base o1 o2,
      name data = base +:+ ".pdf"
      /\ generate e fs data None = Some o1
      /\ generate e (files o1) data None = Some o2
      /\ filepath o1 = path_join (output_dir e) (base +:+ ".pdf")
      /\ filepath o2 = path_join (output_dir e) (base +:+ " (#2).pdf")
      /\ filepath o1 <> filepath o2
      /\ files o2 = {[filepath o2]} ∪ ({[filepath o1]} ∪ fs).

(** A rendering environment: a font whose glyphs are all 0.6 of the font
    size wide, no logo file, output under [/out]. *)
Definition fixed_pitch : env :=
  {| stringWidth := fun s _ size => inject_Z (Z.of_nat (Py.len s)) * (0.6 * size);
     date_text := "01/01/2026";
     logo_path := "Forms/Ajman-University-Logo.png";
     logo_ok := false;
     output_dir := "/out" |}.

(** ** Reading a table's blocks *)

(** The data rows of a block list in drawing order: the row number and the
    item shown, [None] for an empty row. *)
Definition data_rows (bs : list block) : list (nat * option (gmap string string)) :=
  flat_map (fun b => match b with DataRow r _ item => [(r, item)] | _ => [] end) bs.

(** The per-row flow of the Acknowledgment table in the spec's words.  From
    cursor [y], the rows [row_nums] are drawn as [bs]: before each row the
    test [y - row_height < bottom_margin + 4 inch] is made; when it fails the
    row is drawn at [y]; when it holds a page break and the header row at the
    top margin come first, and the row is drawn below that header. *)
Inductive ack_row_flow (items : list (gmap string string))
    : Q -> list nat -> list block -> Prop :=
| flow_done y : ack_row_flow items y [] []
| flow_fits y r rs bs :
    Ack.bottom_margin + 4 * inch <= y - Ack.row_height ->
    ack_row_flow items (y - Ack.row_height) rs bs ->
    ack_row_flow items y (r :: rs) (DataRow r y (items !! r) :: bs)
| flow_breaks y r rs bs :
    y - Ack.row_height < Ack.bottom_margin + 4 * inch ->
    ack_row_flow items (Ack.height - Ack.margin - Ack.header_height - Ack.row_height) rs bs ->
    ack_row_flow items y (r :: rs)
      (PageBreak :: HeaderRow (Ack.height - Ack.margin)
       :: DataRow r (Ack.height - Ack.margin - Ack.header_height) (items !! r) :: bs).

(** Fifty one-field items. *)
Definition fifty_items : list (gmap string string) :=
  replicate 50 (list_to_map [("description", "Chair")]).

(** ** Reading a canvas *)

(** The text a command draws. *)
Definition text_of (c : cmd) : option string :=
  match c with
  | drawString _ _ t | drawCentredString _ _ t => Some t
  | _ => None
  end.

(** The first text drawn by a list of commands. *)
Definition first_text (l : list cmd) : option string := head (omap text_of l).

(** For every [showPage] of a canvas, in order, the first text drawn after
    it: what each new page starts with. *)
Fixpoint page_starts (l : list cmd) : list (option string) :=
  match l with
  | [] => []
  | showPage :: l' => first_text l' :: page_starts l'
  | _ :: l' => page_starts l'
  end.

(** Commands that start no page. *)
Definition no_break (l : list cmd) : Prop := Forall (fun c => c <> showPage) l.

(** The cursor of the Acknowledgment form when [_draw_signature] is
    called, for the cursor [y] left by the items table. *)
Definition ack_signature_cursor (e : env) (y : Q) (data : form_data) : Q :=
  let y := (Ack._check_page_break y (4.5 * inch)).1 in
  let y := (Ack._draw_custodian_details y data).1 in
  let y := (Ack._draw_location_section y data).1 in
  let y := (Ack._draw_declaration e y).1 in
  (Ack._draw_device_selection e y data).1.

(** An Acknowledgment submission with eleven items. *)
Definition eleven_items_form : form_data :=
  {| fields := list_to_map [("custodian_name", "Bob Ray"); ("emp_id", "E12");
                            ("department", "Physics"); ("building", "SZH");
                            ("floor", "1st"); ("section", "Male");
                            ("device_type", "Lab")];
     rows := replicate 11 (list_to_map [("store_code", "S-1"); ("description", "Chair");
                                        ("qty", "1"); ("purchase_date", "2026")]) |}.

(** A submission with no rows at all. *)
Definition no_rows_form : form_data := {| fields := ∅; rows := [] |}.

(** A widget row is blank when its four fields are empty once stripped. *)
Definition blank_row (keys : list string) (w : gmap string string) : Prop :=
  Forall (fun k => Py.strip (Py.get w k) = "") keys.

(** ** Further readings of the code *)

(** Whether the character [c] occurs in [s]. *)
Fixpoint has_char (c : ascii) (s : string) : bool :=
  match s with
  | EmptyString => false
  | String a s' => Ascii.eqb a c || has_char c s'
  end.

(** [n] calls of a [generate()] in a row, each seeing the files the
    earlier ones have written: the paths returned, in call order, and the
    files that exist in the end. *)
Fixpoint repeat_generate (generate : gset string -> option outcome) (n : nat)
    (fs : gset string) : option (list string * gset string) :=
  match n with
  | O => Some ([], fs)
  | S n' =>
      match generate fs with
      | None => None
      | Some o =>
          match repeat_generate generate n' (files o) with
          | None => None
          | Some (paths, fs') => Some (filepath o :: paths, fs')
          end
      end
  end.

(** The [k]-th path of a name [base.pdf]: the name itself, then its
    numbered copies from 2 on. *)
Definition nth_path (dir base : string) (k : nat) : string :=
  if (k <=? 1)%nat then path_join dir (base +:+ ".pdf")
  else path_join dir (numbered base k).

(** An Acknowledgment submission whose employee id is blank and whose first
    description is only spaces. *)
Definition blank_names_form : form_data :=
  {| fields := list_to_map [("emp_id", "   "); ("custodian_name", "Ann")];
     rows := [list_to_map [("description", "  "); ("qty", "2")]] |}.

(** [n] calls of [generate] on the same data, from a directory holding
    none of the first [n] paths of the generated name, return these paths in
    order and leave exactly them added. *)
Definition calls_numbered
    (generate : env -> gset string -> form_data -> option string -> option outcome)
    (name : form_data -> string) : Prop :=
  forall (e : env) (fs : gset string) (data : form_data) (n : nat),
    let base := Py.drop_last 4 (name data) in
    (forall k, (1 <= k <= n)%nat -> nth_path (output_dir e) base k ∉ fs) ->
    nth_path (output_dir e) base 1 = path_join (output_dir e) (name data)
    /\ repeat_generate (fun fs => generate e fs data None) n fs
       = Some (map (nth_path (output_dir e) base) (seq 1 n),
               list_to_set (map (nth_path (output_dir e) base) (seq 1 n)) ∪ fs)
    /\ NoDup (map (nth_path (output_dir e) base) (seq 1 n)).

(** The [form_data] dicts the two GUI handlers build from their widgets
    before they call [generate()]. *)
Definition ack_gui_form_data (w : Ack.widgets) : form_data :=
  {| rows := Ack._get_items (Ack.item_widgets w);
     fields := list_to_map
       [("custodian_name", Py.strip (Ack.name_entry w));
        ("emp_id", Py.strip (Ack.emp_id_entry w));
        ("department", Py.strip (Ack.dept_entry w));
        ("building", Ack.building_var w);
        ("building_other", Py.strip (Ack.building_other_entry w));
        ("floor", Ack.floor_var w);
        ("floor_other", Py.strip (Ack.floor_other_entry w));
        ("section", Ack.section_var w);
        ("device_type", Ack.device_var w)] |}.

Definition transfer_gui_form_data (w : Transfer.widgets) : form_data :=
  {| rows := Transfer._get_assets (Transfer.asset_widgets w);
     fields := list_to_map
       [("from_name", Py.strip (Transfer.from_name_entry w));
        ("from_department", Py.strip (Transfer.from_dept_entry w));
        ("from_emp_id", Py.strip (Transfer.from_emp_id_entry w));
        ("to_name", Py.strip (Transfer.to_name_entry w));
        ("to_department", Py.strip (Transfer.to_dept_entry w));
        ("to_emp_id", Py.strip (Transfer.to_emp_id_entry w))] |}.

(** A row dict as [generate()] should get it: every value trimmed, and some
    value not empty. *)
Definition clean_row (r : gmap string string) : Prop :=
  (forall k, trimmed (Py.get r k)) /\ exists k, Py.get r k <> "".

(** Widgets with two filled rows around a blank one. *)
Definition sample_ack_widgets : Ack.widgets :=
  {| Ack.item_widgets :=
       [list_to_map [("store_code", " S-1 "); ("description", "Chair")];
        list_to_map [("store_code", "   "); ("qty", "")];
        list_to_map [("description", " Desk ")]];
     Ack.name_entry := " Bob Ray ";
     Ack.emp_id_entry := "E12";
     Ack.dept_entry := "";
     Ack.building_var := "SZH";
     Ack.building_other_entry := "";
     Ack.floor_var := "1st";
     Ack.floor_other_entry := "";
     Ack.section_var := "Male";
     Ack.device_var := "Lab" |}.

(** How many commands of a canvas satisfy [p]. *)
Definition count_cmds (p : cmd -> bool) (l : list cmd) : nat := length (List.filter p l).

(** A filled radio button is the small filled circle [_draw_radio] adds
    for a selected choice; the free-text underlines are [line] commands. *)
Definition is_filled_circle (c : cmd) : bool :=
  match c with circle _ _ _ true => true | _ => false end.

Definition is_line (c : cmd) : bool :=
  match c with line _ _ _ _ => true | _ => false end.

(** 1 for [true], 0 for [false]. *)
Definition one_if (b : bool) : nat := if b then 1%nat else 0%nat.

(** [s in l] for a list of strings. *)
Definition among (s : string) (l : list string) : bool := existsb (String.eqb s) l.

(** The cursor at which [_draw_form] of the Transfer form starts the
    assets table: below the header, the date and the sender block. *)
Definition transfer_table_cursor (e : env) (data : form_data) : Q :=
  let y := Transfer.height - Transfer.margin in
  let y := (Transfer._draw_header e y).1 in
  let y := (Transfer._draw_date e y).1 in
  (Transfer._draw_transferred_from e y data).1.

(** A natural number as a length factor. *)
Definition nq (n : nat) : Q := inject_Z (Z.of_nat n).

(** A Transfer submission with twenty-four assets. *)
Definition twenty_four_assets_form : form_data :=
  {| fields := list_to_map [("from_name", "Ann Lee"); ("to_name", "Bob Ray")];
     rows := replicate 24 (list_to_map [("store_code", "S-1"); ("asset_name", "Chair")]) |}.

(** The cursor at which [_draw_form] of the Acknowledgment form starts the
    items table: below the header and the date. *)
Definition ack_table_cursor (e : env) : Q :=
  (Ack._draw_date e (Ack._draw_header e (Ack.height - Ack.margin)).1).1.

(** How many page breaks a list of blocks holds. *)
Definition count_breaks (bs : list block) : nat :=
  length (List.filter (fun b => match b with PageBreak => true | _ => false end) bs).

(** ** The signature field: [_add_signature_field] *)

Module Pdf.

(** The widget annotation of the signature field; [P] is the index of the
    page its [/P] entry refers to. *)
Record sig_field := {
  Type_ : string;
  Subtype : string;
  FT : string;
  T : string;
  F : Z;
  Rect : Z * Z * Z * Z;
  P : nat
}.

(** A page as [PdfReader] hands it over: what was drawn on it and its
    [/Annots] entry, if it has one. *)
Record page := {
  contents : list cmd;
  Annots : option (list sig_field)
}.

Record acro_form := {
  Fields : list sig_field;
  SigFlags : Z
}.

(** What [writer.write] puts into the output file. *)
Record document := {
  pages : list page;
  AcroForm : option acro_form
}.

End Pdf.

(** [_add_signature_field] of either generator; the two differ in the field
    name [/T] only.  The writer starts empty, so it has no [/AcroForm] before
    the field is added.  [None] is the [IndexError] of [writer.pages[-1]]. *)
Definition _add_signature_field (title : string) (reader_pages : list Pdf.page)
    (sig_field_rect : option (Q * Q * Q * Q)) : option Pdf.document :=
  let writer_pages := reader_pages in
  match last writer_pages with
  | None => None
  | Some last_page =>
      match sig_field_rect with
      | Some (x1, y1, x2, y2) =>
          let sig_field :=
            {| Pdf.Type_ := "/Annot"; Pdf.Subtype := "/Widget"; Pdf.FT := "/Sig";
               Pdf.T := title; Pdf.F := 4;
               Pdf.Rect := (Py.int x1, Py.int y1, Py.int x2, Py.int y2);
               Pdf.P := (length writer_pages - 1)%nat |} in
          let annots := default [] (Pdf.Annots last_page) ++ [sig_field] in
          let last_page :=
            {| Pdf.contents := Pdf.contents last_page; Pdf.Annots := Some annots |} in
          Some {| Pdf.pages := <[(length writer_pages - 1)%nat := last_page]> writer_pages;
                  Pdf.AcroForm := Some {| Pdf.Fields := [sig_field]; Pdf.SigFlags := 3 |} |}
      | None => Some {| Pdf.pages := writer_pages; Pdf.AcroForm := None |}
      end
  end.

(** ** What a canvas shows *)

(** The boxes a list of commands draws, in order, each as the corner
    [(x, y)], the width and the height of its [rect]. *)
Definition boxes (l : list cmd) : list (Q * Q * Q * Q) :=
  omap (fun c => match c with rect x y w h => Some (x, y, w, h) | _ => None end) l.

(** The texts a list of commands draws, in order. *)
Definition texts (l : list cmd) : list string := omap text_of l.

(** Boxes of the widths [ws] side by side from [x] to the right, all with
    the lower edge [y] and the height [h]. *)
Fixpoint side_by_side (x : Q) (ws : list Q) (y h : Q) : list (Q * Q * Q * Q) :=
  match ws with
  | [] => []
  | w :: ws' => (x, y, w, h) :: side_by_side (x + w) ws' y h
  end.

(** Table-cell truncation in the spec's words: a text longer than
    [floor(width / 5.5)] characters is cut to that many, nothing appended. *)
Definition hard_truncate (width : Q) (text : string) : string :=
  let max_chars := Z.to_nat (Qfloor (width / 5.5)) in
  if (max_chars <? Py.len text)%nat then Py.take max_chars text else text.

(** The texts of the data row [row_num] showing [item]: the row number
    counted from 1, unchanged, then the fields [keys], each truncated to the
    width of its column; [widths] starts with the index column. *)
Definition row_shows (keys : list string) (widths : list Q) (row_num : nat)
    (item : gmap string string) : list string :=
  Py.str (row_num + 1)
  :: zip_with (fun key w => hard_truncate w (Py.get item key)) keys (tail widths).

(** What a block of a table puts on the canvas.  A page break is one
    [showPage].  A header row starts no page and draws one box per column,
    [header_height] high with the upper edge at [y], and the header texts.
    A data row starts no page and draws one box per column, [row_height]
    high with the upper edge at [y], and the texts of its item, or no text
    when it shows none. *)
Definition shows (x_start : Q) (widths : list Q) (header_height row_height : Q)
    (header_texts keys : list string) (b : block) (l : list cmd) : Prop :=
  match b with
  | PageBreak => l = [showPage]
  | HeaderRow y =>
      no_break l
      /\ boxes l = side_by_side x_start widths (y - header_height) header_height
      /\ texts l = header_texts
  | DataRow row_num y item =>
      no_break l
      /\ boxes l = side_by_side x_start widths (y - row_height) row_height
      /\ texts l = match item with
                   | Some it => row_shows keys widths row_num it
                   | None => []
                   end
  end.

Definition ack_shows : block -> list cmd -> Prop :=
  shows Ack.x_start Ack.col_widths Ack.header_height Ack.row_height
    ["No."; "Store Code"; "Item Description"; "Qty."; "Purchase Date"; "/LPO"]
    ["store_code"; "description"; "qty"; "purchase_date"].

Definition transfer_shows : block -> list cmd -> Prop :=
  shows Transfer.x_start Transfer.col_widths Transfer.header_height Transfer.row_height
    ["No."; "Store Code"; "Asset Name"; "Description"; "Old Asset No."]
    ["store_code"; "asset_name"; "description"; "old_asset_no"].

(** The commands [l] are drawn block by block: they fall into one run of
    commands for each of [blocks], in order, each run showing its block. *)
Definition drawn_as (shows : block -> list cmd -> Prop) (blocks : list block)
    (l : list cmd) : Prop :=
  exists runs, l = concat runs /\ Forall2 shows blocks runs.

(** ** Radio buttons on the canvas *)

(** What is read off a canvas for the radio groups: a filled button, or a
    text. *)
Inductive mark :=
| Filled
| Text (t : string).

(** The filled circles and the texts of a list of commands, in order. *)
Definition marks (l : list cmd) : list mark :=
  omap (fun c => match c with
                 | circle _ _ _ true => Some Filled
                 | drawString _ _ t | drawCentredString _ _ t => Some (Text t)
                 | _ => None
                 end) l.

(** The position of [s] in [l], if it is there. *)
Fixpoint index_of (s : string) (l : list string) : option nat :=
  match l with
  | [] => None
  | a :: l' => if String.eqb a s then Some 0%nat else S <$> index_of s l'
  end.

(** The choice a value selects in a group that has the choice [Others:]:
    the choice equal to the value, and [Others:] for the value [Others]. *)
Definition chosen (choices : list string) (value : string) : option nat :=
  index_of (if String.eqb value "Others" then "Others:" else value) choices.

(** A radio group as it should read: choice by choice the filled button, if
    this is the selected choice, then the label of the choice; after the last
    choice the free text, if there is one. *)
Definition group_marks (choices : list string) (selected : option nat)
    (label : string -> list string) (free : option string) : list mark :=
  concat (imap (fun i choice =>
                  (if bool_decide (selected = Some i) then [Filled] else [])
                  ++ map Text (label choice)) choices)
  ++ match free with Some t => [Text t] | None => [] end.

(** The floors [1st], [2nd] and [3rd] are drawn as a digit and a raised
    suffix. *)
Definition floor_label (floor : string) : list string :=
  if bool_decide (floor ∈ ["1st"; "2nd"; "3rd"])
  then [Py.take 1 floor; Py.drop 1 floor] else [floor].

(** ** The file names as the rule states them *)

(** The two names built from the fields as they come: [field or Unknown]
    with every forbidden character replaced, in the frames of the two forms,
    the description or [Asset] cut to 30 characters. *)
Definition stated_ack_filename (data : form_data) : string :=
  let field k := replace_invalid (Py.or_else (Py.get (fields data) k) "Unknown") in
  field "emp_id" +:+ " - " +:+ field "custodian_name" +:+ " - acknowledgement form "
  +:+ replace_invalid (Py.take 30 (Py.or_else (first_description data) "Asset"))
  +:+ ".pdf".

Definition stated_transfer_filename (data : form_data) : string :=
  let field k := replace_invalid (Py.or_else (Py.get (fields data) k) "Unknown") in
  "Asset Transfer - From " +:+ field "from_emp_id" +:+ "-" +:+ field "from_name"
  +:+ " to " +:+ field "to_emp_id" +:+ "-" +:+ field "to_name" +:+ ".pdf".

(** An Acknowledgment submission whose fields carry blanks around them. *)
Definition untrimmed_form : form_data :=
  {| fields := list_to_map [("emp_id", " E1"); ("custodian_name", "Ann ")];
     rows := [list_to_map [("description", " Chair")]] |}.

(** * Properties *)

(** ** Strings *)

Lemma str_app_cons a s t : String a s +:+ t = String a (s +:+ t).
Proof. reflexivity. Qed.

Lemma str_app_empty_r s : s +:+ "" = s.
Proof. induction s as [|a s IH]; [reflexivity|]. rewrite str_app_cons. by f_equal. Qed.

Lemma str_app_assoc s t u : (s +:+ t) +:+ u = s +:+ (t +:+ u).
Proof.
  induction s as [|a s IH]; [reflexivity|].
  rewrite !str_app_cons. by f_equal.
Qed.

Lemma len_app s t : Py.len (s +:+ t) = (Py.len s + Py.len t)%nat.
Proof.
  induction s as [|a s IH]; [reflexivity|].
  rewrite str_app_cons. unfold Py.len in *. simpl. by rewrite IH.
Qed.

Lemma len_take n s : Py.len (Py.take n s) = (n `min` Py.len s)%nat.
Proof.
  revert s. induction n as [|n IH]; intros [|a s]; try reflexivity.
  unfold Py.len in *. simpl. by rewrite IH.
Qed.

Lemma take_all n s : (Py.len s <= n)%nat -> Py.take n s = s.
Proof.
  revert s. induction n as [|n IH]; intros [|a s] H; try reflexivity.
  - unfold Py.len in H. simpl in H. lia.
  - simpl. f_equal. apply IH. unfold Py.len in *. simpl in H. lia.
Qed.

Lemma take_drop n s : Py.take n s +:+ Py.drop n s = s.
Proof.
  revert s. induction n as [|n IH]; intros [|a s]; try reflexivity.
  simpl. rewrite str_app_cons. by f_equal.
Qed.

Lemma take_app s t : Py.take (Py.len s) (s +:+ t) = s.
Proof.
  induction s as [|a s IH]; [by destruct t|].
  rewrite str_app_cons. unfold Py.len in *. simpl. by f_equal.
Qed.

Lemma drop_last_app s t : Py.drop_last (Py.len t) (s +:+ t) = s.
Proof.
  unfold Py.drop_last. rewrite len_app.
  replace (Py.len s + Py.len t - Py.len t)%nat with (Py.len s) by lia.
  apply take_app.
Qed.

Lemma truthy_len s : Py.truthy s = (0 <? Py.len s)%nat.
Proof. by destruct s. Qed.

(** ** Table-cell truncation *)

Lemma int_floor q : 0 <= q -> Py.int q = Qfloor q.
Proof.
  destruct q as [n d]. unfold Qle, Py.int, Qfloor. simpl. intros H.
  apply Z.quot_div_nonneg; lia.
Qed.

Lemma cell_width_nonneg width : 0 <= width -> 0 <= width / 5.5.
Proof.
  intros H. unfold Qdiv. apply Qmult_le_0_compat; [done|]. by vm_compute.
Qed.

Lemma col_widths_nonneg :
  Forall (fun w => 0 <= w) (Ack.col_widths ++ Transfer.col_widths).
Proof. repeat constructor; by vm_compute. Qed.

(** ** Truncate-with-ellipsis *)

Section Ellipsis.
Variable width : string -> Q.
Variable max_width : Q.

Lemma gt_false_le a b : Py.gt a b = false <-> a <= b.
Proof.
  unfold Py.gt, Py.lt. rewrite negb_false_iff. apply Qle_bool_iff.
Qed.

Lemma gt_true_not_le a b : Py.gt a b = true <-> ~ a <= b.
Proof.
  rewrite <- gt_false_le. destruct (Py.gt a b); split; congruence.
Qed.

Lemma take_take m n s : (m <= n)%nat -> Py.take m (Py.take n s) = Py.take m s.
Proof.
  revert n s. induction m as [|m IH]; intros [|n] [|a s] H; try reflexivity; [lia|].
  simpl. f_equal. apply IH. lia.
Qed.

Lemma drop_last_1_take n s :
  (n <= Py.len s)%nat -> Py.drop_last 1 (Py.take n s) = Py.take (n - 1) s.
Proof.
  intros H. unfold Py.drop_last. rewrite len_take.
  replace (n `min` Py.len s)%nat with n by lia.
  apply take_take. lia.
Qed.

(** The loop started on the first [n] characters of [text] stops at the
    longest prefix of at most [n] characters that is empty or fits with
    the three dots. *)
Lemma truncate_loop_spec text n fuel :
  (n <= Py.len text)%nat -> (n <= fuel)%nat ->
  exists k, (k <= n)%nat
    /\ truncate_loop width max_width fuel (Py.take n text) = Py.take k text
    /\ (forall j, (k < j <= n)%nat -> ~ width (Py.take j text +:+ "...") <= max_width)
    /\ (k = 0%nat \/ width (Py.take k text +:+ "...") <= max_width).
Proof.
  revert n. induction fuel as [|fuel IH]; intros n Hn Hf.
  - exists 0%nat. assert (n = 0)%nat as -> by lia. simpl.
    split; [lia|]. split; [done|]. split; [|by left]. intros j Hj. lia.
  - simpl. rewrite len_take. replace (n `min` Py.len text)%nat with n by lia.
    destruct n as [|n].
    + exists 0%nat. simpl.
      split; [lia|]. split; [done|]. split; [|by left]. intros j Hj; lia.
    + simpl (0 <? S n)%nat. rewrite andb_true_l.
      destruct (Py.gt _ _) eqn:Hgt.
      * rewrite drop_last_1_take by done.
        replace (S n - 1)%nat with n by lia.
        destruct (IH n) as (k & Hk & Heq & Hlong & Hfit); [lia..|].
        exists k. split; [lia|]. split; [done|]. split; [|done].
        intros j Hj. destruct (decide (j = S n)) as [->|Hne].
        -- by apply gt_true_not_le.
        -- apply Hlong. lia.
      * exists (S n). split; [lia|]. split; [done|]. split.
        -- intros j Hj; lia.
        -- right. by apply gt_false_le.
Qed.

(** C7. A text whose measured width is at most [max_width] is returned
    unchanged, so truncating an already fitting text again changes
    nothing.  For a wider text the result is [p + "..."] for the longest
    prefix [p] of the text with which it fits, and its width is at most
    [max_width]; when no non-empty prefix fits the result is the empty
    string. *)
Theorem truncate_text_ellipsis (text : string) :
  (width text <= max_width ->
     _truncate_text width text max_width = text
     /\ _truncate_text width (_truncate_text width text max_width) max_width = text)
  /\ (~ width text <= max_width ->
      exists k, (k <= Py.len text)%nat
        /\ (forall j, (k < j <= Py.len text)%nat ->
              ~ width (Py.take j text +:+ "...") <= max_width)
        /\ ((k = 0%nat /\ _truncate_text width text max_width = "")
            \/ ((0 < k)%nat
                /\ _truncate_text width text max_width = Py.take k text +:+ "..."
                /\ width (_truncate_text width text max_width) <= max_width))).
Proof.
  split.
  - intros Hfit.
    assert (H1 : _truncate_text width text max_width = text).
    { unfold _truncate_text. destruct text as [|a s]; [reflexivity|]. simpl.
      by apply Qle_bool_iff in Hfit as ->. }
    by rewrite !H1.
  - intros Hover. unfold _truncate_text.
    destruct (Py.truthy text) eqn:Ht; simpl.
    + destruct (Qle_bool (width text) max_width) eqn:Hle.
      { exfalso. by apply Hover, Qle_bool_iff. }
      destruct (truncate_loop_spec text (Py.len text) (Py.len text))
        as (k & Hk & Heq & Hlong & Hfit); [lia..|].
      rewrite take_all in Heq by lia. rewrite Heq.
      exists k. split; [done|]. split; [done|].
      destruct k as [|k].
      * left. by destruct text.
      * right. destruct Hfit as [?|Hfit]; [done|].
        assert (Py.truthy (Py.take (S k) text) = true) as ->.
        { rewrite truthy_len, len_take. apply Nat.ltb_lt.
          rewrite truthy_len in Ht. apply Nat.ltb_lt in Ht. lia. }
        repeat split; [lia|done].
    + exists 0%nat. destruct text; [|done]. repeat split; [lia| |by left].
      intros j Hj. simpl in Hj. lia.
Qed.

End Ellipsis.

(** In a font where every glyph is 6 units wide, 40 units hold three
    characters and the dots, and a short text is kept as it is. *)
Lemma truncate_text_ellipsis_witness :
  let width := fun s : string => inject_Z (Z.of_nat (Py.len s)) * 6 in
  _truncate_text width "abc" 40 = "abc"
  /\ _truncate_text width "abcdefghijkl" 40 = "abc...".
Proof.
  intros width. split.
  - apply (truncate_text_ellipsis width 40 "abc"). by vm_compute.
  - destruct (truncate_text_ellipsis width 40 "abcdefghijkl") as [_ H].
    destruct H as (k & _ & _ & _); [by vm_compute|]. reflexivity.
Defined.

(** ** Word wrap *)

Lemma join_cons_cons sep a b l :
  Py.join sep (a :: b :: l) = a +:+ sep +:+ Py.join sep (b :: l).
Proof. reflexivity. Qed.

Lemma join_app sep l1 l2 :
  l1 <> [] -> l2 <> [] ->
  Py.join sep (l1 ++ l2) = Py.join sep l1 +:+ sep +:+ Py.join sep l2.
Proof.
  intros H1 H2. induction l1 as [|a l1 IH]; [done|].
  destruct l1 as [|b l1].
  - destruct l2 as [|c l2]; [done|]. reflexivity.
  - change ((a :: b :: l1) ++ l2) with (a :: b :: (l1 ++ l2)).
    rewrite !join_cons_cons. change (b :: l1 ++ l2) with ((b :: l1) ++ l2).
    rewrite IH by done. by rewrite !str_app_assoc.
Qed.

Lemma join_groups sep (groups : list (list string)) :
  Forall (fun g => g <> []) groups ->
  Py.join sep (map (Py.join sep) groups) = Py.join sep (concat groups).
Proof.
  induction 1 as [|g gs Hg Hgs IH]; [reflexivity|].
  destruct gs as [|g' gs].
  - simpl. by rewrite app_nil_r.
  - change (map (Py.join sep) (g :: g' :: gs))
      with (Py.join sep g :: Py.join sep g' :: map (Py.join sep) gs).
    rewrite join_cons_cons. change (concat (g :: g' :: gs)) with (g ++ concat (g' :: gs)).
    rewrite join_app; [by rewrite <- IH|done|].
    inversion Hgs; subst. simpl. by destruct g'.
Qed.

Section Wrap.
Variable width : string -> Q.
Variable max_width : Q.

(** The loop invariant of the wrap: the closed lines are groups of words
    that fit, the open line fits once it is not empty, and the groups
    followed by the open line are the words read so far. *)
Lemma wrap_fold words : forall groups cur,
  Forall (fun w => width w <= max_width) words ->
  Forall (closed_line width max_width) groups ->
  (cur <> [] -> width (Py.join " " cur) <= max_width) ->
  exists groups' cur',
    foldl (wrap_step width max_width) (map (Py.join " ") groups, cur) words
      = (map (Py.join " ") groups', cur')
    /\ Forall (closed_line width max_width) groups'
    /\ (cur' <> [] -> width (Py.join " " cur') <= max_width)
    /\ concat groups' ++ cur' = concat groups ++ cur ++ words.
Proof.
  induction words as [|w words IH]; intros groups cur Hw Hg Hc.
  - exists groups, cur. by rewrite app_nil_r.
  - inversion Hw as [|? ? Hfit Hrest]; subst. simpl.
    destruct (Py.gt _ _) eqn:Hgt.
    + rewrite removelast_last.
      destruct cur as [|c cur].
      { exfalso. simpl in Hgt. apply gt_true_not_le in Hgt. by apply Hgt. }
      destruct (IH (groups ++ [c :: cur]) [w]) as (gs' & cur' & Heq & Hgs' & Hc' & Hcat).
      * done.
      * apply Forall_app. split; [done|]. constructor; [|done].
        split; [done|]. by apply Hc.
      * intros _. done.
      * exists gs', cur'. rewrite map_app in Heq. simpl in Heq.
        split; [done|]. split; [done|]. split; [done|].
        rewrite Hcat, concat_app. simpl. by rewrite app_nil_r, <- !app_assoc.
    + destruct (IH groups (cur ++ [w])) as (gs' & cur' & Heq & Hgs' & Hc' & Hcat).
      * done.
      * done.
      * intros _. by apply gt_false_le.
      * exists gs', cur'. split; [done|]. split; [done|]. split; [done|].
        by rewrite Hcat, <- app_assoc.
Qed.

(** C1, as the code has it.  When every word of the text is at most
    [max_width] wide, the lines are the words of the text cut into
    consecutive non-empty groups, each group joined with single spaces: no
    word is dropped, duplicated or moved.  Joining the lines with single
    spaces gives the words of the text joined with single spaces, and no
    line is wider than [max_width]. *)
Theorem word_wrap_lines (text : string) :
  Forall (fun w => width w <= max_width) (Py.split text) ->
  exists groups,
    word_wrap width max_width text = map (Py.join " ") groups
    /\ Forall (fun g => g <> []) groups
    /\ concat groups = Py.split text
    /\ Py.join " " (word_wrap width max_width text) = Py.join " " (Py.split text)
    /\ Forall (fun l => width l <= max_width) (word_wrap width max_width text).
Proof.
  intros Hw. unfold word_wrap, wrap_words.
  destruct (wrap_fold (Py.split text) [] [] Hw) as (gs & cur & Heq & Hgs & Hc & Hcat);
    [constructor|done|].
  simpl in Heq, Hcat. rewrite Heq.
  assert (Hne : forall l : list (list string), Forall (closed_line width max_width) l -> Forall (fun g => g <> []) l).
  { intros l Hl. eapply Forall_impl; [exact Hl|]. by intros g [? _]. }
  assert (Hfit : forall l : list (list string), Forall (closed_line width max_width) l ->
            Forall (fun l => width l <= max_width) (map (Py.join " ") l)).
  { intros l Hl. apply Forall_map. eapply Forall_impl; [exact Hl|]. by intros g [_ ?]. }
  destruct cur as [|c cur].
  - exists gs. rewrite app_nil_r in Hcat.
    split; [done|]. split; [by apply Hne|]. split; [done|].
    split; [|by apply Hfit].
    rewrite join_groups by (by apply Hne). by rewrite Hcat.
  - assert (Hall : Forall (closed_line width max_width) (gs ++ [c :: cur])).
    { apply Forall_app. split; [done|]. constructor; [|done]. split; [done|]. by apply Hc. }
    assert (Hl : map (Py.join " ") gs ++ [Py.join " " (c :: cur)]
                 = map (Py.join " ") (gs ++ [c :: cur])) by (by rewrite map_app).
    rewrite Hl. exists (gs ++ [c :: cur]).
    split; [done|]. split; [by apply Hne|].
    split; [by rewrite concat_app; simpl; rewrite app_nil_r|].
    split; [|by apply Hfit].
    rewrite join_groups by (by apply Hne).
    rewrite concat_app. simpl concat. by rewrite app_nil_r, Hcat.
Qed.

End Wrap.

(** The two wrapped paragraphs of the Acknowledgment form are single-spaced,
    so their words joined with single spaces are the paragraphs themselves. *)
Lemma wrapped_texts_single_spaced :
  Py.join " " (Py.split Ack.declaration_text) = Ack.declaration_text
  /\ Py.join " " (Py.split Ack.office_text) = Ack.office_text.
Proof. split; reflexivity. Qed.

(** Glyph measurement of a font in which every glyph is [w] units wide. *)
Lemma word_wrap_lines_witness :
  let width := fun s : string => inject_Z (Z.of_nat (Py.len s)) * 6 in
  exists groups,
    word_wrap width 60 "aaa bbb  cc dddddddddd e" = map (Py.join " ") groups
    /\ concat groups = ["aaa"; "bbb"; "cc"; "dddddddddd"; "e"].
Proof.
  intros width.
  destruct (word_wrap_lines width 60 "aaa bbb  cc dddddddddd e")
    as (groups & H1 & _ & H2 & _).
  - apply Forall_fold_right. vm_compute. repeat split; discriminate.
  - exists groups. split; [exact H1|exact H2].
Defined.

(** C1 as stated fails for a word wider than [max_width]: in a font with
    glyphs 6 units wide and 5 units of room, the text "abc" is wrapped into
    an empty line followed by "abc".  The lines joined with single spaces
    are not the text, and the second line is too wide. *)
Lemma word_wrap_counterexample :
  let width := fun s : string => inject_Z (Z.of_nat (Py.len s)) * 6 in
  word_wrap width 5 "abc" = [""; "abc"]
  /\ Py.join " " (word_wrap width 5 "abc") <> "abc"
  /\ ~ Forall (fun l => width l <= 5) (word_wrap width 5 "abc").
Proof.
  intros width. split; [reflexivity|]. split.
  - by vm_compute.
  - intros H. apply Forall_cons_1 in H as [_ H]. apply Forall_cons_1 in H as [H _].
    by vm_compute in H.
Qed.

(** ** File names *)

Lemma clean_cons a s :
  clean (String a s) = String (if is_invalid a then "_"%char else a) (clean s).
Proof. destruct a as [[] [] [] [] [] [] [] []]; reflexivity. Qed.

(** The nine successive [replace] calls replace exactly the forbidden
    characters. *)
Lemma clean_replace_invalid s : clean s = replace_invalid s.
Proof.
  induction s as [|a s IH]; [reflexivity|].
  rewrite clean_cons. simpl. by rewrite IH.
Qed.

Lemma take_if_longer n s :
  (if (n <? Py.len s)%nat then Py.take n s else s) = Py.take n s.
Proof.
  destruct (n <? Py.len s)%nat eqn:H; [done|].
  apply Nat.ltb_ge in H. by rewrite take_all.
Qed.

Lemma or_else_take n a b :
  (Py.len b <= n)%nat ->
  Py.take n (Py.or_else a b) = if Py.truthy a then Py.take n a else b.
Proof. intros H. unfold Py.or_else. destruct (Py.truthy a); [done|]. by apply take_all. Qed.

(** The names the code builds, with its [strip] calls left in place. *)
Lemma ack_filename_stripped data :
  Ack._generate_filename data =
    replace_invalid (Py.or_else (Py.strip (Py.get (fields data) "emp_id")) "Unknown")
    +:+ " - "
    +:+ replace_invalid (Py.or_else (Py.strip (Py.get (fields data) "custodian_name")) "Unknown")
    +:+ " - acknowledgement form "
    +:+ replace_invalid
          (if Py.truthy (first_description data)
           then Py.take 30 (Py.strip (first_description data)) else "Asset")
    +:+ ".pdf".
Proof.
  unfold Ack._generate_filename, first_description. rewrite !clean_replace_invalid.
  do 4 f_equal. destruct (rows data) as [|item0 ?]; [done|].
  destruct (Py.truthy _); [|done]. by rewrite take_if_longer.
Qed.

(** C8, as the code has it.  For a submission whose name fields and first
    description carry no surrounding whitespace, the two file names are the
    names of the rule: the Acknowledgment name is [emp_id or Unknown],
    [name or Unknown] and the first item's description or [Asset] cut to 30
    characters, and the Transfer name is built from the four sender and
    receiver fields or [Unknown], each field with every forbidden character
    replaced by an underscore, in the fixed frames of the two forms. *)
Theorem generated_filenames (data : form_data) :
  names_trimmed data ->
  Ack._generate_filename data = stated_ack_filename data
  /\ Transfer._generate_filename data = stated_transfer_filename data.
Proof.
  intros [Hf Hd]. unfold stated_ack_filename, stated_transfer_filename.
  unfold trimmed in *.
  apply Forall_cons_1 in Hf as [He Hf]. apply Forall_cons_1 in Hf as [Hn Hf].
  apply Forall_cons_1 in Hf as [Hfe Hf]. apply Forall_cons_1 in Hf as [Hfn Hf].
  apply Forall_cons_1 in Hf as [Hte Hf]. apply Forall_cons_1 in Hf as [Htn _].
  split.
  - rewrite ack_filename_stripped. rewrite or_else_take by (vm_compute; lia).
    by rewrite He, Hn, Hd.
  - unfold Transfer._generate_filename. rewrite !clean_replace_invalid.
    by rewrite Hfe, Hfn, Hte, Htn.
Qed.

Lemma generated_filenames_witness :
  Transfer._generate_filename transfer_no_sender
    = "Asset Transfer - From Unknown-Unknown to E77-Ann Lee.pdf"
  /\ Ack._generate_filename ack_long_description
    = "E1_2 - Bob - acknowledgement form Laptop _Dell_ with a very long.pdf".
Proof.
  split.
  - destruct (generated_filenames transfer_no_sender) as [_ ->]; [|reflexivity].
    split; [|reflexivity]. repeat constructor.
  - destruct (generated_filenames ack_long_description) as [-> _]; [|reflexivity].
    split; [|reflexivity]. repeat constructor.
Defined.

(** C8 as stated fails for fields with blanks around them: the code strips
    each field before it builds the name, so the blank before the employee id
    and the blanks after the name and before the description are gone, where
    the rule keeps them; and a field of blanks only reads [Unknown], a
    description of blanks only gives an empty part. *)
Lemma generated_filenames_counterexample :
  Ack._generate_filename untrimmed_form = "E1 - Ann - acknowledgement form Chair.pdf"
  /\ stated_ack_filename untrimmed_form = " E1 - Ann  - acknowledgement form  Chair.pdf"
  /\ Ack._generate_filename blank_names_form
     = "Unknown - Ann - acknowledgement form .pdf"
  /\ stated_ack_filename blank_names_form
     = "    - Ann - acknowledgement form   .pdf"
  /\ ~ names_trimmed untrimmed_form.
Proof.
  split; [reflexivity|]. split; [reflexivity|]. split; [reflexivity|].
  split; [reflexivity|].
  intros [Hf _]. apply Forall_cons_1 in Hf as [He _]. by vm_compute in He.
Qed.

(** ** Unique output paths *)

Lemma str_inj n m : Py.str n = Py.str m -> n = m.
Proof.
  unfold Py.str. intros H. apply Unsigned.to_uint_inj.
  apply (f_equal NilEmpty.uint_of_string) in H. rewrite !NilEmpty.usu in H.
  congruence.
Qed.

Lemma str_app_inj_r a b t : a +:+ t = b +:+ t -> a = b.
Proof.
  revert b. induction a as [|c a IH]; intros [|d b] H.
  - done.
  - apply (f_equal Py.len) in H. rewrite !len_app in H.
    unfold Py.len in H. simpl in H. lia.
  - apply (f_equal Py.len) in H. rewrite !len_app in H.
    unfold Py.len in H. simpl in H. lia.
  - rewrite !str_app_cons in H. injection H as -> H. f_equal. by apply IH.
Qed.

Lemma numbered_inj base j k : numbered base j = numbered base k -> j = k.
Proof.
  unfold numbered. intros H.
  apply (inj (String.app base)) in H. apply (inj (String.app " (#")) in H.
  by apply str_app_inj_r, str_inj in H.
Qed.

Lemma startswith_numbered c base j k :
  Py.startswith c (numbered base j) = Py.startswith c (numbered base k).
Proof. by destruct base. Qed.

Lemma path_join_numbered_inj dir base j k :
  path_join dir (numbered base j) = path_join dir (numbered base k) -> j = k.
Proof.
  unfold path_join. rewrite (startswith_numbered _ base j k).
  destruct (Py.startswith _ _).
  - apply numbered_inj.
  - destruct (_ || _); intros H.
    + by apply (inj (String.app dir)), numbered_inj in H.
    + by apply (inj (String.app dir)), (inj (String.app "/")), numbered_inj in H.
Qed.

Lemma probe_some fs dir base fuel c p :
  probe fs dir base fuel c = Some p ->
  exists k, (c <= k < c + fuel)%nat
    /\ p = path_join dir (numbered base k)
    /\ (p ∉ fs)
    /\ forall j, (c <= j < k)%nat -> path_join dir (numbered base j) ∈ fs.
Proof.
  revert c. induction fuel as [|fuel IH]; intros c H; [done|].
  simpl in H. case_bool_decide as Hin.
  - destruct (IH _ H) as (k & Hk & -> & Hfree & Hbusy).
    exists k. split; [lia|]. split; [done|]. split; [done|].
    intros j Hj. destruct (decide (j = c)) as [->|?]; [done|]. apply Hbusy. lia.
  - injection H as <-. exists c. split; [lia|]. split; [done|]. split; [done|].
    intros j Hj. lia.
Qed.

Lemma probe_none fs dir base fuel c :
  probe fs dir base fuel c = None ->
  forall j, (c <= j < c + fuel)%nat -> path_join dir (numbered base j) ∈ fs.
Proof.
  revert c. induction fuel as [|fuel IH]; intros c H j Hj; [lia|].
  simpl in H. case_bool_decide as Hin; [|done].
  destruct (decide (j = c)) as [->|?]; [done|]. apply (IH _ H). lia.
Qed.

(** The existing paths cannot hold one more numbered name than they are:
    the probe returns. *)
Lemma probe_returns fs dir base c :
  is_Some (probe fs dir base (S (size fs)) c).
Proof.
  destruct (probe _ _ _ _ _) eqn:H; [by eexists|]. exfalso.
  pose proof (probe_none _ _ _ _ _ H) as Hall.
  set (l := (fun k => path_join dir (numbered base k)) <$> seq c (S (size fs))).
  assert (Hnd : NoDup l).
  { apply NoDup_fmap_2; [|apply NoDup_seq]. intros j k. apply path_join_numbered_inj. }
  assert (Hsub : list_to_set l ⊆ fs).
  { intros x Hx. apply elem_of_list_to_set, list_elem_of_fmap in Hx as (k & -> & Hk).
    apply elem_of_seq in Hk. apply Hall. lia. }
  apply subseteq_size in Hsub. rewrite size_list_to_set in Hsub by done.
  unfold l in Hsub. rewrite length_fmap, length_seq in Hsub. lia.
Qed.

(** What [_get_unique_filepath] returns: always a path that does not
    exist; the joined path itself when it is free, else the candidate of
    the least counter from 2 on whose path is free. *)
Lemma unique_filepath_spec fs dir filename :
  exists p, _get_unique_filepath fs dir filename = Some p /\ (p ∉ fs)
    /\ (((path_join dir filename ∉ fs) /\ p = path_join dir filename)
        \/ ((path_join dir filename ∈ fs)
            /\ exists k, (2 <= k)%nat /\ p = candidate dir filename k
                 /\ forall j, (2 <= j < k)%nat -> candidate dir filename j ∈ fs)).
Proof.
  unfold _get_unique_filepath.
  destruct (bool_decide (path_join dir filename ∈ fs)) eqn:Hin; cbn [negb].
  - apply bool_decide_eq_true in Hin.
    destruct (probe_returns fs dir (Py.drop_last 4 filename) 2) as [p Hp].
    rewrite Hp. destruct (probe_some _ _ _ _ _ _ Hp) as (k & Hk & -> & Hfree & Hbusy).
    eexists. split; [done|]. split; [done|]. right. split; [done|].
    exists k. split; [lia|]. by split.
  - apply bool_decide_eq_false in Hin.
    eexists. split; [done|]. split; [done|]. by left.
Qed.

Lemma ack_generate_eq e fs data filename :
  Ack.generate e fs data filename =
    match _get_unique_filepath fs (output_dir e)
            (default (Ack._generate_filename data) filename) with
    | None => None
    | Some p => Some {| filepath := p; canvas := (Ack._draw_form e data).2;
                        sig_field_rect := (Ack._draw_form e data).1;
                        files := {[p]} ∪ fs |}
    end.
Proof.
  unfold Ack.generate. destruct (_get_unique_filepath _ _ _); [|done].
  by destruct (Ack._draw_form e data).
Qed.

Lemma transfer_generate_eq e fs data filename :
  Transfer.generate e fs data filename =
    match _get_unique_filepath fs (output_dir e)
            (default (Transfer._generate_filename data) filename) with
    | None => None
    | Some p => Some {| filepath := p; canvas := (Transfer._draw_form e data).2;
                        sig_field_rect := (Transfer._draw_form e data).1;
                        files := {[p]} ∪ fs |}
    end.
Proof.
  unfold Transfer.generate. destruct (_get_unique_filepath _ _ _); [|done].
  by destruct (Transfer._draw_form e data).
Qed.

(** C10. When the joined path exists, the returned path is built from the
    file name without its last four characters, whatever they are, followed
    by a number in brackets and [.pdf], for the least number from 2 on whose
    path does not exist; [generate()] of either form, called with this file
    name, writes to that path.  A name that does not end in [.pdf] so loses
    its last four characters and gets the extension [.pdf]. *)
Theorem collision_drops_last_four
    (e : env) (fs : gset string) (data : form_data) (filename : string) :
  path_join (output_dir e) filename ∈ fs ->
  exists k, (2 <= k)%nat
    /\ _get_unique_filepath fs (output_dir e) filename
        = Some (path_join (output_dir e)
                  (Py.take (Py.len filename - 4) filename
                   +:+ " (#" +:+ Py.str k +:+ ").pdf"))
    /\ (exists o, Ack.generate e fs data (Some filename) = Some o
                  /\ filepath o = candidate (output_dir e) filename k)
    /\ (exists o, Transfer.generate e fs data (Some filename) = Some o
                  /\ filepath o = candidate (output_dir e) filename k)
    /\ (candidate (output_dir e) filename k ∉ fs)
    /\ (forall j, (2 <= j < k)%nat -> candidate (output_dir e) filename j ∈ fs)
    /\ Py.len (Py.take (Py.len filename - 4) filename) = (Py.len filename - 4)%nat
    /\ filename = Py.take (Py.len filename - 4) filename
                  +:+ Py.drop (Py.len filename - 4) filename.
Proof.
  intros Hin.
  destruct (unique_filepath_spec fs (output_dir e) filename)
    as (p & Hp & Hfree & [[? _]|[_ Hk]]); [done|].
  destruct Hk as (k & Hk & -> & Hbusy).
  exists k. split; [done|]. split; [done|].
  split.
  { rewrite ack_generate_eq.
    change (default (Ack._generate_filename data) (Some filename)) with filename.
    rewrite Hp. by eexists. }
  split.
  { rewrite transfer_generate_eq.
    change (default (Transfer._generate_filename data) (Some filename)) with filename.
    rewrite Hp. by eexists. }
  split; [done|]. split; [done|].
  split; [rewrite len_take; lia|by rewrite take_drop].
Qed.

(** A colliding [summary] comes back as [sum (#2).pdf]. *)
Lemma collision_drops_last_four_witness :
  _get_unique_filepath crowded_dir "/out" "summary" = Some "/out/sum (#2).pdf".
Proof.
  destruct (collision_drops_last_four fixed_pitch crowded_dir no_rows_form "summary")
    as (k & _ & H & _); [by vm_compute|].
  reflexivity.
Defined.

Lemma drop_last_pdf base : Py.drop_last 4 (base +:+ ".pdf") = base.
Proof. apply (drop_last_app base ".pdf"). Qed.

Lemma path_join_suffix_inj dir base x y :
  Py.startswith "/" x = false -> Py.startswith "/" y = false ->
  path_join dir (base +:+ x) = path_join dir (base +:+ y) -> x = y.
Proof.
  intros Hx Hy. unfold path_join.
  assert (Py.startswith "/" (base +:+ x) = Py.startswith "/" (base +:+ y)) as ->.
  { destruct base; [|done].
    change ("" +:+ x) with x. change ("" +:+ y) with y. congruence. }
  destruct (Py.startswith "/" (base +:+ y)).
  - apply (inj (String.app base)).
  - destruct (negb (Py.truthy dir) || Py.endswith "/" dir); intros H.
    + by apply (inj (String.app dir)), (inj (String.app base)) in H.
    + by apply (inj (String.app dir)), (inj (String.app "/")), (inj (String.app base)) in H.
Qed.

(** Two calls on the same name, from a directory holding neither the name
    nor its first numbered copy. *)
Lemma unique_filepath_twice fs dir base :
  let p1 := path_join dir (base +:+ ".pdf") in
  let p2 := path_join dir (base +:+ " (#2).pdf") in
  p1 ∉ fs -> p2 ∉ fs ->
  _get_unique_filepath fs dir (base +:+ ".pdf") = Some p1
  /\ _get_unique_filepath ({[p1]} ∪ fs) dir (base +:+ ".pdf") = Some p2
  /\ p1 <> p2.
Proof.
  intros p1 p2 H1 H2.
  assert (Hne : p1 <> p2).
  { intros H. apply path_join_suffix_inj in H; [discriminate|done|done]. }
  split; [|split; [|done]].
  - unfold _get_unique_filepath. fold p1. by rewrite bool_decide_eq_false_2.
  - unfold _get_unique_filepath. fold p1.
    rewrite bool_decide_eq_true_2 by set_solver. simpl.
    rewrite drop_last_pdf. change (path_join dir (numbered base 2)) with p2.
    rewrite bool_decide_eq_false_2; [done|].
    intros [Heq%elem_of_singleton|Hin]%elem_of_union; [by apply Hne|done].
Qed.

Lemma ack_filename_pdf data : exists base, Ack._generate_filename data = base +:+ ".pdf".
Proof.
  unfold Ack._generate_filename. eexists. by rewrite <- !str_app_assoc.
Qed.

Lemma transfer_filename_pdf data :
  exists base, Transfer._generate_filename data = base +:+ ".pdf".
Proof.
  unfold Transfer._generate_filename. eexists. by rewrite <- !str_app_assoc.
Qed.

(** C9. On a collision of a name ending in [.pdf], the returned path is the
    name with a bracketed number put before [.pdf], for the least number
    from 2 on whose path does not exist.  Two [generate()] calls on the same
    data, from a directory holding neither the generated name nor its copy
    numbered 2, write two different files, the second named as the first with
    the number 2 in brackets before [.pdf]; so for both forms. *)
Theorem collision_numbering :
  (forall (fs : gset string) (dir base : string),
     path_join dir (base +:+ ".pdf") ∈ fs ->
     exists k, (2 <= k)%nat
       /\ _get_unique_filepath fs dir (base +:+ ".pdf")
           = Some (path_join dir (base +:+ " (#" +:+ Py.str k +:+ ").pdf"))
       /\ (path_join dir (base +:+ " (#" +:+ Py.str k +:+ ").pdf") ∉ fs)
       /\ forall j, (2 <= j < k)%nat ->
            path_join dir (base +:+ " (#" +:+ Py.str j +:+ ").pdf") ∈ fs)
  /\ second_call_numbered Ack.generate Ack._generate_filename
  /\ second_call_numbered Transfer.generate Transfer._generate_filename.
Proof.
  split.
  - intros fs dir base Hin.
    destruct (unique_filepath_spec fs dir (base +:+ ".pdf"))
      as (p & Hp & Hfree & [[? _]|[_ Hk]]); [done|].
    destruct Hk as (k & Hk & -> & Hbusy).
    unfold candidate in *. rewrite drop_last_pdf in *.
    exists k. split; [done|]. split; [done|]. split; [done|]. done.
  - split; intros e fs data H1 H2.
    + destruct (ack_filename_pdf data) as [base Hbase].
      unfold candidate in H2. rewrite Hbase in H1, H2. rewrite drop_last_pdf in H2.
      destruct (unique_filepath_twice fs (output_dir e) base H1 H2) as (Hu1 & Hu2 & Hne).
      exists base. eexists _, _. split; [done|].
      split; [rewrite ack_generate_eq; cbn [default]; rewrite Hbase, Hu1; reflexivity|].
      cbn [files filepath].
      split; [rewrite ack_generate_eq; cbn [default]; rewrite Hbase, Hu2; reflexivity|].
      cbn [files filepath]. done.
    + destruct (transfer_filename_pdf data) as [base Hbase].
      unfold candidate in H2. rewrite Hbase in H1, H2. rewrite drop_last_pdf in H2.
      destruct (unique_filepath_twice fs (output_dir e) base H1 H2) as (Hu1 & Hu2 & Hne).
      exists base. eexists _, _. split; [done|].
      split; [rewrite transfer_generate_eq; cbn [default]; rewrite Hbase, Hu1; reflexivity|].
      cbn [files filepath].
      split; [rewrite transfer_generate_eq; cbn [default]; rewrite Hbase, Hu2; reflexivity|].
      cbn [files filepath]. done.
Qed.

(** The fourth report in the crowded directory, and two Transfer forms
    generated into an empty one. *)
Lemma collision_numbering_witness :
  _get_unique_filepath crowded_dir "/out" "report.pdf" = Some "/out/report (#4).pdf"
  /\ exists o1 o2,
       Transfer.generate fixed_pitch ∅ transfer_no_sender None = Some o1
       /\ Transfer.generate fixed_pitch (files o1) transfer_no_sender None = Some o2
       /\ filepath o1 = "/out/Asset Transfer - From Unknown-Unknown to E77-Ann Lee.pdf"
       /\ filepath o2 = "/out/Asset Transfer - From Unknown-Unknown to E77-Ann Lee (#2).pdf".
Proof.
  destruct collision_numbering as (Hnum & _ & Htwice). split.
  - destruct (Hnum crowded_dir "/out" "report") as (k & _ & H & _); [by vm_compute|].
    reflexivity.
  - destruct (Htwice fixed_pitch ∅ transfer_no_sender)
      as (base & o1 & o2 & Hb & H1 & H2 & Hp1 & Hp2 & _); [set_solver..|].
    exists o1, o2. split; [done|]. split; [done|].
    rewrite Hp1, Hp2.
    assert (base = "Asset Transfer - From Unknown-Unknown to E77-Ann Lee") as ->.
    { apply (str_app_inj_r _ _ ".pdf"). by rewrite <- Hb. }
    split; reflexivity.
Defined.

(** ** Table rows *)

Lemma lt_true a b : Py.lt a b = true <-> a < b.
Proof.
  unfold Py.lt. rewrite negb_true_iff. split.
  - intros H. apply Qnot_le_lt. intros Hle. apply Qle_bool_iff in Hle. congruence.
  - intros H. destruct (Qle_bool b a) eqn:Hle; [|done].
    apply Qle_bool_iff in Hle. exfalso. by apply (Qlt_not_le a b).
Qed.

Lemma lt_false a b : Py.lt a b = false <-> b <= a.
Proof. unfold Py.lt. rewrite negb_false_iff. apply Qle_bool_iff. Qed.

Lemma ack_draw_rows_data items rs y :
  data_rows (Ack.draw_rows items rs y).2 = map (fun i => (i, items !! i)) rs.
Proof.
  revert y. induction rs as [|r rs IH]; intros y; [done|].
  simpl. destruct (Py.lt _ _).
  - specialize (IH (Ack.height - Ack.margin - Ack.header_height - Ack.row_height)).
    destruct (Ack.draw_rows _ _ _) as [y' out]. simpl in *. by rewrite IH.
  - specialize (IH (y - Ack.row_height)).
    destruct (Ack.draw_rows _ _ _) as [y' out]. simpl in *. by rewrite IH.
Qed.

Lemma transfer_draw_rows_data assets rs y :
  data_rows (Transfer.draw_rows assets rs y).2 = map (fun i => (i, assets !! i)) rs.
Proof.
  revert y. induction rs as [|r rs IH]; intros y; [done|].
  simpl. specialize (IH (y - Transfer.row_height)).
  destruct (Transfer.draw_rows _ _ _) as [y' out]. simpl in *. by rewrite IH.
Qed.

Lemma num_rows_max (items : list (gmap string string)) :
  Ack.num_rows items = (1 `max` length items)%nat
  /\ Transfer.num_rows items = (1 `max` length items)%nat.
Proof. destruct items; simpl; split; lia. Qed.

Lemma shown_items_from {A} (pre l : list A) :
  omap snd (map (fun i => (i, (pre ++ l) !! i)) (seq (length pre) (length l))) = l.
Proof.
  revert pre. induction l as [|x l IH]; intros pre; [done|].
  simpl. rewrite list_lookup_middle by done. simpl. f_equal.
  specialize (IH (pre ++ [x])). rewrite <- app_assoc in IH. simpl in IH.
  rewrite length_app in IH. simpl in IH.
  by replace (length pre + 1)%nat with (S (length pre)) in IH by lia.
Qed.

Lemma shown_items (items : list (gmap string string)) :
  omap snd (map (fun i => (i, items !! i)) (seq 0 (1 `max` length items))) = items.
Proof.
  destruct items as [|it items]; [done|].
  replace (1 `max` length (it :: items))%nat with (length (it :: items))
    by (simpl; lia).
  apply (shown_items_from [] (it :: items)).
Qed.

(** ** Table pagination *)

Lemma ack_row_height_nonneg : 0 <= Ack.row_height.
Proof. by vm_compute. Qed.

(** A row drawn right below a redrawn header clears the reserve. *)
Lemma ack_fresh_page_has_room :
  Ack.bottom_margin + 4 * inch
    <= Ack.height - Ack.margin - Ack.header_height - Ack.row_height.
Proof. by vm_compute. Qed.

Lemma ack_draw_rows_flow items rs y :
  ack_row_flow items y rs (Ack.draw_rows items rs y).2.
Proof.
  revert y. induction rs as [|r rs IH]; intros y; [constructor|].
  simpl. destruct (Py.lt _ _) eqn:Hlt.
  - specialize (IH (Ack.height - Ack.margin - Ack.header_height - Ack.row_height)).
    destruct (Ack.draw_rows _ _ _) as [y' out]. simpl in *.
    apply flow_breaks; [by apply lt_true|done].
  - specialize (IH (y - Ack.row_height)).
    destruct (Ack.draw_rows _ _ _) as [y' out]. simpl in *.
    apply flow_fits; [by apply lt_false|done].
Qed.

Lemma flow_rows_on_page items y rs bs :
  ack_row_flow items y rs bs ->
  y <= Ack.height - Ack.margin - Ack.header_height ->
  forall r y' it, DataRow r y' it ∈ bs ->
    Ack.bottom_margin + 4 * inch <= y' - Ack.row_height
    /\ y' <= Ack.height - Ack.margin - Ack.header_height.
Proof.
  pose proof ack_row_height_nonneg as Hrh.
  pose proof ack_fresh_page_has_room as Hroom.
  induction 1 as [y|y r rs bs Hfit Hflow IH|y r rs bs Hbrk Hflow IH];
    intros Hy r' y' it Hin.
  - by apply elem_of_nil in Hin.
  - apply elem_of_cons in Hin as [Heq|Hin].
    + injection Heq as -> -> ->. split; [done|done].
    + apply (IH ltac:(lra) r' y' it Hin).
  - apply elem_of_cons in Hin as [Heq|Hin]; [done|].
    apply elem_of_cons in Hin as [Heq|Hin]; [done|].
    apply elem_of_cons in Hin as [Heq|Hin].
    + injection Heq as -> -> ->. split; [done|lra].
    + apply (IH ltac:(lra) r' y' it Hin).
Qed.

Lemma flow_break_then_header items y rs bs :
  ack_row_flow items y rs bs ->
  forall pre post, bs = pre ++ PageBreak :: post ->
    exists r rest,
      post = HeaderRow (Ack.height - Ack.margin)
             :: DataRow r (Ack.height - Ack.margin - Ack.header_height) (items !! r)
             :: rest.
Proof.
  induction 1 as [y|y r rs bs Hfit Hflow IH|y r rs bs Hbrk Hflow IH];
    intros pre post Heq.
  - by destruct pre.
  - destruct pre as [|b pre]; [done|]. injection Heq as _ Heq. by eapply IH.
  - destruct pre as [|b pre].
    { injection Heq as <-. by eexists _, _. }
    injection Heq as _ Heq.
    destruct pre as [|b1 pre]; [done|]. injection Heq as _ Heq.
    destruct pre as [|b2 pre]; [done|]. injection Heq as _ Heq.
    by eapply IH.
Qed.

Lemma transfer_rows_no_break assets rs y :
  PageBreak ∉ (Transfer.draw_rows assets rs y).2.
Proof.
  revert y. induction rs as [|r rs IH]; intros y; [apply not_elem_of_nil|].
  simpl. specialize (IH (y - Transfer.row_height)).
  destruct (Transfer.draw_rows _ _ _) as [y' out]. simpl in *.
  apply not_elem_of_cons. by split.
Qed.

Lemma transfer_blocks_no_break y assets :
  PageBreak ∉ (Transfer.table_blocks y assets).2.
Proof.
  unfold Transfer.table_blocks.
  pose proof (transfer_rows_no_break assets (seq 0 (Transfer.num_rows assets))
                (y - Transfer.header_height)) as Hno.
  destruct (Transfer.draw_rows _ _ _) as [y' out]. simpl in *.
  apply not_elem_of_cons. by split.
Qed.

(** In [_draw_form] the items table starts below the top margin. *)
Lemma ack_table_starts_below_top e :
  (Ack._draw_date e (Ack._draw_header e (Ack.height - Ack.margin)).1).1
    <= Ack.height - Ack.margin.
Proof. by vm_compute. Qed.

(** ** Page breaks of a whole render *)

Lemma no_break_nil : no_break [].
Proof. constructor. Qed.

Lemma no_break_cons c l : c <> showPage -> no_break l -> no_break (c :: l).
Proof. by constructor. Qed.

Lemma no_break_app l1 l2 : no_break l1 -> no_break l2 -> no_break (l1 ++ l2).
Proof. intros. by apply Forall_app. Qed.

Lemma no_break_concat (ls : list (list cmd)) : Forall no_break ls -> no_break (concat ls).
Proof.
  induction 1 as [|l ls Hl Hls IH]; [constructor|]. simpl. by apply no_break_app.
Qed.

Lemma no_break_draw_lines x y step lines : no_break (draw_lines x y step lines).2.
Proof.
  revert y. induction lines as [|l lines IH]; intros y; [constructor|].
  simpl. specialize (IH (y - step)). destruct (draw_lines _ _ _ _) as [y' out].
  by apply no_break_cons.
Qed.

Lemma no_break_columns {A} (f : nat -> Q -> A -> Q -> list cmd) col x l :
  (forall c x a w, no_break (f c x a w)) -> no_break (columns f col x l).
Proof.
  intros Hf. revert col x. induction l as [|[a w] l IH]; intros col x; [constructor|].
  simpl. apply no_break_app; [apply Hf|apply IH].
Qed.

Lemma page_starts_no_break l : no_break l -> page_starts l = [].
Proof.
  induction 1 as [|c l Hc Hl IH]; [done|]. by destruct c.
Qed.

Lemma page_starts_app_no_break l1 l2 :
  no_break l1 -> page_starts (l1 ++ l2) = page_starts l2.
Proof.
  induction 1 as [|c l Hc Hl IH]; [done|]. by destruct c.
Qed.

Create HintDb no_break.
#[local] Hint Resolve no_break_nil no_break_app no_break_cons no_break_concat
  no_break_draw_lines no_break_columns : no_break.

(** Splits a command list along its appends and literal elements, deciding
    each conditional piece separately. *)
Ltac no_break_step :=
  match goal with
  | |- no_break [] => apply no_break_nil
  | |- no_break (_ :: _) => apply no_break_cons; [discriminate|]
  | |- no_break (_ ++ _) => apply no_break_app
  | |- no_break (if ?b then _ else _) => destruct b
  | |- no_break (draw_lines _ _ _ _).2 => apply no_break_draw_lines
  | |- no_break (columns _ _ _ _) => apply no_break_columns; intros
  | |- no_break (match ?o with Some _ => _ | None => _ end) => destruct o
  | |- no_break (match ?l with [] => _ | _ :: _ => _ end) => destruct l
  end.

Ltac no_break := repeat no_break_step.

Lemma ack_radio_no_break x y selected : no_break (Ack._draw_radio x y selected).
Proof. unfold Ack._draw_radio. no_break. Qed.

Lemma ack_custodian_no_break y data : no_break (Ack._draw_custodian_details y data).2.
Proof. unfold Ack._draw_custodian_details. simpl. no_break. Qed.

Lemma ack_location_no_break y data : no_break (Ack._draw_location_section y data).2.
Proof.
  unfold Ack._draw_location_section. cbn [snd].
  repeat apply no_break_app; try (simpl; no_break; fail);
    apply no_break_concat; cbn [imap Ack.buildings Ack.floors Ack.sections];
    repeat (apply Forall_cons; split); try apply Forall_nil;
    repeat apply no_break_app; try apply ack_radio_no_break; no_break.
Qed.

Lemma ack_declaration_no_break e y : no_break (Ack._draw_declaration e y).2.
Proof.
  unfold Ack._draw_declaration.
  pose proof (no_break_draw_lines Ack.margin y (0.16 * inch)
    (word_wrap (fun s => stringWidth e s "Helvetica-BoldOblique" 9)
       (Ack.width - 2 * Ack.margin) Ack.declaration_text)) as H.
  destruct (draw_lines _ _ _ _) as [y' out]. simpl in *. no_break. done.
Qed.

Lemma ack_device_no_break e y data : no_break (Ack._draw_device_selection e y data).2.
Proof.
  unfold Ack._draw_device_selection.
  match goal with |- context [draw_lines ?x ?y0 ?st ?ls] =>
    pose proof (no_break_draw_lines x y0 st ls) as H;
    destruct (draw_lines x y0 st ls) as [y' out] end.
  cbn [snd] in *.
  repeat apply no_break_app; try apply ack_radio_no_break; try done; no_break.
Qed.

Lemma ack_signature_starts y :
  page_starts (Ack._draw_signature y).2
    = if Py.lt y (1.3 * inch) then [Some "Employee Signature:"] else [].
Proof. unfold Ack._draw_signature. by destruct (Py.lt _ _). Qed.

Lemma ack_custodian_first_text y data l :
  first_text ((Ack._draw_custodian_details y data).2 ++ l) = Some "Custodian Details:".
Proof. reflexivity. Qed.

Lemma transfer_header_no_break e y : no_break (Transfer._draw_header e y).2.
Proof. unfold Transfer._draw_header. simpl. no_break. Qed.

Lemma transfer_date_no_break e y : no_break (Transfer._draw_date e y).2.
Proof. unfold Transfer._draw_date. simpl. no_break. Qed.

Lemma transfer_party_no_break e y data title underline k1 k2 k3 :
  no_break (Transfer.draw_party e y data title underline k1 k2 k3).2.
Proof. unfold Transfer.draw_party. simpl. no_break. Qed.

Lemma transfer_block_no_break b : b <> PageBreak -> no_break (Transfer.block_cmds b).
Proof.
  destruct b as [|y|r y asset]; [done|..]; intros _.
  - unfold Transfer.block_cmds, Transfer.draw_header_row. no_break.
    unfold Transfer.header_cell. no_break.
  - unfold Transfer.block_cmds. no_break. unfold Transfer.data_cell. no_break.
Qed.

Lemma transfer_table_no_break y assets : no_break (Transfer._draw_assets_table y assets).2.
Proof.
  unfold Transfer._draw_assets_table.
  pose proof (transfer_blocks_no_break y assets) as Hno.
  destruct (Transfer.table_blocks y assets) as [y' blocks]. simpl in *.
  apply no_break_concat, Forall_map, Forall_forall. intros b Hb.
  apply transfer_block_no_break. intros ->. by apply Hno.
Qed.

Lemma transfer_declaration_no_break y : no_break (Transfer._draw_declaration y).2.
Proof. unfold Transfer._draw_declaration. simpl. no_break. Qed.

Lemma transfer_signature_starts y :
  page_starts (Transfer._draw_signature y).2
    = if Py.lt y (1.5 * inch) then [Some "Signature :"] else [].
Proof. unfold Transfer._draw_signature. by destruct (Py.lt _ _). Qed.

Lemma transfer_before_signature_no_break e data :
  no_break (Transfer.draw_before_signature e data).2.
Proof.
  unfold Transfer.draw_before_signature.
  pose proof (transfer_header_no_break e (Transfer.height - Transfer.margin)) as Hh.
  destruct (Transfer._draw_header _ _) as [y0 h].
  pose proof (transfer_date_no_break e y0) as Hd.
  destruct (Transfer._draw_date _ _) as [y1 d].
  pose proof (transfer_party_no_break e y1 data "Transferred from:" (1.2 * inch)
                "from_name" "from_department" "from_emp_id") as Hf.
  unfold Transfer._draw_transferred_from.
  destruct (Transfer.draw_party e y1 _ _ _ _ _ _) as [y2 f].
  pose proof (transfer_table_no_break y2 (rows data)) as Ht.
  destruct (Transfer._draw_assets_table _ _) as [y3 t].
  pose proof (transfer_party_no_break e y3 data "Transferred to:" (1.1 * inch)
                "to_name" "to_department" "to_emp_id") as Ho.
  unfold Transfer._draw_transferred_to.
  destruct (Transfer.draw_party e y3 _ _ _ _ _ _) as [y4 o].
  pose proof (transfer_declaration_no_break y4) as Hc.
  destruct (Transfer._draw_declaration _) as [y5 c].
  simpl in *. eauto 10 with no_break.
Qed.

(** C3, as the code has it.  After the items table the Acknowledgment form
    can start a new page at two places and no other: before the custodian
    block, when the cursor less 4.5 inch is below the bottom margin (the one
    call of [_check_page_break], which puts the cursor back to the top
    margin), and before the signature block, when the cursor there is below
    1.3 inch, a test [_draw_signature] makes itself.  The Transfer form can
    start a new page only before its signature block, when the cursor is
    below 1.5 inch. *)
Theorem page_break_points (e : env) (y : Q) (data : form_data) :
  page_starts (Ack.draw_after_table e y data).2
    = (if Py.lt (y - 4.5 * inch) Ack.bottom_margin
       then [Some "Custodian Details:"] else [])
      ++ (if Py.lt (ack_signature_cursor e y data) (1.3 * inch)
          then [Some "Employee Signature:"] else [])
  /\ (Ack._check_page_break y (4.5 * inch)).1
     = (if Py.lt (y - 4.5 * inch) Ack.bottom_margin then Ack.height - Ack.margin else y)
  /\ (exists before y_table,
        (Ack._draw_form e data).2 = before ++ (Ack.draw_after_table e y_table data).2
        /\ exists y_start, (Ack._draw_items_table y_start (rows data)).1 = y_table)
  /\ page_starts (Transfer._draw_form e data).2
     = (if Py.lt (Transfer.draw_before_signature e data).1 (1.5 * inch)
        then [Some "Signature :"] else []).
Proof.
  split; [|split; [|split]].
  - unfold Ack.draw_after_table, ack_signature_cursor.
    assert (Hc0 : (Ack._check_page_break y (4.5 * inch)).2
                  = if Py.lt (y - 4.5 * inch) Ack.bottom_margin then [showPage] else []).
    { unfold Ack._check_page_break. by destruct (Py.lt _ _). }
    destruct (Ack._check_page_break y (4.5 * inch)) as [y0 c0]. cbn [fst snd] in *.
    pose proof (ack_custodian_no_break y0 data) as H1.
    pose proof (fun l => ack_custodian_first_text y0 data l) as Hft.
    destruct (Ack._draw_custodian_details y0 data) as [y1 c1]. cbn [fst snd] in *.
    pose proof (ack_location_no_break y1 data) as H2.
    destruct (Ack._draw_location_section y1 data) as [y2 c2]. cbn [fst snd] in *.
    pose proof (ack_declaration_no_break e y2) as H3.
    destruct (Ack._draw_declaration e y2) as [y3 c3]. cbn [fst snd] in *.
    pose proof (ack_device_no_break e y3 data) as H4.
    destruct (Ack._draw_device_selection e y3 data) as [y4 c4]. cbn [fst snd] in *.
    pose proof (ack_signature_starts y4) as H5.
    destruct (Ack._draw_signature y4) as [r c5]. cbn [fst snd] in *.
    assert (Hrest : page_starts (c1 ++ c2 ++ c3 ++ c4 ++ c5) = page_starts c5).
    { by rewrite !page_starts_app_no_break. }
    rewrite Hc0. destruct (Py.lt (y - 4.5 * inch) Ack.bottom_margin).
    + cbn [app page_starts]. by rewrite Hft, Hrest, H5.
    + cbn [app]. by rewrite Hrest, H5.
  - unfold Ack._check_page_break. by destruct (Py.lt _ _).
  - unfold Ack._draw_form.
    destruct (Ack._draw_header e _) as [y0 h].
    destruct (Ack._draw_date e y0) as [y1 d].
    destruct (Ack._draw_items_table y1 (rows data)) as [y2 t] eqn:Et.
    destruct (Ack.draw_after_table e y2 data) as [r rest] eqn:Er. cbn [snd].
    exists (h ++ d ++ t), y2. rewrite Er. cbn [snd].
    split; [by rewrite <- !app_assoc|]. exists y1. by rewrite Et.
  - unfold Transfer._draw_form.
    pose proof (transfer_before_signature_no_break e data) as Hpre.
    destruct (Transfer.draw_before_signature e data) as [y5 pre]. cbn [fst snd] in *.
    pose proof (transfer_signature_starts y5) as Hs.
    destruct (Transfer._draw_signature y5) as [r s]. cbn [fst snd] in *.
    by rewrite page_starts_app_no_break.
Qed.

(** C3 as stated fails: with eleven items the Acknowledgment form starts
    exactly one new page, and that page starts with the signature heading,
    not with the custodian block. *)
Lemma page_break_counterexample :
  page_starts (Ack._draw_form fixed_pitch eleven_items_form).2
    = [Some "Employee Signature:"].
Proof. vm_compute. reflexivity. Qed.

(** ** Submissions without rows *)

Lemma ack_empty_table y :
  exists mid y1,
    (Ack._draw_items_table y []).2
      = Ack.draw_header_row y ++ mid ++ Ack.block_cmds (DataRow 0 y1 None).
Proof.
  unfold Ack._draw_items_table, Ack.table_blocks.
  cbn [Ack.num_rows seq Ack.draw_rows].
  destruct (Py.lt _ _); cbn [concat map snd app].
  - eexists ([showPage] ++ Ack.draw_header_row _), _.
    rewrite app_nil_r. cbn [Ack.block_cmds]. by rewrite <- !app_assoc.
  - eexists [], _. by rewrite app_nil_r.
Qed.

Lemma transfer_empty_table y :
  (Transfer._draw_assets_table y []).2
    = Transfer.draw_header_row y
      ++ Transfer.block_cmds (DataRow 0 (y - Transfer.header_height) None).
Proof.
  unfold Transfer._draw_assets_table, Transfer.table_blocks.
  cbn [Transfer.num_rows seq Transfer.draw_rows snd map concat].
  by rewrite app_nil_r.
Qed.

Lemma ack_get_items_blank ws :
  Forall (blank_row ["store_code"; "description"; "qty"; "purchase_date"]) ws ->
  Ack._get_items ws = [].
Proof.
  induction 1 as [|w ws Hw Hws IH]; [done|].
  unfold Ack._get_items in *. cbn [flat_map]. rewrite IH.
  apply Forall_cons_1 in Hw as [H1 Hw]. apply Forall_cons_1 in Hw as [H2 Hw].
  apply Forall_cons_1 in Hw as [H3 Hw]. apply Forall_cons_1 in Hw as [H4 _].
  by rewrite H1, H2, H3, H4.
Qed.

Lemma transfer_get_assets_blank ws :
  Forall (blank_row ["store_code"; "asset_name"; "description"; "old_asset_no"]) ws ->
  Transfer._get_assets ws = [].
Proof.
  induction 1 as [|w ws Hw Hws IH]; [done|].
  unfold Transfer._get_assets in *. cbn [flat_map]. rewrite IH.
  apply Forall_cons_1 in Hw as [H1 Hw]. apply Forall_cons_1 in Hw as [H2 Hw].
  apply Forall_cons_1 in Hw as [H3 Hw]. apply Forall_cons_1 in Hw as [H4 _].
  by rewrite H1, H2, H3, H4.
Qed.

(** C2, as the code has it.  [generate()] makes no test on the rows: for a
    submission with an empty row list both generators return a path that did
    not exist, draw the whole form, its table as the header row and one empty
    row, and write the file.  Submissions without rows are turned away one
    level up: when every widget row is blank, the GUI handler
    [_generate_pdf] shows its warning and does not call [generate()]. *)
Theorem generate_accepts_no_rows
    (e : env) (fs : gset string) (data : form_data) (filename : option string) :
  rows data = [] ->
  (exists o, Ack.generate e fs data filename = Some o
     /\ (filepath o ∉ fs) /\ files o = {[filepath o]} ∪ fs
     /\ canvas o = (Ack._draw_form e data).2
     /\ exists pre y1 post,
          canvas o = pre ++ Ack.block_cmds (DataRow 0 y1 None) ++ post)
  /\ (exists o, Transfer.generate e fs data filename = Some o
     /\ (filepath o ∉ fs) /\ files o = {[filepath o]} ∪ fs
     /\ canvas o = (Transfer._draw_form e data).2
     /\ exists pre y1 post,
          canvas o = pre ++ Transfer.block_cmds (DataRow 0 y1 None) ++ post)
  /\ (forall w : Ack.widgets,
        Forall (blank_row ["store_code"; "description"; "qty"; "purchase_date"])
          (Ack.item_widgets w) ->
        Ack._generate_pdf e fs w = Some (showwarning "Please add at least one item."))
  /\ (forall w : Transfer.widgets,
        Forall (blank_row ["store_code"; "asset_name"; "description"; "old_asset_no"])
          (Transfer.asset_widgets w) ->
        Transfer._generate_pdf e fs w = Some (showwarning "Please add at least one asset.")).
Proof.
  intros Hrows. split; [|split; [|split]].
  - rewrite ack_generate_eq.
    destruct (unique_filepath_spec fs (output_dir e)
                (default (Ack._generate_filename data) filename)) as (p & -> & Hp & _).
    eexists. split; [done|]. cbn [filepath files canvas].
    split; [done|]. split; [done|]. split; [done|].
    unfold Ack._draw_form. rewrite Hrows.
    destruct (Ack._draw_header e _) as [y0 h].
    destruct (Ack._draw_date e y0) as [y1 d].
    destruct (ack_empty_table y1) as (mid & y2 & Ht).
    destruct (Ack._draw_items_table y1 []) as [y3 t]. cbn [snd] in Ht. subst t.
    destruct (Ack.draw_after_table e y3 data) as [r rest]. cbn [snd].
    exists (h ++ d ++ Ack.draw_header_row y1 ++ mid), y2, rest.
    by rewrite <- !app_assoc.
  - rewrite transfer_generate_eq.
    destruct (unique_filepath_spec fs (output_dir e)
                (default (Transfer._generate_filename data) filename)) as (p & -> & Hp & _).
    eexists. split; [done|]. cbn [filepath files canvas].
    split; [done|]. split; [done|]. split; [done|].
    unfold Transfer._draw_form, Transfer.draw_before_signature. rewrite Hrows.
    destruct (Transfer._draw_header e _) as [y0 h].
    destruct (Transfer._draw_date e y0) as [y1 d].
    destruct (Transfer._draw_transferred_from e y1 data) as [y2 f].
    pose proof (transfer_empty_table y2) as Ht.
    destruct (Transfer._draw_assets_table y2 []) as [y3 t]. cbn [snd] in Ht. subst t.
    destruct (Transfer._draw_transferred_to e y3 data) as [y4 o].
    destruct (Transfer._draw_declaration y4) as [y5 c].
    destruct (Transfer._draw_signature y5) as [r s]. cbn [snd].
    exists (h ++ d ++ f ++ Transfer.draw_header_row y2), (y2 - Transfer.header_height),
      (o ++ c ++ s).
    by rewrite <- !app_assoc.
  - intros w Hw. unfold Ack._generate_pdf. by rewrite ack_get_items_blank.
  - intros w Hw. unfold Transfer._generate_pdf. by rewrite transfer_get_assets_blank.
Qed.

Lemma generate_accepts_no_rows_witness :
  exists o, Ack.generate fixed_pitch ∅ no_rows_form None = Some o
    /\ filepath o = "/out/Unknown - Unknown - acknowledgement form Asset.pdf"
    /\ files o = {[filepath o]} ∪ ∅.
Proof.
  destruct (generate_accepts_no_rows fixed_pitch ∅ no_rows_form None)
    as [(o & Ho & _ & Hfiles & _) _]; [reflexivity|].
  exists o. split; [exact Ho|]. split; [|exact Hfiles].
  rewrite ack_generate_eq in Ho. vm_compute in Ho. by injection Ho as <-.
Defined.

(** C2 as stated fails: for the submission with no rows [generate()]
    returns, the returned file exists afterwards and the canvas has been
    drawn on. *)
Lemma generate_no_rows_counterexample :
  exists o, Ack.generate fixed_pitch ∅ no_rows_form None = Some o
    /\ filepath o ∈ files o
    /\ canvas o <> [].
Proof.
  rewrite ack_generate_eq.
  destruct (unique_filepath_spec ∅ (output_dir fixed_pitch)
              (default (Ack._generate_filename no_rows_form) None)) as (p & -> & _).
  eexists. split; [done|]. cbn [filepath files canvas]. split.
  - apply elem_of_union_l. by apply elem_of_singleton.
  - intros H. vm_compute in H. discriminate.
Qed.

(** * More of the code *)

(** ** Writing files *)

Lemma unique_filepath_free fs dir filename :
  path_join dir filename ∉ fs ->
  _get_unique_filepath fs dir filename = Some (path_join dir filename).
Proof. intros H. unfold _get_unique_filepath. by rewrite bool_decide_eq_false_2. Qed.

Lemma unique_filepath_at fs dir base k :
  (2 <= k)%nat ->
  path_join dir (base +:+ ".pdf") ∈ fs ->
  (forall j, (2 <= j < k)%nat -> path_join dir (numbered base j) ∈ fs) ->
  path_join dir (numbered base k) ∉ fs ->
  _get_unique_filepath fs dir (base +:+ ".pdf") = Some (path_join dir (numbered base k)).
Proof.
  intros Hk Hin Hbusy Hfree.
  destruct (unique_filepath_spec fs dir (base +:+ ".pdf"))
    as (p & Hp & Hpfree & [[? _]|[_ Hk']]); [done|].
  destruct Hk' as (k' & Hk' & -> & Hbusy').
  unfold candidate in *. rewrite drop_last_pdf in *.
  rewrite Hp. do 2 f_equal.
  destruct (Nat.lt_trichotomy k' k) as [Hlt|[->|Hgt]]; [|done|].
  - exfalso. apply Hpfree, Hbusy. lia.
  - exfalso. apply Hfree, Hbusy'. lia.
Qed.

Lemma nth_path_inj dir base j k :
  (1 <= j)%nat -> (1 <= k)%nat -> nth_path dir base j = nth_path dir base k -> j = k.
Proof.
  unfold nth_path. intros Hj Hk.
  destruct (j <=? 1)%nat eqn:Ej, (k <=? 1)%nat eqn:Ek;
    try apply Nat.leb_le in Ej; try apply Nat.leb_le in Ek;
    try apply Nat.leb_gt in Ej; try apply Nat.leb_gt in Ek; intros H.
  - lia.
  - exfalso. unfold numbered in H.
    apply path_join_suffix_inj in H; [discriminate|done|done].
  - exfalso. unfold numbered in H.
    apply path_join_suffix_inj in H; [discriminate|done|done].
  - by apply path_join_numbered_inj in H.
Qed.

(** The calls after the first [j], for any generator that writes to the
    path [_get_unique_filepath] gives for the name [base.pdf]. *)
Lemma repeat_generate_from (gen : gset string -> option outcome) dir base :
  (forall fs, exists o, gen fs = Some o
      /\ _get_unique_filepath fs dir (base +:+ ".pdf") = Some (filepath o)
      /\ files o = {[filepath o]} ∪ fs) ->
  forall n j fs,
    (forall k, (1 <= k <= j)%nat -> nth_path dir base k ∈ fs) ->
    (forall k, (j < k <= j + n)%nat -> nth_path dir base k ∉ fs) ->
    repeat_generate gen n fs
      = Some (map (nth_path dir base) (seq (S j) n),
              list_to_set (map (nth_path dir base) (seq (S j) n)) ∪ fs).
Proof.
  intros Hgen. induction n as [|n IH]; intros j fs Hold Hnew.
  - simpl. by rewrite (left_id_L ∅ (∪)).
  - cbn [repeat_generate]. destruct (Hgen fs) as (o & -> & Hu & Hfiles).
    assert (Hpath : filepath o = nth_path dir base (S j)).
    { assert (Hfree : nth_path dir base (S j) ∉ fs) by (apply Hnew; lia).
      destruct j as [|j].
      - unfold nth_path in *. cbn [Nat.leb] in *.
        rewrite unique_filepath_free in Hu by done. congruence.
      - assert (Hu' : _get_unique_filepath fs dir (base +:+ ".pdf")
                      = Some (path_join dir (numbered base (S (S j))))).
        { apply unique_filepath_at; [lia| | |].
          - apply (Hold 1%nat). lia.
          - intros i Hi. specialize (Hold i ltac:(lia)). unfold nth_path in Hold.
            destruct (i <=? 1)%nat eqn:Ei; [apply Nat.leb_le in Ei; lia|done].
          - done. }
        rewrite Hu' in Hu. unfold nth_path. cbn [Nat.leb]. congruence. }
    rewrite (IH (S j) (files o)).
    + cbn [seq map list_to_set]. rewrite Hfiles, Hpath. f_equal. f_equal.
      apply set_eq. intros x. rewrite !elem_of_union. tauto.
    + intros k Hk. rewrite Hfiles, Hpath.
      destruct (decide (k = S j)) as [->|?].
      * by apply elem_of_union_l, elem_of_singleton.
      * apply elem_of_union_r, Hold. lia.
    + intros k Hk. rewrite Hfiles, Hpath. intros [Hin|Hin]%elem_of_union.
      * apply elem_of_singleton in Hin. apply nth_path_inj in Hin; lia.
      * revert Hin. apply Hnew. lia.
Qed.

Lemma nth_paths_nodup dir base n : NoDup (map (nth_path dir base) (seq 1 n)).
Proof.
  apply NoDup_fmap_2_strong; [|apply NoDup_seq].
  intros j k Hj Hk. apply elem_of_seq in Hj, Hk. apply nth_path_inj; lia.
Qed.

(** X2. However often [generate()] is called on the same data, from a
    directory holding none of the names concerned, the calls write the
    generated name and then its copies numbered 2, 3, ... in order, all
    different, and nothing else; so for both forms. *)
Theorem repeated_calls_numbered :
  calls_numbered Ack.generate Ack._generate_filename
  /\ calls_numbered Transfer.generate Transfer._generate_filename.
Proof.
  split; intros e fs data n base Hfree.
  - destruct (ack_filename_pdf data) as [b Hb].
    assert (base = b) as -> by (unfold base; rewrite Hb; apply drop_last_pdf).
    split; [by rewrite Hb|]. split; [|apply nth_paths_nodup].
    apply (repeat_generate_from _ (output_dir e) b).
    + intros fs'. rewrite ack_generate_eq. cbn [default]. rewrite Hb.
      destruct (unique_filepath_spec fs' (output_dir e) (b +:+ ".pdf")) as (p & -> & _).
      by eexists.
    + intros k Hk. lia.
    + intros k Hk. apply Hfree. lia.
  - destruct (transfer_filename_pdf data) as [b Hb].
    assert (base = b) as -> by (unfold base; rewrite Hb; apply drop_last_pdf).
    split; [by rewrite Hb|]. split; [|apply nth_paths_nodup].
    apply (repeat_generate_from _ (output_dir e) b).
    + intros fs'. rewrite transfer_generate_eq. cbn [default]. rewrite Hb.
      destruct (unique_filepath_spec fs' (output_dir e) (b +:+ ".pdf")) as (p & -> & _).
      by eexists.
    + intros k Hk. lia.
    + intros k Hk. apply Hfree. lia.
Qed.

(** Three Transfer forms written into an empty directory. *)
Lemma repeated_calls_numbered_witness :
  exists fs',
    repeat_generate (fun fs => Transfer.generate fixed_pitch fs transfer_no_sender None) 3 ∅
    = Some (["/out/Asset Transfer - From Unknown-Unknown to E77-Ann Lee.pdf";
             "/out/Asset Transfer - From Unknown-Unknown to E77-Ann Lee (#2).pdf";
             "/out/Asset Transfer - From Unknown-Unknown to E77-Ann Lee (#3).pdf"], fs').
Proof.
  destruct repeated_calls_numbered as [_ H].
  destruct (H fixed_pitch ∅ transfer_no_sender 3%nat) as (_ & Heq & _).
  - intros k _. apply not_elem_of_empty.
  - rewrite Heq. eexists. reflexivity.
Defined.

(** ** Safe file names *)

Lemma has_char_app c s t : has_char c (s +:+ t) = has_char c s || has_char c t.
Proof.
  induction s as [|a s IH]; [reflexivity|].
  rewrite str_app_cons. simpl. by rewrite IH, orb_assoc.
Qed.

Lemma is_invalid_cases c :
  is_invalid c = true -> In c invalid_chars.
Proof.
  unfold is_invalid. intros H. apply existsb_exists in H as (x & Hx & Heq).
  apply Ascii.eqb_eq in Heq. by subst.
Qed.

Lemma replace_invalid_clean c s :
  is_invalid c = true -> has_char c (replace_invalid s) = false.
Proof.
  intros Hc. induction s as [|a s IH]; [reflexivity|].
  simpl. rewrite IH, orb_false_r.
  destruct (is_invalid a) eqn:Ha.
  - destruct (Ascii.eqb_spec "_"%char c) as [<-|]; [done|reflexivity].
  - destruct (Ascii.eqb_spec a c) as [->|]; [congruence|reflexivity].
Qed.

(** No forbidden character occurs in the fixed parts of the two names. *)
Lemma frames_clean c :
  is_invalid c = true ->
  has_char c " - " = false
  /\ has_char c " - acknowledgement form " = false
  /\ has_char c ".pdf" = false
  /\ has_char c "Asset Transfer - From " = false
  /\ has_char c "-" = false
  /\ has_char c " to " = false.
Proof.
  intros Hc. apply is_invalid_cases in Hc. unfold invalid_chars in Hc.
  repeat (destruct Hc as [<-|Hc]; [by vm_compute|]). destruct Hc.
Qed.

(** X3. Whatever the submission holds, the file name generated for either
    form contains none of the nine forbidden characters. *)
Theorem generated_filename_safe (data : form_data) (c : ascii) :
  is_invalid c = true ->
  has_char c (Ack._generate_filename data) = false
  /\ has_char c (Transfer._generate_filename data) = false.
Proof.
  intros Hc. destruct (frames_clean c Hc) as (F1 & F2 & F3 & F4 & F5 & F6).
  split.
  - unfold Ack._generate_filename. rewrite !clean_replace_invalid, !has_char_app.
    by rewrite !replace_invalid_clean, F1, F2, F3.
  - unfold Transfer._generate_filename. rewrite !clean_replace_invalid, !has_char_app.
    by rewrite !replace_invalid_clean, F3, F4, F5, F6.
Qed.

Lemma generated_filename_safe_witness :
  has_char "/" (Ack._generate_filename ack_long_description) = false.
Proof. apply (generated_filename_safe ack_long_description "/"). reflexivity. Defined.

(** X4. Blank name fields.  A field that is missing, empty or only
    whitespace reads [Unknown] in the file name; with no first description
    the name ends in [Asset.pdf]; but a first description that is not empty
    and only whitespace leaves the asset part of the name empty instead of
    putting [Asset] there. *)
Theorem ack_filename_blank_fields (data : form_data) :
  (Py.strip (Py.get (fields data) "emp_id") = "" ->
     exists rest, Ack._generate_filename data = "Unknown - " +:+ rest)
  /\ (Py.strip (Py.get (fields data) "custodian_name") = "" ->
     exists front rest,
       Ack._generate_filename data = front +:+ " - Unknown - acknowledgement form " +:+ rest)
  /\ (first_description data = "" ->
     exists front,
       Ack._generate_filename data = front +:+ " - acknowledgement form Asset.pdf")
  /\ (Py.truthy (first_description data) = true ->
     Py.strip (first_description data) = "" ->
     exists front,
       Ack._generate_filename data = front +:+ " - acknowledgement form .pdf").
Proof.
  rewrite ack_filename_stripped.
  split; [|split; [|split]].
  - intros ->. by eexists.
  - intros ->.
    exists (replace_invalid (Py.or_else (Py.strip (Py.get (fields data) "emp_id")) "Unknown")).
    by eexists.
  - intros ->.
    exists (replace_invalid (Py.or_else (Py.strip (Py.get (fields data) "emp_id")) "Unknown")
            +:+ " - "
            +:+ replace_invalid
                  (Py.or_else (Py.strip (Py.get (fields data) "custodian_name")) "Unknown")).
    by rewrite !str_app_assoc.
  - intros -> ->.
    exists (replace_invalid (Py.or_else (Py.strip (Py.get (fields data) "emp_id")) "Unknown")
            +:+ " - "
            +:+ replace_invalid
                  (Py.or_else (Py.strip (Py.get (fields data) "custodian_name")) "Unknown")).
    by rewrite !str_app_assoc.
Qed.

Lemma ack_filename_blank_fields_witness :
  Ack._generate_filename blank_names_form = "Unknown - Ann - acknowledgement form .pdf".
Proof.
  destruct (ack_filename_blank_fields blank_names_form) as (_ & _ & _ & H).
  destruct H as [front H]; [reflexivity..|]. reflexivity.
Defined.

(** ** What the GUI handlers pass on *)

Lemma rstrip_cons c s :
  Py.rstrip (String c s) =
    match Py.rstrip s with
    | EmptyString => if Py.isspace c then EmptyString else String c EmptyString
    | String d r => String c (String d r)
    end.
Proof. reflexivity. Qed.

Lemma rstrip_idem s : Py.rstrip (Py.rstrip s) = Py.rstrip s.
Proof.
  induction s as [|c s IH]; [reflexivity|].
  rewrite rstrip_cons. destruct (Py.rstrip s) as [|d r] eqn:Hr.
  - destruct (Py.isspace c) eqn:Hc; [reflexivity|].
    rewrite rstrip_cons. cbn [Py.rstrip]. by rewrite Hc.
  - rewrite rstrip_cons. by rewrite IH.
Qed.

Lemma rstrip_keeps_head c s :
  Py.isspace c = false -> exists r, Py.rstrip (String c s) = String c r.
Proof.
  intros Hc. rewrite rstrip_cons. destruct (Py.rstrip s); [rewrite Hc|]; by eexists.
Qed.

Lemma lstrip_head s :
  Py.lstrip s = "" \/ exists c r, Py.lstrip s = String c r /\ Py.isspace c = false.
Proof.
  induction s as [|c s IH]; [by left|].
  simpl. destruct (Py.isspace c) eqn:Hc; [done|]. right. by eexists _, _.
Qed.

Lemma strip_idem s : Py.strip (Py.strip s) = Py.strip s.
Proof.
  unfold Py.strip. destruct (lstrip_head s) as [->|(c & r & -> & Hc)]; [reflexivity|].
  destruct (rstrip_keeps_head c r Hc) as [r' Hr]. rewrite Hr.
  cbn [Py.lstrip]. rewrite Hc, <- Hr. apply rstrip_idem.
Qed.

Lemma stripped_row_clean (kvs : list (string * string)) :
  Forall (fun kv => trimmed kv.2) kvs ->
  (exists k v, list_to_map (M := gmap string string) kvs !! k = Some v /\ v <> "") ->
  clean_row (list_to_map kvs).
Proof.
  intros Hall (k & v & Hk & Hv). split.
  - intros k'. unfold Py.get.
    destruct (list_to_map kvs !! k') as [v'|] eqn:E; [|reflexivity].
    apply elem_of_list_to_map_2 in E.
    rewrite Forall_forall in Hall. apply (Hall (k', v') E).
  - exists k. unfold Py.get. by rewrite Hk.
Qed.

Lemma ack_get_items_clean ws : Forall clean_row (Ack._get_items ws).
Proof.
  induction ws as [|w ws IH]; [constructor|].
  unfold Ack._get_items in *. cbn [flat_map]. apply Forall_app. split; [|done].
  destruct (_ || _) eqn:Hany; [|constructor].
  constructor; [|constructor].
  apply stripped_row_clean.
  - repeat constructor; apply strip_idem.
  - repeat (apply orb_true_iff in Hany as [Hany|Hany]).
    + exists "store_code", (Py.strip (Py.get w "store_code")).
      split; [reflexivity|]. by intros H; rewrite H in Hany.
    + exists "description", (Py.strip (Py.get w "description")).
      split; [reflexivity|]. by intros H; rewrite H in Hany.
    + exists "qty", (Py.strip (Py.get w "qty")).
      split; [reflexivity|]. by intros H; rewrite H in Hany.
    + exists "purchase_date", (Py.strip (Py.get w "purchase_date")).
      split; [reflexivity|]. by intros H; rewrite H in Hany.
Qed.

Lemma transfer_get_assets_clean ws : Forall clean_row (Transfer._get_assets ws).
Proof.
  induction ws as [|w ws IH]; [constructor|].
  unfold Transfer._get_assets in *. cbn [flat_map]. apply Forall_app. split; [|done].
  destruct (_ || _) eqn:Hany; [|constructor].
  constructor; [|constructor].
  apply stripped_row_clean.
  - repeat constructor; apply strip_idem.
  - repeat (apply orb_true_iff in Hany as [Hany|Hany]).
    + exists "store_code", (Py.strip (Py.get w "store_code")).
      split; [reflexivity|]. by intros H; rewrite H in Hany.
    + exists "asset_name", (Py.strip (Py.get w "asset_name")).
      split; [reflexivity|]. by intros H; rewrite H in Hany.
    + exists "description", (Py.strip (Py.get w "description")).
      split; [reflexivity|]. by intros H; rewrite H in Hany.
    + exists "old_asset_no", (Py.strip (Py.get w "old_asset_no")).
      split; [reflexivity|]. by intros H; rewrite H in Hany.
Qed.

Lemma first_description_trimmed data :
  Forall clean_row (rows data) -> trimmed (first_description data).
Proof.
  unfold first_description. destruct 1 as [|r rs [Hr _] _]; [reflexivity|apply Hr].
Qed.

Lemma ack_generate_pdf_eq e fs w :
  Ack._generate_pdf e fs w =
    match Ack._get_items (Ack.item_widgets w) with
    | [] => Some (showwarning "Please add at least one item.")
    | _ :: _ => showinfo <$> Ack.generate e fs (ack_gui_form_data w) None
    end.
Proof. unfold Ack._generate_pdf, ack_gui_form_data. by destruct (Ack._get_items _). Qed.

Lemma transfer_generate_pdf_eq e fs w :
  Transfer._generate_pdf e fs w =
    match Transfer._get_assets (Transfer.asset_widgets w) with
    | [] => Some (showwarning "Please add at least one asset.")
    | _ :: _ => showinfo <$> Transfer.generate e fs (transfer_gui_form_data w) None
    end.
Proof.
  unfold Transfer._generate_pdf, transfer_gui_form_data.
  by destruct (Transfer._get_assets _).
Qed.

(** X5. Whatever has been typed into the widgets, when a GUI handler gets
    as far as a PDF it has called [generate()] on data whose name fields are
    trimmed and whose row list is not empty, every row with all its values
    trimmed and some value not empty. *)
Theorem gui_passes_clean_data (e : env) (fs : gset string) :
  (forall (w : Ack.widgets) (o : outcome),
     Ack._generate_pdf e fs w = Some (showinfo o) ->
     Ack.generate e fs (ack_gui_form_data w) None = Some o
     /\ names_trimmed (ack_gui_form_data w)
     /\ rows (ack_gui_form_data w) <> []
     /\ Forall clean_row (rows (ack_gui_form_data w)))
  /\ (forall (w : Transfer.widgets) (o : outcome),
     Transfer._generate_pdf e fs w = Some (showinfo o) ->
     Transfer.generate e fs (transfer_gui_form_data w) None = Some o
     /\ names_trimmed (transfer_gui_form_data w)
     /\ rows (transfer_gui_form_data w) <> []
     /\ Forall clean_row (rows (transfer_gui_form_data w))).
Proof.
  split; intros w o H.
  - rewrite ack_generate_pdf_eq in H.
    pose proof (ack_get_items_clean (Ack.item_widgets w)) as Hclean.
    assert (Hrows : rows (ack_gui_form_data w) = Ack._get_items (Ack.item_widgets w))
      by reflexivity.
    destruct (Ack._get_items (Ack.item_widgets w)) as [|it its] eqn:Hit; [done|].
    destruct (Ack.generate e fs (ack_gui_form_data w) None) as [o'|]; [|done].
    injection H as <-. split; [done|]. split; [|split].
    + split.
      * repeat constructor; try reflexivity; apply strip_idem.
      * apply first_description_trimmed. by rewrite Hrows.
    + by rewrite Hrows.
    + by rewrite Hrows.
  - rewrite transfer_generate_pdf_eq in H.
    pose proof (transfer_get_assets_clean (Transfer.asset_widgets w)) as Hclean.
    assert (Hrows : rows (transfer_gui_form_data w)
                    = Transfer._get_assets (Transfer.asset_widgets w)) by reflexivity.
    destruct (Transfer._get_assets (Transfer.asset_widgets w)) as [|it its] eqn:Hit; [done|].
    destruct (Transfer.generate e fs (transfer_gui_form_data w) None) as [o'|]; [|done].
    injection H as <-. split; [done|]. split; [|split].
    + split.
      * repeat constructor; try reflexivity; apply strip_idem.
      * apply first_description_trimmed. by rewrite Hrows.
    + by rewrite Hrows.
    + by rewrite Hrows.
Qed.

Lemma gui_passes_clean_data_witness :
  exists o, Ack._generate_pdf fixed_pitch ∅ sample_ack_widgets = Some (showinfo o)
    /\ names_trimmed (ack_gui_form_data sample_ack_widgets)
    /\ filepath o = "/out/E12 - Bob Ray - acknowledgement form Chair.pdf".
Proof.
  destruct (gui_passes_clean_data fixed_pitch ∅) as [H _].
  rewrite ack_generate_pdf_eq. cbn [Ack._get_items flat_map].
  destruct (Ack.generate fixed_pitch ∅ (ack_gui_form_data sample_ack_widgets) None)
    as [o|] eqn:Hgen.
  - exists o. split; [reflexivity|].
    destruct (H sample_ack_widgets o) as (_ & Ht & _).
    + rewrite ack_generate_pdf_eq. cbn [Ack._get_items flat_map]. by rewrite Hgen.
    + split; [exact Ht|].
      rewrite ack_generate_eq in Hgen. vm_compute in Hgen. by injection Hgen as <-.
  - rewrite ack_generate_eq in Hgen. by vm_compute in Hgen.
Defined.

Lemma lookup_all_from {A} (pre l : list A) :
  map (fun i => (pre ++ l) !! i) (seq (length pre) (length l)) = map Some l.
Proof.
  revert pre. induction l as [|x l IH]; intros pre; [done|].
  simpl. rewrite list_lookup_middle by done. f_equal.
  specialize (IH (pre ++ [x])). rewrite <- app_assoc in IH. simpl in IH.
  rewrite length_app in IH. simpl in IH.
  by replace (length pre + 1)%nat with (S (length pre)) in IH by lia.
Qed.

Lemma get_items_length ws :
  (length (Ack._get_items ws) <= length ws)%nat
  /\ (length (Transfer._get_assets ws) <= length ws)%nat.
Proof.
  unfold Ack._get_items, Transfer._get_assets.
  induction ws as [|w ws [IH1 IH2]]; [done|]. cbn [flat_map].
  rewrite !length_app. cbn [length]. split.
  - match goal with |- context [if ?b then _ else _] => destruct b end;
      cbn [length]; lia.
  - match goal with |- context [if ?b then _ else _] => destruct b end;
      cbn [length]; lia.
Qed.

(** ** The signature box *)

(** X7. Wherever the cursor stands when the signature is drawn, the
    signature box of either form lies above the bottom edge of the page:
    its lower edge is at least 0.18 inch up on the Acknowledgment form and
    0.48 inch on the Transfer form, and the helper line under it is still on
    the page.  The recorded rectangle is the box drawn, 2.2 inch wide from
    the left margin and 1 inch (0.9 inch) high. *)
Theorem signature_box_on_page (y : Q) :
  (let '(x1, y1, x2, y2) := (Ack._draw_signature y).1 in
   0.18 * inch <= y1 /\ 0 < y1 - 0.12 * inch
   /\ x1 == Ack.margin /\ x2 == x1 + 2.2 * inch /\ y2 == y1 + 1 * inch
   /\ In (rect x1 y1 (2.2 * inch) (1 * inch)) (Ack._draw_signature y).2)
  /\ (let '(x1, y1, x2, y2) := (Transfer._draw_signature y).1 in
   0.48 * inch <= y1 /\ 0 < y1 - 0.12 * inch
   /\ x1 == Transfer.margin /\ x2 == x1 + 2.2 * inch /\ y2 == y1 + 0.9 * inch
   /\ In (rect x1 y1 (2.2 * inch) (0.9 * inch)) (Transfer._draw_signature y).2).
Proof.
  split.
  - unfold Ack._draw_signature. destruct (Py.lt y (1.3 * inch)) eqn:Hlt; cbn [fst snd].
    + split; [by vm_compute|]. split; [by vm_compute|].
      split; [reflexivity|]. split; [reflexivity|]. split; [by vm_compute|].
      cbn [app In]. tauto.
    + apply lt_false in Hlt. unfold inch in *.
      split; [lra|]. split; [lra|]. split; [reflexivity|]. split; [reflexivity|].
      split; [lra|]. cbn [app In]. tauto.
  - unfold Transfer._draw_signature.
    destruct (Py.lt y (1.5 * inch)) eqn:Hlt; cbn [fst snd].
    + split; [by vm_compute|]. split; [by vm_compute|].
      split; [reflexivity|]. split; [reflexivity|]. split; [by vm_compute|].
      cbn [app In]. tauto.
    + apply lt_false in Hlt. unfold inch in *.
      split; [lra|]. split; [lra|]. split; [reflexivity|]. split; [reflexivity|].
      split; [lra|]. cbn [app In]. tauto.
Qed.

(** ** Lines of text *)

Lemma inject_nat_S n :
  inject_Z (Z.of_nat (S n)) == inject_Z (Z.of_nat n) + 1.
Proof. rewrite Nat2Z.inj_succ, <- Z.add_1_r, inject_Z_plus. reflexivity. Qed.

(** X9. The line loop of the declarations draws the lines it is given in
    order, all at the same [x], line [i] at [i] steps below the start, and
    returns the cursor one step below the last line. *)
Theorem draw_lines_spacing (x y step : Q) (lines : list string) :
  (draw_lines x y step lines).1 == y - inject_Z (Z.of_nat (length lines)) * step
  /\ omap text_of (draw_lines x y step lines).2 = lines
  /\ length (draw_lines x y step lines).2 = length lines
  /\ (forall i l, lines !! i = Some l ->
        exists yi, (draw_lines x y step lines).2 !! i = Some (drawString x yi l)
                   /\ yi == y - inject_Z (Z.of_nat i) * step).
Proof.
  revert y. induction lines as [|l0 lines IH]; intros y.
  - cbn. split; [ring|]. split; [done|]. split; [done|]. intros i l Hi. done.
  - cbn [draw_lines]. destruct (IH (y - step)) as (Hy & Ht & Hl & Hi).
    destruct (draw_lines x (y - step) step lines) as [y' out]. cbn [fst snd] in *.
    split; [|split; [|split]].
    + rewrite Hy. cbn [length]. rewrite inject_nat_S. ring.
    + cbn. by rewrite Ht.
    + cbn. by rewrite Hl.
    + intros [|i] l Hl'.
      * injection Hl' as <-. exists y. split; [done|]. cbn. ring.
      * destruct (Hi i l Hl') as (yi & Hc & Hyi). exists yi. split; [done|].
        rewrite Hyi, inject_nat_S. ring.
Qed.

(** ** What a table row shows *)

Lemma cell_text_take col width text m :
  col <> 0%nat -> Py.int (width / 5.5) = Z.of_nat m ->
  cell_text col width text = Py.take m text.
Proof.
  intros Hcol Hm. unfold cell_text. rewrite Hm.
  destruct col as [|col]; [done|]. cbn [Nat.eqb negb]. rewrite andb_true_r.
  destruct (Z.of_nat (Py.len text) >? Z.of_nat m)%Z eqn:Hgt.
  - unfold Py.slice_to. replace (0 <=? Z.of_nat m)%Z with true
      by (symmetry; apply Z.leb_le; lia).
    by rewrite Nat2Z.id.
  - symmetry. apply take_all. rewrite Z.gtb_ltb in Hgt. apply Z.ltb_ge in Hgt. lia.
Qed.

Lemma index_cell_text width text : cell_text 0 width text = text.
Proof. unfold cell_text. cbn [Nat.eqb negb]. by rewrite andb_false_r. Qed.

(** X10. A table row that shows an item draws five texts: the row number
    counted from 1, then the four fields, each cut to what its column
    holds.  The Acknowledgment table holds 14 characters of the store code,
    41 of the description, 5 of the quantity and 14 of the purchase date;
    the Transfer table 13 of the store code, 17 of the asset name, 30 of
    the description and 15 of the old asset number.  A field missing from
    the row dict shows as the empty text. *)
Theorem row_texts (row_num : nat) (y : Q) (item : gmap string string) :
  omap text_of (Ack.block_cmds (DataRow row_num y (Some item)))
    = [Py.str (row_num + 1);
       Py.take 14 (Py.get item "store_code");
       Py.take 41 (Py.get item "description");
       Py.take 5 (Py.get item "qty");
       Py.take 14 (Py.get item "purchase_date")]
  /\ omap text_of (Transfer.block_cmds (DataRow row_num y (Some item)))
    = [Py.str (row_num + 1);
       Py.take 13 (Py.get item "store_code");
       Py.take 17 (Py.get item "asset_name");
       Py.take 30 (Py.get item "description");
       Py.take 15 (Py.get item "old_asset_no")].
Proof.
  split.
  - unfold Ack.block_cmds, Ack.col_widths. cbn [map columns].
    unfold Ack.data_cell. cbn [Nat.eqb Ack.cell_source app omap text_of mbind option_bind].
    rewrite index_cell_text.
    rewrite (cell_text_take 1 _ _ 14), (cell_text_take 2 _ _ 41),
      (cell_text_take 3 _ _ 5), (cell_text_take 4 _ _ 14) by (done || reflexivity).
    reflexivity.
  - unfold Transfer.block_cmds, Transfer.col_widths. cbn [map columns].
    unfold Transfer.data_cell.
    cbn [Nat.eqb Transfer.cell_source app omap text_of mbind option_bind].
    rewrite index_cell_text.
    rewrite (cell_text_take 1 _ _ 13), (cell_text_take 2 _ _ 17),
      (cell_text_take 3 _ _ 30), (cell_text_take 4 _ _ 15) by (done || reflexivity).
    reflexivity.
Qed.

(** ** Radio buttons *)

Lemma count_app p l1 l2 : count_cmds p (l1 ++ l2) = (count_cmds p l1 + count_cmds p l2)%nat.
Proof. unfold count_cmds. by rewrite List.filter_app, length_app. Qed.

Lemma count_if p (b : bool) l1 l2 :
  count_cmds p (if b then l1 else l2) = if b then count_cmds p l1 else count_cmds p l2.
Proof. by destruct b. Qed.

Lemma radio_counts x y selected :
  count_cmds is_filled_circle (Ack._draw_radio x y selected) = one_if selected
  /\ count_cmds is_line (Ack._draw_radio x y selected) = 0%nat.
Proof. by destruct selected. Qed.

Lemma count_concat_imap p (f : nat -> string -> list cmd) (g : string -> nat) l :
  (forall i x, count_cmds p (f i x) = g x) ->
  count_cmds p (concat (imap f l)) = sum_list (map g l).
Proof.
  revert f. induction l as [|x l IH]; intros f Hf; [reflexivity|].
  cbn [imap concat map sum_list]. rewrite count_app, Hf. f_equal.
  apply IH. intros i y. apply Hf.
Qed.

Ltac decide_selected sel :=
  repeat match goal with
  | |- context [String.eqb sel ?L] =>
      destruct (String.eqb_spec sel L) as [->|?]; [reflexivity|]
  end; reflexivity.

Lemma building_selected sel :
  sum_list (map (fun b => one_if (Ack.is_selected b sel)) Ack.buildings)
    = one_if (among sel ["SZH"; "J1"; "J2"; "Student Hub"; "Hostel"; "Others:"; "Others"])
  /\ sum_list (map (fun b => one_if (Ack.is_others b sel)) Ack.buildings)
    = one_if (String.eqb sel "Others").
Proof.
  unfold Ack.is_selected, Ack.is_others, among, Ack.buildings.
  cbn [map sum_list existsb].
  rewrite (String.eqb_sym "SZH" sel), (String.eqb_sym "J1" sel), (String.eqb_sym "J2" sel),
    (String.eqb_sym "Student Hub" sel), (String.eqb_sym "Hostel" sel),
    (String.eqb_sym "Others:" sel).
  split; decide_selected sel.
Qed.

Lemma floor_selected sel :
  sum_list (map (fun b => one_if (Ack.is_selected b sel)) Ack.floors)
    = one_if (among sel ["Ground"; "1st"; "2nd"; "3rd"; "Others:"; "Others"])
  /\ sum_list (map (fun b => one_if (Ack.is_others b sel)) Ack.floors)
    = one_if (String.eqb sel "Others").
Proof.
  unfold Ack.is_selected, Ack.is_others, among, Ack.floors.
  cbn [map sum_list existsb].
  rewrite (String.eqb_sym "Ground" sel), (String.eqb_sym "1st" sel),
    (String.eqb_sym "2nd" sel), (String.eqb_sym "3rd" sel), (String.eqb_sym "Others:" sel).
  split; decide_selected sel.
Qed.

Lemma section_selected sel :
  sum_list (map (fun b => one_if (String.eqb b sel)) Ack.sections)
    = one_if (among sel ["Male"; "Female"]).
Proof.
  unfold among, Ack.sections. cbn [map sum_list existsb].
  rewrite (String.eqb_sym "Male" sel), (String.eqb_sym "Female" sel).
  decide_selected sel.
Qed.

Lemma count_draw_lines p x y step lines :
  (forall x y t, p (drawString x y t) = false) ->
  count_cmds p (draw_lines x y step lines).2 = 0%nat.
Proof.
  intros Hp. revert y. induction lines as [|l lines IH]; intros y; [reflexivity|].
  cbn [draw_lines]. specialize (IH (y - step)).
  destruct (draw_lines x (y - step) step lines) as [y' out]. cbn [snd] in *.
  unfold count_cmds in *. cbn [List.filter]. by rewrite Hp.
Qed.

(** ** The Transfer table on its page *)

Lemma nq_S n : nq (S n) == nq n + 1.
Proof. apply inject_nat_S. Qed.

Lemma nq_le m n : (m <= n)%nat -> nq m <= nq n.
Proof. intros H. unfold nq. rewrite <- Zle_Qle. lia. Qed.

Lemma transfer_draw_rows_cursor assets rs y :
  (Transfer.draw_rows assets rs y).1 == y - nq (length rs) * Transfer.row_height.
Proof.
  revert y. induction rs as [|r rs IH]; intros y.
  - cbn. unfold nq. cbn. ring.
  - cbn [Transfer.draw_rows]. specialize (IH (y - Transfer.row_height)).
    destruct (Transfer.draw_rows assets rs _) as [y' out]. cbn [fst length] in *.
    rewrite IH, nq_S. ring.
Qed.

Lemma transfer_draw_rows_at assets k n y r y' it :
  DataRow r y' it ∈ (Transfer.draw_rows assets (seq k n) y).2 ->
  (k <= r)%nat /\ y' == y - nq (r - k) * Transfer.row_height.
Proof.
  revert k y. induction n as [|n IH]; intros k y Hin.
  - by apply elem_of_nil in Hin.
  - cbn [seq Transfer.draw_rows] in Hin.
    specialize (IH (S k) (y - Transfer.row_height)).
    destruct (Transfer.draw_rows assets (seq (S k) n) _) as [y1 out]. cbn [snd] in *.
    apply elem_of_cons in Hin as [Heq|Hin].
    + injection Heq as -> -> _. split; [lia|].
      rewrite Nat.sub_diag. unfold nq. cbn. ring.
    + destruct (IH Hin) as [Hk Hy]. split; [lia|].
      rewrite Hy. replace (r - k)%nat with (S (r - S k)) by lia. rewrite nq_S. ring.
Qed.

Lemma transfer_top : Transfer.height - Transfer.margin == 100062 # 127.
Proof. by vm_compute. Qed.

Lemma transfer_table_cursor_eq e data :
  transfer_table_cursor e data
    = Transfer.height - Transfer.margin - 1.1 * inch - 0.5 * inch - 0.3 * inch
      - 0.5 * inch - 0.32 * inch - 0.35 * inch - 0.4 * inch.
Proof. reflexivity. Qed.

(** ** Pages of the Transfer form *)

Lemma transfer_table_end y assets :
  (Transfer._draw_assets_table y assets).1
    == y - Transfer.header_height
       - nq (1 `max` length assets) * Transfer.row_height - 0.3 * inch.
Proof.
  unfold Transfer._draw_assets_table, Transfer.table_blocks.
  pose proof (transfer_draw_rows_cursor assets (seq 0 (Transfer.num_rows assets))
                (y - Transfer.header_height)) as H.
  destruct (Transfer.draw_rows _ _ _) as [y' out]. cbn [fst] in *.
  rewrite H, length_seq. by rewrite (proj2 (num_rows_max assets)).
Qed.

Lemma transfer_signature_cursor_eq e data :
  (Transfer.draw_before_signature e data).1
    = (Transfer._draw_assets_table (transfer_table_cursor e data) (rows data)).1
      - 0.32 * inch - 0.35 * inch - 0.4 * inch
      - 0.25 * inch - 0.16 * inch - 0.16 * inch - 0.16 * inch - 0.16 * inch - 0.2 * inch.
Proof.
  unfold Transfer.draw_before_signature, transfer_table_cursor.
  destruct (Transfer._draw_header e _) as [y0 h]. cbn [fst].
  destruct (Transfer._draw_date e y0) as [y1 d]. cbn [fst].
  destruct (Transfer._draw_transferred_from e y1 data) as [y2 f]. cbn [fst].
  destruct (Transfer._draw_assets_table y2 (rows data)) as [y3 t]. cbn [fst].
  reflexivity.
Qed.

(** X13. In the Transfer form the cursor reaches the signature 6.28 inch
    plus 0.3 inch per table row below the top margin.  So the signature
    block goes to a second page exactly when there are eleven assets or more,
    and that is the only new page; and from sixteen assets on the blocks
    before it end below the bottom edge of the first page. *)
Theorem transfer_signature_page (e : env) (data : form_data) :
  (Transfer.draw_before_signature e data).1
    == Transfer.height - Transfer.margin
       - (6.28 + 0.3 * nq (1 `max` length (rows data))) * inch
  /\ page_starts (Transfer._draw_form e data).2
     = (if (11 <=? length (rows data))%nat then [Some "Signature :"] else [])
  /\ ((Transfer.draw_before_signature e data).1 < 0 <-> (16 <= length (rows data))%nat).
Proof.
  assert (Hcur : (Transfer.draw_before_signature e data).1
                 == Transfer.height - Transfer.margin
                    - (6.28 + 0.3 * nq (1 `max` length (rows data))) * inch).
  { rewrite transfer_signature_cursor_eq, transfer_table_end, transfer_table_cursor_eq.
    unfold Transfer.header_height, Transfer.row_height. ring. }
  split; [exact Hcur|].
  pose proof transfer_top as Htop. unfold inch in Hcur.
  set (n := length (rows data)) in *.
  split.
  - unfold Transfer._draw_form.
    pose proof (transfer_before_signature_no_break e data) as Hpre.
    destruct (Transfer.draw_before_signature e data) as [y5 pre]. cbn [fst snd] in *.
    pose proof (transfer_signature_starts y5) as Hs.
    destruct (Transfer._draw_signature y5) as [rc sg]. cbn [snd] in *.
    rewrite page_starts_app_no_break, Hs by done.
    destruct (11 <=? n)%nat eqn:Hn.
    + apply Nat.leb_le in Hn.
      replace (Py.lt y5 (1.5 * inch)) with true; [done|].
      symmetry. apply lt_true. unfold inch.
      pose proof (nq_le 11 (1 `max` n) ltac:(lia)) as Hle.
      change (nq 11) with (11 : Q) in Hle.
      generalize dependent (nq (1 `max` n)). intros q Hcur Hle. lra.
    + apply Nat.leb_gt in Hn.
      replace (Py.lt y5 (1.5 * inch)) with false; [done|].
      symmetry. apply lt_false. unfold inch.
      pose proof (nq_le (1 `max` n) 10 ltac:(lia)) as Hle.
      change (nq 10) with (10 : Q) in Hle.
      generalize dependent (nq (1 `max` n)). intros q Hcur Hle. lra.
  - split.
    + intros Hneg. destruct (decide (16 <= n)%nat) as [|Hn]; [done|]. exfalso.
      pose proof (nq_le (1 `max` n) 15 ltac:(lia)) as Hle.
      change (nq 15) with (15 : Q) in Hle.
      generalize dependent (nq (1 `max` n)). intros q Hcur Hle. lra.
    + intros Hn. pose proof (nq_le 16 (1 `max` n) ltac:(lia)) as Hle.
      change (nq 16) with (16 : Q) in Hle.
      generalize dependent (nq (1 `max` n)). intros q Hcur Hle. lra.
Qed.

(** ** Rows per page of the Acknowledgment table *)

Lemma ack_first_page_rows e :
  Ack.bottom_margin + 4 * inch
    <= ack_table_cursor e - Ack.header_height - nq 13 * Ack.row_height
  /\ ack_table_cursor e - Ack.header_height - nq 14 * Ack.row_height
     < Ack.bottom_margin + 4 * inch.
Proof. split; by vm_compute. Qed.

Lemma ack_next_page_rows :
  Ack.bottom_margin + 4 * inch
    <= Ack.height - Ack.margin - Ack.header_height - nq 19 * Ack.row_height
  /\ Ack.height - Ack.margin - Ack.header_height - nq 20 * Ack.row_height
     < Ack.bottom_margin + 4 * inch.
Proof. split; by vm_compute. Qed.

(** From a cursor [k] rows below the first row position [Pg] of a page
    that holds [cap] rows, the breaks among the rows still to draw. *)
Lemma ack_rows_breaks items rs : forall y Pg cap k,
  Ack.bottom_margin + 4 * inch <= Pg - nq cap * Ack.row_height ->
  Pg - nq (S cap) * Ack.row_height < Ack.bottom_margin + 4 * inch ->
  (k <= cap)%nat -> (cap <= 19)%nat ->
  y == Pg - nq k * Ack.row_height ->
  count_breaks (Ack.draw_rows items rs y).2 = ((length rs + k + 18 - cap) / 19)%nat.
Proof.
  induction rs as [|r rs IH]; intros y Pg cap k Hfit Hover Hk Hcap Hy.
  - unfold count_breaks. cbn [Ack.draw_rows snd List.filter length].
    symmetry. apply Nat.div_small. lia.
  - cbn [Ack.draw_rows]. destruct (Py.lt _ _) eqn:Hlt.
    + apply lt_true in Hlt.
      assert (k = cap) as ->.
      { destruct (decide (k = cap)) as [|Hne]; [done|]. exfalso.
        pose proof (nq_le (S k) cap ltac:(lia)) as Hle. rewrite nq_S in Hle.
        unfold Ack.row_height, inch in *.
        generalize dependent (nq k). intros qk Hy Hle.
        generalize dependent (nq cap). intros qc Hfit Hle. lra. }
      destruct ack_next_page_rows as [Hfit' Hover'].
      specialize (IH (Ack.height - Ack.margin - Ack.header_height - Ack.row_height)
                    (Ack.height - Ack.margin - Ack.header_height) 19%nat 1%nat
                    Hfit' Hover' ltac:(lia) ltac:(lia)).
      destruct (Ack.draw_rows items rs _) as [y' out]. cbn [snd] in *.
      unfold count_breaks in *. cbn [app List.filter length].
      rewrite IH.
      * replace (length rs + 1 + 18 - 19)%nat with (length rs) by lia.
        replace (S (length rs) + cap + 18 - cap)%nat with (length rs + 1 * 19)%nat by lia.
        rewrite Nat.div_add by lia. lia.
      * change (nq 1) with (1 : Q). ring.
    + apply lt_false in Hlt.
      assert (k < cap)%nat as Hlt'.
      { destruct (decide (k < cap)%nat) as [|Hne]; [done|]. exfalso.
        assert (k = cap) as -> by lia. rewrite nq_S in Hover.
        unfold Ack.row_height, inch in *.
        generalize dependent (nq cap). intros qc Hfit Hover Hy. lra. }
      specialize (IH (y - Ack.row_height) Pg cap (S k) Hfit Hover ltac:(lia) Hcap).
      destruct (Ack.draw_rows items rs _) as [y' out]. cbn [snd] in *.
      unfold count_breaks in *. cbn [app List.filter length].
      rewrite IH.
      * f_equal. lia.
      * rewrite Hy, nq_S. ring.
Qed.

Lemma page_starts_length_app l1 l2 :
  length (page_starts (l1 ++ l2))
    = (length (page_starts l1) + length (page_starts l2))%nat.
Proof.
  induction l1 as [|c l1 IH]; [done|].
  destruct c; cbn [app page_starts length]; by rewrite ?IH.
Qed.

Lemma ack_block_no_break b : b <> PageBreak -> no_break (Ack.block_cmds b).
Proof.
  destruct b as [|y|r y item]; [done|..]; intros _.
  - unfold Ack.block_cmds, Ack.draw_header_row. no_break.
    unfold Ack.header_cell. no_break.
  - unfold Ack.block_cmds. no_break. unfold Ack.data_cell. no_break.
Qed.

(** Every [showPage] of a rendered table comes from a [PageBreak] block. *)
Lemma ack_blocks_starts bs :
  length (page_starts (concat (map Ack.block_cmds bs))) = count_breaks bs.
Proof.
  unfold count_breaks.
  induction bs as [|b bs IH]; [done|].
  cbn [map concat List.filter]. rewrite page_starts_length_app, IH.
  destruct b as [|y|r y item]; [done|..]; cbn [length];
    by rewrite page_starts_no_break by (by apply ack_block_no_break).
Qed.

(** X12. In [_draw_form] the Acknowledgment table puts thirteen rows
    under the header of the first page and nineteen on every page after it:
    the commands of a table of [n] rows (one row for an empty list) hold
    [(n + 5) / 19] calls of [showPage], none up to thirteen rows, one from
    fourteen to thirty-two. *)
Theorem ack_rows_per_page (e : env) (data : form_data) :
  (exists pre post,
     (Ack._draw_form e data).2
       = pre ++ (Ack._draw_items_table (ack_table_cursor e) (rows data)).2 ++ post)
  /\ length (page_starts (Ack._draw_items_table (ack_table_cursor e) (rows data)).2)
     = ((1 `max` length (rows data) + 5) / 19)%nat.
Proof.
  split.
  - unfold Ack._draw_form, ack_table_cursor.
    destruct (Ack._draw_header e _) as [y0 h]. cbn [fst].
    destruct (Ack._draw_date e y0) as [y1 d]. cbn [fst].
    destruct (Ack._draw_items_table y1 (rows data)) as [y2 t]. cbn [snd].
    destruct (Ack.draw_after_table e y2 data) as [rc rest]. cbn [snd].
    exists (h ++ d), rest. by rewrite <- !app_assoc.
  - destruct (ack_first_page_rows e) as [Hfit Hover].
    unfold Ack._draw_items_table, Ack.table_blocks.
    pose proof (ack_rows_breaks (rows data) (seq 0 (Ack.num_rows (rows data)))
                  (ack_table_cursor e - Ack.header_height)
                  (ack_table_cursor e - Ack.header_height) 13%nat 0%nat
                  Hfit Hover ltac:(lia) ltac:(lia)) as H.
    destruct (Ack.draw_rows _ _ _) as [y' out]. cbn [snd] in *.
    rewrite ack_blocks_starts.
    unfold count_breaks in *. cbn [List.filter]. rewrite H.
    + rewrite length_seq, (proj1 (num_rows_max (rows data))). f_equal. lia.
    + change (nq 0) with (0 : Q). ring.
Qed.

(** ** The signature field *)

Lemma Qfloor_unique (q : Q) (z : Z) :
  inject_Z z <= q -> q < inject_Z (z + 1) -> Qfloor q = z.
Proof.
  intros Hle Hlt.
  apply Qfloor_resp_le in Hle. rewrite Qfloor_Z in Hle.
  pose proof (Qfloor_le q) as Hfl.
  assert (inject_Z (Qfloor q) < inject_Z (z + 1)) as H by (eapply Qle_lt_trans; eauto).
  rewrite <- Zlt_Qlt in H. lia.
Qed.

Lemma Qfloor_shift (q : Q) (z : Z) : Qfloor (q - inject_Z z) = (Qfloor q - z)%Z.
Proof.
  pose proof (Qfloor_le q) as Hle. pose proof (Qlt_floor q) as Hlt.
  rewrite inject_Z_plus in Hlt.
  apply Qfloor_unique; unfold Z.sub; rewrite ?inject_Z_plus, inject_Z_opp;
    change (inject_Z 1) with (1 : Q) in *;
    generalize dependent (inject_Z (Qfloor q)); generalize (inject_Z z);
    intros a b Hle Hlt; lra.
Qed.

(** The field is added to the last page and to a new form dictionary. *)
Lemma add_signature_field_last title front lp rc :
  _add_signature_field title (front ++ [lp]) (Some rc)
    = let '(x1, y1, x2, y2) := rc in
      let f := {| Pdf.Type_ := "/Annot"; Pdf.Subtype := "/Widget"; Pdf.FT := "/Sig";
                  Pdf.T := title; Pdf.F := 4;
                  Pdf.Rect := (Py.int x1, Py.int y1, Py.int x2, Py.int y2);
                  Pdf.P := length front |} in
      Some {| Pdf.pages :=
                front ++ [{| Pdf.contents := Pdf.contents lp;
                             Pdf.Annots := Some (default [] (Pdf.Annots lp) ++ [f]) |}];
              Pdf.AcroForm := Some {| Pdf.Fields := [f]; Pdf.SigFlags := 3 |} |}.
Proof.
  unfold _add_signature_field. rewrite last_snoc.
  destruct rc as [[[x1 y1] x2] y2].
  rewrite length_app. cbn [length].
  replace (length front + 1 - 1)%nat with (length front + 0)%nat by lia.
  rewrite insert_app_r. cbn [insert list_insert]. by rewrite Nat.add_0_r.
Qed.

(** Either form ends with its signature block. *)
Lemma ack_form_ends_with_signature e data :
  exists y pre,
    (Ack._draw_form e data).1 = (Ack._draw_signature y).1
    /\ (Ack._draw_form e data).2 = pre ++ (Ack._draw_signature y).2.
Proof.
  unfold Ack._draw_form, Ack.draw_after_table.
  destruct (Ack._draw_header e _) as [y0 h].
  destruct (Ack._draw_date e y0) as [y1 d].
  destruct (Ack._draw_items_table y1 (rows data)) as [y2 t].
  destruct (Ack._check_page_break y2 _) as [y3 c0].
  destruct (Ack._draw_custodian_details y3 data) as [y4 c1].
  destruct (Ack._draw_location_section y4 data) as [y5 c2].
  destruct (Ack._draw_declaration e y5) as [y6 c3].
  destruct (Ack._draw_device_selection e y6 data) as [y7 c4].
  exists y7, (h ++ d ++ t ++ c0 ++ c1 ++ c2 ++ c3 ++ c4).
  destruct (Ack._draw_signature y7) as [r c5]. cbn [fst snd].
  split; [done|]. by rewrite <- !app_assoc.
Qed.

Lemma transfer_form_ends_with_signature e data :
  exists y pre,
    (Transfer._draw_form e data).1 = (Transfer._draw_signature y).1
    /\ (Transfer._draw_form e data).2 = pre ++ (Transfer._draw_signature y).2.
Proof.
  unfold Transfer._draw_form.
  destruct (Transfer.draw_before_signature e data) as [y pre].
  exists y, pre. by destruct (Transfer._draw_signature y) as [r s].
Qed.


Lemma box_ints (a b : Q) (h lo : Z) :
  a == b - inject_Z h -> inject_Z lo <= a -> (0 <= lo)%Z -> (0 <= h)%Z ->
  Py.int a = Qfloor a /\ Py.int b = Qfloor b
  /\ Qfloor b = (Qfloor a + h)%Z /\ (lo <= Qfloor a)%Z.
Proof.
  intros Hab Hlo Hlo0 Hh.
  assert (0 <= inject_Z lo) as Hq by (change 0 with (inject_Z 0); by rewrite <- Zle_Qle).
  assert (0 <= inject_Z h) as Hqh by (change 0 with (inject_Z 0); by rewrite <- Zle_Qle).
  assert (0 <= a) as Ha by lra.
  assert (0 <= b) as Hb by lra.
  split; [by apply int_floor|]. split; [by apply int_floor|].
  split.
  - rewrite (Qfloor_comp a (b - inject_Z h) Hab), Qfloor_shift. lia.
  - apply Qfloor_resp_le in Hlo. by rewrite Qfloor_Z in Hlo.
Qed.

Lemma ack_signature_rect y :
  let '(x1, y1, x2, y2) := (Ack._draw_signature y).1 in
  (exists pre post,
     (Ack._draw_signature y).2 = pre ++ rect x1 y1 (2.2 * inch) (1 * inch) :: post
     /\ no_break post)
  /\ (Py.int x1, Py.int y1, Py.int x2, Py.int y2)
     = (43, Qfloor y1, 201, Qfloor y1 + 72)%Z
  /\ (12 <= Qfloor y1)%Z.
Proof.
  unfold Ack._draw_signature.
  destruct (Py.lt y (1.3 * inch)) eqn:Hlt; cbn [fst snd].
  - split; [|split; by vm_compute].
    eexists (_ :: _ :: _ :: _ :: _ :: _ :: []), _. split; [reflexivity|]. no_break.
  - apply lt_false in Hlt.
    split.
    { eexists (_ :: _ :: _ :: _ :: _ :: []), _. split; [reflexivity|]. no_break. }
    destruct (box_ints (y - 0.12 * inch - 1 * inch) (y - 0.12 * inch) 72 12)
      as (Ha & Hb & Hab & Hlo); [| |lia|lia|].
    + unfold inch. change (inject_Z 72) with 72%Q. ring.
    + unfold inch in *. change (inject_Z 12) with 12%Q. lra.
    + split; [|done]. rewrite Ha, Hb, Hab.
      replace (Py.int Ack.margin) with 43%Z by (by vm_compute).
      replace (Py.int (Ack.margin + 2.2 * inch)) with 201%Z by (by vm_compute).
      done.
Qed.

Lemma floor_gap (a b : Q) (lo hi : Z) :
  inject_Z lo <= b - a -> b - a <= inject_Z hi ->
  (lo <= Qfloor b - Qfloor a <= hi)%Z.
Proof.
  intros Hlo Hhi.
  pose proof (Qfloor_le a) as Ha1. pose proof (Qlt_floor a) as Ha2.
  pose proof (Qfloor_le b) as Hb1. pose proof (Qlt_floor b) as Hb2.
  rewrite inject_Z_plus in Ha2, Hb2. change (inject_Z 1) with 1%Q in *.
  assert (inject_Z (Qfloor b) < inject_Z (Qfloor a + (hi + 1))
          /\ inject_Z (Qfloor a + (lo + - 1)) < inject_Z (Qfloor b)) as [H1 H2].
  { rewrite !inject_Z_plus. change (inject_Z 1) with 1%Q. change (inject_Z (- 1)) with (- 1)%Q.
    set (fa := inject_Z (Qfloor a)) in *. set (fb := inject_Z (Qfloor b)) in *.
    set (qlo := inject_Z lo) in *. set (qhi := inject_Z hi) in *.
    clearbody fa fb qlo qhi. split; lra. }
  rewrite <- Zlt_Qlt in H1, H2. lia.
Qed.

Lemma transfer_signature_rect y :
  let '(x1, y1, x2, y2) := (Transfer._draw_signature y).1 in
  (exists pre post,
     (Transfer._draw_signature y).2 = pre ++ rect x1 y1 (2.2 * inch) (0.9 * inch) :: post
     /\ no_break post)
  /\ (Py.int x1, Py.int y1, Py.int x2, Py.int y2)
     = (54, Qfloor y1, 212, Qfloor y2)%Z
  /\ (34 <= Qfloor y1)%Z /\ (64 <= Qfloor y2 - Qfloor y1 <= 65)%Z.
Proof.
  unfold Transfer._draw_signature.
  destruct (Py.lt y (1.5 * inch)) eqn:Hlt; cbn [fst snd].
  - split; [|split; [|split]; by vm_compute].
    eexists (_ :: _ :: _ :: _ :: _ :: _ :: []), _. split; [reflexivity|]. no_break.
  - apply lt_false in Hlt.
    split.
    { eexists (_ :: _ :: _ :: _ :: _ :: []), _. split; [reflexivity|]. no_break. }
    assert (inject_Z 34 <= y - 0.12 * inch - 0.9 * inch) as Hlo.
    { unfold inch in *. change (inject_Z 34) with 34%Q. lra. }
    assert (0 <= y - 0.12 * inch - 0.9 * inch) as Ha.
    { change (inject_Z 34) with 34%Q in Hlo. lra. }
    assert (0 <= y - 0.12 * inch) as Hb by (unfold inch in *; lra).
    rewrite (int_floor _ Ha), (int_floor _ Hb).
    replace (Py.int Transfer.margin) with 54%Z by (by vm_compute).
    replace (Py.int (Transfer.margin + 2.2 * inch)) with 212%Z by (by vm_compute).
    split; [done|]. split.
    + apply Qfloor_resp_le in Hlo. by rewrite Qfloor_Z in Hlo.
    + apply floor_gap; unfold inch;
        [change (inject_Z 64) with 64%Q|change (inject_Z 65) with 65%Q]; lra.
Qed.

(** X14. [_add_signature_field] puts the signature field on the last page,
    and that is the page of the signature box: in the commands of either form
    no [showPage] follows the box.  The field is the only entry of a new form
    dictionary with [SigFlags] 3, named [EmployeeSignature] ([Signature] on the
    Transfer form).  Its rectangle is the box with every edge cut down to a
    whole point: 158 points wide from x = 43 (54), and 72 points high on the
    Acknowledgment form, 64 or 65 points on the Transfer form, with the lower
    edge at least 12 (34) points above the bottom of the page. *)
Theorem signature_field_placement (e : env) (data : form_data)
    (front : list Pdf.page) (lp : Pdf.page) :
  (let '(x1, y1, x2, y2) := (Ack._draw_form e data).1 in
   (exists pre post,
      (Ack._draw_form e data).2 = pre ++ rect x1 y1 (2.2 * inch) (1 * inch) :: post
      /\ no_break post)
   /\ (exists f,
        _add_signature_field "EmployeeSignature" (front ++ [lp]) (Some (x1, y1, x2, y2))
          = Some {| Pdf.pages :=
                      front ++ [{| Pdf.contents := Pdf.contents lp;
                                   Pdf.Annots := Some (default [] (Pdf.Annots lp) ++ [f]) |}];
                    Pdf.AcroForm := Some {| Pdf.Fields := [f]; Pdf.SigFlags := 3 |} |}
        /\ f = {| Pdf.Type_ := "/Annot"; Pdf.Subtype := "/Widget"; Pdf.FT := "/Sig";
                  Pdf.T := "EmployeeSignature"; Pdf.F := 4;
                  Pdf.Rect := (43, Qfloor y1, 201, Qfloor y1 + 72)%Z;
                  Pdf.P := length front |})
   /\ (12 <= Qfloor y1)%Z)
  /\ (let '(x1, y1, x2, y2) := (Transfer._draw_form e data).1 in
   (exists pre post,
      (Transfer._draw_form e data).2
        = pre ++ rect x1 y1 (2.2 * inch) (0.9 * inch) :: post
      /\ no_break post)
   /\ (exists f,
        _add_signature_field "Signature" (front ++ [lp]) (Some (x1, y1, x2, y2))
          = Some {| Pdf.pages :=
                      front ++ [{| Pdf.contents := Pdf.contents lp;
                                   Pdf.Annots := Some (default [] (Pdf.Annots lp) ++ [f]) |}];
                    Pdf.AcroForm := Some {| Pdf.Fields := [f]; Pdf.SigFlags := 3 |} |}
        /\ f = {| Pdf.Type_ := "/Annot"; Pdf.Subtype := "/Widget"; Pdf.FT := "/Sig";
                  Pdf.T := "Signature"; Pdf.F := 4;
                  Pdf.Rect := (54, Qfloor y1, 212, Qfloor y2)%Z;
                  Pdf.P := length front |})
   /\ (34 <= Qfloor y1)%Z /\ (64 <= Qfloor y2 - Qfloor y1 <= 65)%Z).
Proof.
  split.
  - destruct (ack_form_ends_with_signature e data) as (y & pre0 & Hr & Hc).
    rewrite Hr, Hc. pose proof (ack_signature_rect y) as H.
    destruct (Ack._draw_signature y) as [[[[x1 y1] x2] y2] sg]. cbn [fst snd] in *.
    destruct H as ((pre & post & -> & Hpost) & Hint & Hlo).
    split; [exists (pre0 ++ pre), post; by rewrite <- app_assoc|].
    split; [|done].
    eexists. split; [|reflexivity].
    rewrite add_signature_field_last. cbv zeta. by rewrite Hint.
  - destruct (transfer_form_ends_with_signature e data) as (y & pre0 & Hr & Hc).
    rewrite Hr, Hc. pose proof (transfer_signature_rect y) as H.
    destruct (Transfer._draw_signature y) as [[[[x1 y1] x2] y2] sg]. cbn [fst snd] in *.
    destruct H as ((pre & post & -> & Hpost) & Hint & Hlo & Hgap).
    split; [exists (pre0 ++ pre), post; by rewrite <- app_assoc|].
    split; [|done].
    eexists. split; [|reflexivity].
    rewrite add_signature_field_last. cbv zeta. by rewrite Hint.
Qed.

(** * The tables on the canvas *)

Lemma boxes_app l1 l2 : boxes (l1 ++ l2) = boxes l1 ++ boxes l2.
Proof. apply omap_app. Qed.

Lemma texts_app l1 l2 : texts (l1 ++ l2) = texts l1 ++ texts l2.
Proof. apply omap_app. Qed.

(** The code's truncation is the spec's on a column that is not the index
    column and has a width that is not negative. *)
Lemma cell_text_hard_truncate col width text :
  col <> 0%nat -> 0 <= width -> cell_text col width text = hard_truncate width text.
Proof.
  intros Hcol Hw.
  assert (Hfl : (0 <= Qfloor (width / 5.5))%Z).
  { change 0%Z with (Qfloor 0). apply Qfloor_resp_le. by apply cell_width_nonneg. }
  unfold hard_truncate.
  rewrite (cell_text_take col width text (Z.to_nat (Qfloor (width / 5.5)))); [|done|].
  - by rewrite take_if_longer.
  - rewrite (int_floor _ (cell_width_nonneg _ Hw)). lia.
Qed.

Lemma ack_header_shows y : ack_shows (HeaderRow y) (Ack.block_cmds (HeaderRow y)).
Proof.
  split; [|split; reflexivity].
  unfold Ack.block_cmds, Ack.draw_header_row. no_break.
  unfold Ack.header_cell. no_break.
Qed.

Lemma transfer_header_shows y :
  transfer_shows (HeaderRow y) (Transfer.block_cmds (HeaderRow y)).
Proof.
  split; [|split; reflexivity].
  unfold Transfer.block_cmds, Transfer.draw_header_row. no_break.
  unfold Transfer.header_cell. no_break.
Qed.

Lemma ack_row_shows r y item : ack_shows (DataRow r y item) (Ack.block_cmds (DataRow r y item)).
Proof.
  split; [|split].
  - unfold Ack.block_cmds. no_break. unfold Ack.data_cell. no_break.
  - by destruct item.
  - destruct item as [it|]; [|reflexivity].
    unfold Ack.block_cmds, Ack.col_widths. cbn [map columns].
    unfold Ack.data_cell, texts.
    cbn [Nat.eqb Ack.cell_source app omap text_of mbind option_bind].
    rewrite index_cell_text.
    rewrite !cell_text_hard_truncate by (done || by vm_compute).
    reflexivity.
Qed.

Lemma transfer_row_shows r y item :
  transfer_shows (DataRow r y item) (Transfer.block_cmds (DataRow r y item)).
Proof.
  split; [|split].
  - unfold Transfer.block_cmds. no_break. unfold Transfer.data_cell. no_break.
  - by destruct item.
  - destruct item as [it|]; [|reflexivity].
    unfold Transfer.block_cmds, Transfer.col_widths. cbn [map columns].
    unfold Transfer.data_cell, texts.
    cbn [Nat.eqb Transfer.cell_source app omap text_of mbind option_bind].
    rewrite index_cell_text.
    rewrite !cell_text_hard_truncate by (done || by vm_compute).
    reflexivity.
Qed.

Lemma ack_block_shows b : ack_shows b (Ack.block_cmds b).
Proof.
  destruct b as [|y|r y item];
    [reflexivity|apply ack_header_shows|apply ack_row_shows].
Qed.

Lemma transfer_block_shows b : transfer_shows b (Transfer.block_cmds b).
Proof.
  destruct b as [|y|r y item];
    [reflexivity|apply transfer_header_shows|apply transfer_row_shows].
Qed.

Lemma ack_table_drawn y items :
  drawn_as ack_shows (Ack.table_blocks y items).2 (Ack._draw_items_table y items).2.
Proof.
  unfold Ack._draw_items_table.
  destruct (Ack.table_blocks y items) as [y' blocks]. cbn [snd].
  exists (map Ack.block_cmds blocks). split; [done|].
  induction blocks as [|b blocks IH]; constructor; [apply ack_block_shows|done].
Qed.

Lemma transfer_table_drawn y assets :
  drawn_as transfer_shows (Transfer.table_blocks y assets).2
    (Transfer._draw_assets_table y assets).2.
Proof.
  unfold Transfer._draw_assets_table.
  destruct (Transfer.table_blocks y assets) as [y' blocks]. cbn [snd].
  exists (map Transfer.block_cmds blocks). split; [done|].
  induction blocks as [|b blocks IH]; constructor; [apply transfer_block_shows|done].
Qed.

(** ** Pages of the Acknowledgment table *)

Lemma ack_header_first_text y l :
  first_text (Ack.block_cmds (HeaderRow y) ++ l) = Some "No.".
Proof. reflexivity. Qed.

(** Every page started among the rows starts with the header row. *)
Lemma ack_rows_page_starts items rs : forall y,
  page_starts (concat (map Ack.block_cmds (Ack.draw_rows items rs y).2))
    = replicate (count_breaks (Ack.draw_rows items rs y).2) (Some "No.").
Proof.
  induction rs as [|r rs IH]; intros y; [done|].
  cbn [Ack.draw_rows]. destruct (Py.lt _ _).
  - specialize (IH (Ack.height - Ack.margin - Ack.header_height - Ack.row_height)).
    destruct (Ack.draw_rows items rs _) as [y' out]. cbn [snd] in *.
    unfold count_breaks in *. cbn [app map concat List.filter length replicate].
    change (Ack.block_cmds PageBreak) with [showPage]. cbn [app page_starts].
    rewrite ack_header_first_text. f_equal.
    rewrite !page_starts_app_no_break by (by apply ack_block_no_break). exact IH.
  - specialize (IH (y - Ack.row_height)).
    destruct (Ack.draw_rows items rs _) as [y' out]. cbn [snd] in *.
    unfold count_breaks in *. cbn [app map concat List.filter].
    rewrite page_starts_app_no_break by (by apply ack_block_no_break). exact IH.
Qed.

(** C4. The Acknowledgment table, started with its cursor at or below the
    top margin, puts on the canvas the header row and then its rows by the
    per-row flow: before each row the test
    [cursor - row_height < bottom_margin + 4 inch] is made, and when it holds
    a [showPage] and the header row at the top margin come before the row.
    Each row is one run of commands that starts no page: five boxes side by
    side with their texts.  So no data row is split over two pages, every
    row's lower edge is at or above the reserve line, every page break is
    followed at once by the header row and then a data row, and every page
    started inside the table starts with the text [No.] of the header.  The
    commands of the Transfer table hold no [showPage]. *)
Theorem ack_table_pagination (y : Q) (items : list (gmap string string)) :
  y <= Ack.height - Ack.margin ->
  let bs := (Ack.table_blocks y items).2 in
  drawn_as ack_shows bs (Ack._draw_items_table y items).2
  /\ (exists rest, bs = HeaderRow y :: rest
     /\ ack_row_flow items (y - Ack.header_height) (seq 0 (Ack.num_rows items)) rest)
  /\ (forall r y' it, DataRow r y' it ∈ bs ->
        Ack.bottom_margin + 4 * inch <= y' - Ack.row_height
        /\ y' <= Ack.height - Ack.margin - Ack.header_height)
  /\ (forall pre post, bs = pre ++ PageBreak :: post ->
        exists r rest,
          post = HeaderRow (Ack.height - Ack.margin)
                 :: DataRow r (Ack.height - Ack.margin - Ack.header_height) (items !! r)
                 :: rest)
  /\ page_starts (Ack._draw_items_table y items).2
     = replicate (count_breaks bs) (Some "No.")
  /\ no_break (Transfer._draw_assets_table y items).2.
Proof.
  intros Hy bs.
  pose proof (ack_draw_rows_flow items (seq 0 (Ack.num_rows items))
                (y - Ack.header_height)) as Hflow.
  assert (Hbs : bs = HeaderRow y
                     :: (Ack.draw_rows items (seq 0 (Ack.num_rows items))
                           (y - Ack.header_height)).2).
  { unfold bs, Ack.table_blocks. by destruct (Ack.draw_rows _ _ _). }
  assert (Hhh : 0 <= Ack.header_height) by (by vm_compute).
  split; [apply ack_table_drawn|].
  split; [by eexists|]. split; [|split; [|split]].
  - intros r y' it Hin. rewrite Hbs in Hin.
    apply elem_of_cons in Hin as [Heq|Hin]; [done|].
    apply (flow_rows_on_page _ _ _ _ Hflow ltac:(lra) r y' it Hin).
  - intros pre post Heq. rewrite Hbs in Heq.
    destruct pre as [|b pre]; [done|]. injection Heq as _ Heq.
    by eapply flow_break_then_header.
  - rewrite Hbs. unfold Ack._draw_items_table, Ack.table_blocks.
    pose proof (ack_rows_page_starts items (seq 0 (Ack.num_rows items))
                  (y - Ack.header_height)) as Hst.
    destruct (Ack.draw_rows _ _ _) as [y' out]. cbn [snd map concat] in *.
    rewrite page_starts_app_no_break by (by apply ack_block_no_break).
    exact Hst.
  - apply transfer_table_no_break.
Qed.

(** A table fifty rows long, started where [_draw_form] starts it. *)
Lemma ack_table_pagination_witness :
  drawn_as ack_shows (Ack.table_blocks 665 fifty_items).2
    (Ack._draw_items_table 665 fifty_items).2
  /\ page_starts (Ack._draw_items_table 665 fifty_items).2
     = [Some "No."; Some "No."].
Proof.
  destruct (ack_table_pagination 665 fifty_items) as (Hd & _ & _ & _ & Hst & _);
    [by vm_compute|].
  split; [exact Hd|]. rewrite Hst. by vm_compute.
Defined.

(** ** Rows of the two tables *)

Lemma side_by_side_length x ws y h : length (side_by_side x ws y h) = length ws.
Proof. revert x. induction ws as [|w ws IH]; intros x; [done|]. cbn. by rewrite IH. Qed.

(** Every block but a page break draws five boxes. *)
Lemma ack_blocks_boxes bs :
  (length (boxes (concat (map Ack.block_cmds bs))) + 5 * count_breaks bs
   = 5 * length bs)%nat.
Proof.
  unfold count_breaks. induction bs as [|b bs IH]; [done|].
  cbn [map concat List.filter length]. rewrite boxes_app, length_app.
  pose proof (ack_block_shows b) as Hb.
  destruct b as [|y|r y item]; cbn [length].
  - change (boxes (Ack.block_cmds PageBreak)) with (@nil (Q * Q * Q * Q)).
    cbn [length]. lia.
  - destruct Hb as (_ & -> & _). rewrite side_by_side_length. cbn [Ack.col_widths length]. lia.
  - destruct Hb as (_ & -> & _). rewrite side_by_side_length. cbn [Ack.col_widths length]. lia.
Qed.

Lemma transfer_blocks_boxes bs :
  (length (boxes (concat (map Transfer.block_cmds bs))) + 5 * count_breaks bs
   = 5 * length bs)%nat.
Proof.
  unfold count_breaks. induction bs as [|b bs IH]; [done|].
  cbn [map concat List.filter length]. rewrite boxes_app, length_app.
  pose proof (transfer_block_shows b) as Hb.
  destruct b as [|y|r y item]; cbn [length].
  - change (boxes (Transfer.block_cmds PageBreak)) with (@nil (Q * Q * Q * Q)).
    cbn [length]. lia.
  - destruct Hb as (_ & -> & _). rewrite side_by_side_length.
    cbn [Transfer.col_widths length]. lia.
  - destruct Hb as (_ & -> & _). rewrite side_by_side_length.
    cbn [Transfer.col_widths length]. lia.
Qed.

Lemma ack_draw_rows_length items rs : forall y,
  length (Ack.draw_rows items rs y).2
    = (length rs + 2 * count_breaks (Ack.draw_rows items rs y).2)%nat.
Proof.
  unfold count_breaks. induction rs as [|r rs IH]; intros y; [done|].
  cbn [Ack.draw_rows]. destruct (Py.lt _ _).
  - specialize (IH (Ack.height - Ack.margin - Ack.header_height - Ack.row_height)).
    destruct (Ack.draw_rows items rs _) as [y' out]. cbn [snd] in *.
    cbn [app List.filter length]. lia.
  - specialize (IH (y - Ack.row_height)).
    destruct (Ack.draw_rows items rs _) as [y' out]. cbn [snd] in *.
    cbn [app List.filter length]. lia.
Qed.

Lemma transfer_draw_rows_length assets rs : forall y,
  length (Transfer.draw_rows assets rs y).2 = length rs
  /\ count_breaks (Transfer.draw_rows assets rs y).2 = 0%nat.
Proof.
  unfold count_breaks. induction rs as [|r rs IH]; intros y; [done|].
  cbn [Transfer.draw_rows]. specialize (IH (y - Transfer.row_height)).
  destruct (Transfer.draw_rows assets rs _) as [y' out]. cbn [snd] in *.
  cbn [List.filter length]. lia.
Qed.

(** C5. In both tables the commands fall into one run per block, and the
    data rows among the blocks are the rows numbered from 0 to
    [max(1, len(rows)) - 1] in order, row [i] showing [rows[i]]: one row per
    input row in input order, each drawn as five boxes with its texts, and
    for an empty list one row that shows no item, drawn as its five boxes
    and no text.  Counted on the canvas, the Transfer table has five boxes
    for each of these rows and five for its header row, and the
    Acknowledgment table five more for the header row of every page it
    starts.  The drawers return for every list. *)
Theorem table_row_count (y : Q) (items : list (gmap string string)) :
  let n := (1 `max` length items)%nat in
  let shown := map (fun i => (i, items !! i)) (seq 0 n) in
  drawn_as ack_shows (Ack.table_blocks y items).2 (Ack._draw_items_table y items).2
  /\ data_rows (Ack.table_blocks y items).2 = shown
  /\ length (boxes (Ack._draw_items_table y items).2)
     = (5 * (n + 1 + count_breaks (Ack.table_blocks y items).2))%nat
  /\ drawn_as transfer_shows (Transfer.table_blocks y items).2
       (Transfer._draw_assets_table y items).2
  /\ data_rows (Transfer.table_blocks y items).2 = shown
  /\ length (boxes (Transfer._draw_assets_table y items).2) = (5 * (n + 1))%nat
  /\ length shown = n
  /\ omap snd shown = items.
Proof.
  intros n shown. destruct (num_rows_max items) as [Ha Ht].
  split; [apply ack_table_drawn|]. split; [|split].
  - unfold Ack.table_blocks.
    pose proof (ack_draw_rows_data items (seq 0 (Ack.num_rows items))
                  (y - Ack.header_height)) as H.
    destruct (Ack.draw_rows _ _ _) as [y' out]. simpl in *. by rewrite H, Ha.
  - unfold Ack._draw_items_table.
    pose proof (ack_blocks_boxes (Ack.table_blocks y items).2) as Hb.
    unfold Ack.table_blocks in *.
    pose proof (ack_draw_rows_length items (seq 0 (Ack.num_rows items))
                  (y - Ack.header_height)) as Hl.
    destruct (Ack.draw_rows _ _ _) as [y' out]. cbn [snd] in *.
    rewrite length_seq, Ha in Hl. fold n in Hl.
    unfold count_breaks in *. cbn [List.filter length] in *. lia.
  - split; [apply transfer_table_drawn|]. split; [|split; [|split]].
    + unfold Transfer.table_blocks.
      pose proof (transfer_draw_rows_data items (seq 0 (Transfer.num_rows items))
                    (y - Transfer.header_height)) as H.
      destruct (Transfer.draw_rows _ _ _) as [y' out]. simpl in *. by rewrite H, Ht.
    + unfold Transfer._draw_assets_table.
      pose proof (transfer_blocks_boxes (Transfer.table_blocks y items).2) as Hb.
      unfold Transfer.table_blocks in *.
      pose proof (transfer_draw_rows_length items (seq 0 (Transfer.num_rows items))
                    (y - Transfer.header_height)) as [Hl Hc].
      destruct (Transfer.draw_rows _ _ _) as [y' out]. cbn [snd] in *.
      rewrite length_seq, Ht in Hl. fold n in Hl.
      unfold count_breaks in *. cbn [List.filter length] in *. lia.
    + unfold shown. by rewrite length_map, length_seq.
    + apply shown_items.
Qed.

(** ** Texts of the table cells *)

(** C6. In both tables a row that shows an item draws five texts: the
    row number counted from 1, unchanged, and the four fields, each
    truncated to the width of its column.  With
    [max_chars = floor(width / 5.5)], a text longer than [max_chars] is cut to
    its first [max_chars] characters, nothing appended, and a text that is not
    longer is drawn unchanged; the text of the index column is never cut.  The
    commands of either table are the runs of its rows, so these are the cell
    texts on the canvas. *)
Theorem cell_text_truncation (row_num : nat) (y : Q) (item : gmap string string) :
  texts (Ack.block_cmds (DataRow row_num y (Some item)))
    = [Py.str (row_num + 1);
       hard_truncate (1.1 * inch) (Py.get item "store_code");
       hard_truncate (3.2 * inch) (Py.get item "description");
       hard_truncate (0.45 * inch) (Py.get item "qty");
       hard_truncate (1.1 * inch) (Py.get item "purchase_date")]
  /\ texts (Transfer.block_cmds (DataRow row_num y (Some item)))
    = [Py.str (row_num + 1);
       hard_truncate (1 * inch) (Py.get item "store_code");
       hard_truncate (1.3 * inch) (Py.get item "asset_name");
       hard_truncate (2.3 * inch) (Py.get item "description");
       hard_truncate (1.15 * inch) (Py.get item "old_asset_no")]
  /\ (forall y0 items,
        (Ack._draw_items_table y0 items).2
          = concat (map Ack.block_cmds (Ack.table_blocks y0 items).2)
        /\ (Transfer._draw_assets_table y0 items).2
          = concat (map Transfer.block_cmds (Transfer.table_blocks y0 items).2)
        /\ data_rows (Ack.table_blocks y0 items).2
          = map (fun i => (i, items !! i)) (seq 0 (1 `max` length items))
        /\ data_rows (Transfer.table_blocks y0 items).2
          = map (fun i => (i, items !! i)) (seq 0 (1 `max` length items)))
  /\ (forall width text,
        let max_chars := Z.to_nat (Qfloor (width / 5.5)) in
        ((max_chars < Py.len text)%nat ->
           hard_truncate width text = Py.take max_chars text
           /\ Py.len (hard_truncate width text) = max_chars
           /\ text = hard_truncate width text +:+ Py.drop max_chars text)
        /\ ((Py.len text <= max_chars)%nat -> hard_truncate width text = text))
  /\ (forall col width text,
        0 <= width ->
        cell_text col width text
          = if (col =? 0)%nat then text else hard_truncate width text).
Proof.
  split; [|split; [|split; [|split]]].
  - apply (ack_row_shows row_num y (Some item)).
  - apply (transfer_row_shows row_num y (Some item)).
  - intros y0 items. destruct (num_rows_max items) as [Ha Ht].
    split; [|split; [|split]].
    + unfold Ack._draw_items_table. by destruct (Ack.table_blocks y0 items).
    + unfold Transfer._draw_assets_table. by destruct (Transfer.table_blocks y0 items).
    + unfold Ack.table_blocks.
      pose proof (ack_draw_rows_data items (seq 0 (Ack.num_rows items))
                    (y0 - Ack.header_height)) as H.
      destruct (Ack.draw_rows _ _ _) as [y' out]. simpl in *. by rewrite H, Ha.
    + unfold Transfer.table_blocks.
      pose proof (transfer_draw_rows_data items (seq 0 (Transfer.num_rows items))
                    (y0 - Transfer.header_height)) as H.
      destruct (Transfer.draw_rows _ _ _) as [y' out]. simpl in *. by rewrite H, Ht.
  - intros width text max_chars. unfold hard_truncate. fold max_chars. split.
    + intros Hlen. replace (max_chars <? Py.len text)%nat with true
        by (symmetry; by apply Nat.ltb_lt).
      split; [done|]. split; [rewrite len_take; lia|by rewrite take_drop].
    + intros Hlen. replace (max_chars <? Py.len text)%nat with false; [done|].
      symmetry. apply Nat.ltb_ge. lia.
  - intros col width text Hw. destruct col as [|col]; [apply index_cell_text|].
    by apply cell_text_hard_truncate.
Qed.

(** The store-code column of the Acknowledgment table, 1.1 inch wide, holds
    14 characters. *)
Lemma cell_text_truncation_witness :
  texts (Ack.block_cmds
           (DataRow 0 700 (Some (list_to_map
              [("store_code", "abcdefghijklmnopqrstuvwxyz"); ("qty", "2")]))))
  = ["1"; "abcdefghijklmn"; ""; "2"; ""].
Proof.
  destruct (cell_text_truncation 0 700
              (list_to_map [("store_code", "abcdefghijklmnopqrstuvwxyz"); ("qty", "2")]))
    as [-> _].
  by vm_compute.
Defined.

(** ** The tables inside the forms *)

Lemma ack_form_table e data :
  exists pre post,
    (Ack._draw_form e data).2
      = pre ++ (Ack._draw_items_table (ack_table_cursor e) (rows data)).2 ++ post.
Proof.
  unfold Ack._draw_form, ack_table_cursor.
  destruct (Ack._draw_header e _) as [y0 h]. cbn [fst].
  destruct (Ack._draw_date e y0) as [y1 d]. cbn [fst].
  destruct (Ack._draw_items_table y1 (rows data)) as [y2 t]. cbn [snd].
  destruct (Ack.draw_after_table e y2 data) as [rc rest]. cbn [snd].
  exists (h ++ d), rest. by rewrite <- !app_assoc.
Qed.

Lemma transfer_form_table e data :
  exists pre post,
    (Transfer._draw_form e data).2
      = pre ++ (Transfer._draw_assets_table (transfer_table_cursor e data) (rows data)).2
            ++ post.
Proof.
  unfold Transfer._draw_form, Transfer.draw_before_signature, transfer_table_cursor.
  destruct (Transfer._draw_header e _) as [y0 h]. cbn [fst].
  destruct (Transfer._draw_date e y0) as [y1 d]. cbn [fst].
  destruct (Transfer._draw_transferred_from e y1 data) as [y2 f]. cbn [fst].
  destruct (Transfer._draw_assets_table y2 (rows data)) as [y3 t]. cbn [snd].
  destruct (Transfer._draw_transferred_to e y3 data) as [y4 o].
  destruct (Transfer._draw_declaration y4) as [y5 c].
  destruct (Transfer._draw_signature y5) as [rc sg]. cbn [snd].
  exists (h ++ d ++ f), (o ++ c ++ sg). by rewrite <- !app_assoc.
Qed.

Lemma ack_rows_of_items y (items : list (gmap string string)) :
  items <> [] ->
  map snd (data_rows (Ack.table_blocks y items).2) = map Some items.
Proof.
  intros Hne. destruct items as [|it its]; [done|].
  unfold Ack.table_blocks.
  pose proof (ack_draw_rows_data (it :: its) (seq 0 (Ack.num_rows (it :: its)))
                (y - Ack.header_height)) as Hd.
  destruct (Ack.draw_rows _ _ _) as [y' out]. cbn [snd data_rows flat_map app] in *.
  rewrite Hd, map_map. cbn [snd]. apply (lookup_all_from [] (it :: its)).
Qed.

Lemma transfer_rows_of_assets y (assets : list (gmap string string)) :
  assets <> [] ->
  map snd (data_rows (Transfer.table_blocks y assets).2) = map Some assets.
Proof.
  intros Hne. destruct assets as [|it its]; [done|].
  unfold Transfer.table_blocks.
  pose proof (transfer_draw_rows_data (it :: its) (seq 0 (Transfer.num_rows (it :: its)))
                (y - Transfer.header_height)) as Hd.
  destruct (Transfer.draw_rows _ _ _) as [y' out]. cbn [snd data_rows flat_map app] in *.
  rewrite Hd, map_map. cbn [snd]. apply (lookup_all_from [] (it :: its)).
Qed.

(** The canvas of a PDF a GUI handler reports is the form drawn for the
    data it built. *)
Lemma ack_gui_canvas e fs w o :
  Ack._generate_pdf e fs w = Some (showinfo o) ->
  Ack._get_items (Ack.item_widgets w) <> []
  /\ canvas o = (Ack._draw_form e (ack_gui_form_data w)).2.
Proof.
  rewrite ack_generate_pdf_eq. destruct (Ack._get_items (Ack.item_widgets w)); [done|].
  rewrite ack_generate_eq. destruct (_get_unique_filepath _ _ _); [|done].
  cbn. intros [= <-]. done.
Qed.

Lemma transfer_gui_canvas e fs w o :
  Transfer._generate_pdf e fs w = Some (showinfo o) ->
  Transfer._get_assets (Transfer.asset_widgets w) <> []
  /\ canvas o = (Transfer._draw_form e (transfer_gui_form_data w)).2.
Proof.
  rewrite transfer_generate_pdf_eq.
  destruct (Transfer._get_assets (Transfer.asset_widgets w)); [done|].
  rewrite transfer_generate_eq. destruct (_get_unique_filepath _ _ _); [|done].
  cbn. intros [= <-]. done.
Qed.

(** X6. The canvas of a PDF reached through a GUI handler holds the table
    drawn block by block, with one data row for every widget row that is not
    blank, in their order, each showing its item with five boxes and its
    texts: the empty row the drawers put in for an empty list never appears,
    and there are at most as many rows as widget rows. *)
Theorem gui_table_has_no_empty_row (e : env) (fs : gset string) :
  (forall (w : Ack.widgets) (o : outcome),
     Ack._generate_pdf e fs w = Some (showinfo o) ->
     let items := Ack._get_items (Ack.item_widgets w) in
     let blocks := (Ack.table_blocks (ack_table_cursor e) items).2 in
     (exists pre table post,
        canvas o = pre ++ table ++ post /\ drawn_as ack_shows blocks table)
     /\ map snd (data_rows blocks) = map Some items
     /\ (1 <= length items <= length (Ack.item_widgets w))%nat)
  /\ (forall (w : Transfer.widgets) (o : outcome),
     Transfer._generate_pdf e fs w = Some (showinfo o) ->
     let assets := Transfer._get_assets (Transfer.asset_widgets w) in
     let blocks :=
       (Transfer.table_blocks (transfer_table_cursor e (transfer_gui_form_data w))
          assets).2 in
     (exists pre table post,
        canvas o = pre ++ table ++ post /\ drawn_as transfer_shows blocks table)
     /\ map snd (data_rows blocks) = map Some assets
     /\ (1 <= length assets <= length (Transfer.asset_widgets w))%nat).
Proof.
  split; intros w o H; cbv zeta.
  - destruct (ack_gui_canvas e fs w o H) as [Hne ->].
    destruct (ack_form_table e (ack_gui_form_data w)) as (pre & post & ->).
    split; [|split].
    + eexists pre, _, post. split; [reflexivity|]. apply ack_table_drawn.
    + by apply ack_rows_of_items.
    + pose proof (proj1 (get_items_length (Ack.item_widgets w))) as Hlen.
      destruct (Ack._get_items (Ack.item_widgets w)); [done|]. cbn [length] in *. lia.
  - destruct (transfer_gui_canvas e fs w o H) as [Hne ->].
    destruct (transfer_form_table e (transfer_gui_form_data w)) as (pre & post & ->).
    split; [|split].
    + eexists pre, _, post. split; [reflexivity|]. apply transfer_table_drawn.
    + by apply transfer_rows_of_assets.
    + pose proof (proj2 (get_items_length (Transfer.asset_widgets w))) as Hlen.
      destruct (Transfer._get_assets (Transfer.asset_widgets w)); [done|].
      cbn [length] in *. lia.
Qed.

Lemma gui_table_has_no_empty_row_witness :
  exists o,
    Ack._generate_pdf fixed_pitch ∅ sample_ack_widgets = Some (showinfo o)
    /\ length (data_rows
                 (Ack.table_blocks (ack_table_cursor fixed_pitch)
                    (Ack._get_items (Ack.item_widgets sample_ack_widgets))).2) = 2%nat
    /\ exists pre table post, canvas o = pre ++ table ++ post.
Proof.
  destruct (gui_table_has_no_empty_row fixed_pitch ∅) as [H _].
  destruct (Ack._generate_pdf fixed_pitch ∅ sample_ack_widgets) as [[m|o]|] eqn:Hgen.
  - rewrite ack_generate_pdf_eq in Hgen. by vm_compute in Hgen.
  - exists o. split; [done|].
    destruct (H sample_ack_widgets o Hgen) as ((pre & table & post & Hc & _) & Hrows & _).
    split; [|by exists pre, table, post].
    apply (f_equal length) in Hrows. rewrite !length_map in Hrows. exact Hrows.
  - rewrite ack_generate_pdf_eq, ack_generate_eq in Hgen. by vm_compute in Hgen.
Defined.

(** ** The Transfer table drawn down the page *)

(** X11. In [_draw_form] the Transfer table is drawn in one run down the
    page: its commands hold no [showPage], and they fall into the header row
    and one run per data row, each run five boxes with the upper edge [r] row
    heights below the first row's, wherever that leads.  The rows numbered 23
    and up, the twenty-fourth asset onwards, have the lower edge of their
    boxes below the bottom edge of the page; the rows before them have not. *)
Theorem transfer_rows_leave_page (e : env) (data : form_data) :
  let y := transfer_table_cursor e data in
  let table := (Transfer._draw_assets_table y (rows data)).2 in
  let blocks := (Transfer.table_blocks y (rows data)).2 in
  (exists pre post, (Transfer._draw_form e data).2 = pre ++ table ++ post)
  /\ no_break table
  /\ drawn_as transfer_shows blocks table
  /\ data_rows blocks
     = map (fun r => (r, rows data !! r)) (seq 0 (1 `max` length (rows data)))
  /\ forall r y' it,
       DataRow r y' it ∈ blocks ->
       y' == y - Transfer.header_height - nq r * Transfer.row_height
       /\ (y' - Transfer.row_height < 0 <-> (23 <= r)%nat).
Proof.
  cbv zeta. split; [apply transfer_form_table|].
  split; [apply transfer_table_no_break|].
  split; [apply transfer_table_drawn|].
  split.
  { unfold Transfer.table_blocks.
    pose proof (transfer_draw_rows_data (rows data)
                  (seq 0 (Transfer.num_rows (rows data)))
                  (transfer_table_cursor e data - Transfer.header_height)) as H.
    destruct (Transfer.draw_rows _ _ _) as [y' out]. cbn [snd data_rows flat_map app] in *.
    by rewrite H, (proj2 (num_rows_max (rows data))). }
  intros r y' it Hin. unfold Transfer.table_blocks in Hin.
  pose proof (transfer_draw_rows_at (rows data) 0 (Transfer.num_rows (rows data))
                (transfer_table_cursor e data - Transfer.header_height) r y' it) as Hat.
  destruct (Transfer.draw_rows _ _ _) as [y1 out]. cbn [snd] in *.
  apply elem_of_cons in Hin as [Heq|Hin]; [done|].
  destruct (Hat Hin) as [_ Hy]. rewrite Nat.sub_0_r in Hy.
  split; [exact Hy|].
  rewrite transfer_table_cursor_eq in Hy. pose proof transfer_top as Htop.
  unfold Transfer.header_height, Transfer.row_height, inch in *.
  split.
  + intros Hlow. destruct (decide (23 <= r)%nat) as [|Hr]; [done|]. exfalso.
    pose proof (nq_le r 22 ltac:(lia)) as Hle. change (nq 22) with (22 : Q) in Hle.
    clear Hat. generalize dependent (nq r). intros q Hy Hle. lra.
  + intros Hr. pose proof (nq_le 23 r Hr) as Hle. change (nq 23) with (23 : Q) in Hle.
    clear Hat. generalize dependent (nq r). intros q Hy Hle. lra.
Qed.

Lemma transfer_rows_leave_page_witness :
  exists y' it,
    DataRow 23 y' it
      ∈ (Transfer.table_blocks (transfer_table_cursor fixed_pitch twenty_four_assets_form)
           (rows twenty_four_assets_form)).2
    /\ y' - Transfer.row_height < 0.
Proof.
  destruct (transfer_rows_leave_page fixed_pitch twenty_four_assets_form)
    as (_ & _ & _ & _ & H).
  assert (Hin : exists y' it,
    (Transfer.table_blocks (transfer_table_cursor fixed_pitch twenty_four_assets_form)
       (rows twenty_four_assets_form)).2 !! 24%nat = Some (DataRow 23 y' it)).
  { vm_compute. by eexists _, _. }
  destruct Hin as (y' & it & Hin). exists y', it.
  apply list_elem_of_lookup_2 in Hin. split; [exact Hin|].
  apply (H 23%nat y' it Hin). lia.
Defined.

(** ** The radio groups read off the canvas *)

Lemma marks_app l1 l2 : marks (l1 ++ l2) = marks l1 ++ marks l2.
Proof. apply omap_app. Qed.

Lemma marks_draw_lines x y step lines :
  marks (draw_lines x y step lines).2 = map Text lines.
Proof.
  revert y. induction lines as [|l lines IH]; intros y; [done|].
  cbn [draw_lines]. specialize (IH (y - step)).
  destruct (draw_lines x (y - step) step lines) as [y' out]. cbn [snd] in *.
  cbn [map]. by rewrite <- IH.
Qed.

Ltac other_value v :=
  repeat match goal with
  | H : ?c <> v |- _ => apply String.eqb_neq in H
  | H : v <> ?c |- _ => apply String.eqb_neq in H
  end.

Lemma building_marks (row : nat -> string -> list cmd) (v other : string) :
  (forall i b, marks (row i b)
     = (if Ack.is_selected b v then [Filled] else []) ++ [Text b]
       ++ (if Ack.is_others b v then [Text other] else [])) ->
  marks (concat (imap row Ack.buildings))
    = group_marks Ack.buildings (chosen Ack.buildings v) (fun b => [b])
        (if String.eqb v "Others" then Some other else None).
Proof.
  intros Hrow. unfold Ack.buildings. cbn [imap concat]. unfold compose.
  rewrite !marks_app, !Hrow. unfold Ack.is_selected, Ack.is_others, chosen, group_marks.
  destruct (String.eqb_spec "SZH" v) as [<-|H1]; [reflexivity|].
  destruct (String.eqb_spec "J1" v) as [<-|H2]; [reflexivity|].
  destruct (String.eqb_spec "J2" v) as [<-|H3]; [reflexivity|].
  destruct (String.eqb_spec "Student Hub" v) as [<-|H4]; [reflexivity|].
  destruct (String.eqb_spec "Hostel" v) as [<-|H5]; [reflexivity|].
  destruct (String.eqb_spec "Others:" v) as [<-|H6]; [reflexivity|].
  destruct (String.eqb_spec v "Others") as [->|H7]; [reflexivity|].
  other_value v. cbn [index_of]. rewrite H1, H2, H3, H4, H5, H6. reflexivity.
Qed.

Lemma floor_marks (row : nat -> string -> list cmd) (v other : string) :
  (forall i f, marks (row i f)
     = (if Ack.is_selected f v then [Filled] else []) ++ map Text (floor_label f)
       ++ (if Ack.is_others f v then [Text other] else [])) ->
  marks (concat (imap row Ack.floors))
    = group_marks Ack.floors (chosen Ack.floors v) floor_label
        (if String.eqb v "Others" then Some other else None).
Proof.
  intros Hrow. unfold Ack.floors. cbn [imap concat]. unfold compose.
  rewrite !marks_app, !Hrow. unfold Ack.is_selected, Ack.is_others, chosen, group_marks.
  destruct (String.eqb_spec "Ground" v) as [<-|H1]; [reflexivity|].
  destruct (String.eqb_spec "1st" v) as [<-|H2]; [reflexivity|].
  destruct (String.eqb_spec "2nd" v) as [<-|H3]; [reflexivity|].
  destruct (String.eqb_spec "3rd" v) as [<-|H4]; [reflexivity|].
  destruct (String.eqb_spec "Others:" v) as [<-|H6]; [reflexivity|].
  destruct (String.eqb_spec v "Others") as [->|H7]; [reflexivity|].
  other_value v. cbn [index_of]. rewrite H1, H2, H3, H4, H6. reflexivity.
Qed.

Lemma section_marks (row : nat -> string -> list cmd) (v : string) :
  (forall i s, marks (row i s)
     = (if String.eqb s v then [Filled] else []) ++ [Text s]) ->
  marks (concat (imap row Ack.sections))
    = group_marks Ack.sections (index_of v Ack.sections) (fun s => [s]) None.
Proof.
  intros Hrow. unfold Ack.sections. cbn [imap concat]. unfold compose.
  rewrite !marks_app, !Hrow. unfold group_marks.
  destruct (String.eqb_spec "Male" v) as [<-|H1]; [reflexivity|].
  destruct (String.eqb_spec "Female" v) as [<-|H2]; [reflexivity|].
  other_value v. cbn [index_of]. rewrite H1, H2. reflexivity.
Qed.

Lemma radio_marks x y selected :
  marks (Ack._draw_radio x y selected) = if selected then [Filled] else [].
Proof. by destruct selected. Qed.

(** X8. Read for its filled buttons and its texts, the location section
    shows the three headings and then the three groups, choice by choice: the
    filled button, if the choice is the selected one, before the label of the
    choice.  A group has at most one filled button: for the building the
    choice equal to the value, with the value [Others] selecting the choice
    [Others:], and none for any other value; likewise for the floor; for the
    section the choice equal to the value.  The free text of [Others] follows
    the label [Others:] exactly when the value is the string [Others], and
    with it comes the underline, the only line besides the three under the
    headings; the value [Others:] fills the button but shows no free text.
    The device section shows its heading, the two labels and the two
    paragraphs, with a filled button before [Office Device] exactly for the
    device type [Office] and before [Lab Device] exactly for [Lab]. *)
Theorem radio_buttons (e : env) (y : Q) (data : form_data) :
  let building := Py.get (fields data) "building" in
  let floor := Py.get (fields data) "floor" in
  let section := Py.get (fields data) "section" in
  let device := Py.get (fields data) "device_type" in
  marks (Ack._draw_location_section y data).2
    = [Text "Location: Building"; Text "Floor"; Text "Section"]
      ++ group_marks Ack.buildings (chosen Ack.buildings building) (fun b => [b])
           (if String.eqb building "Others"
            then Some (Py.get (fields data) "building_other") else None)
      ++ group_marks Ack.floors (chosen Ack.floors floor) floor_label
           (if String.eqb floor "Others"
            then Some (Py.get (fields data) "floor_other") else None)
      ++ group_marks Ack.sections (index_of section Ack.sections) (fun s => [s]) None
  /\ count_cmds is_line (Ack._draw_location_section y data).2
    = (3 + one_if (String.eqb building "Others") + one_if (String.eqb floor "Others"))%nat
  /\ marks (Ack._draw_device_selection e y data).2
    = [Text "Please select one of the following:"]
      ++ (if String.eqb device "Office" then [Filled] else [])
      ++ [Text "Office Device"]
      ++ map Text (word_wrap (fun s => stringWidth e s "Helvetica" 8)
                     (Ack.width - 2 * Ack.margin - 0.4 * inch) Ack.office_text)
      ++ (if String.eqb device "Lab" then [Filled] else [])
      ++ [Text "Lab Device"; Text Ack.lab_text].
Proof.
  cbv zeta.
  set (building := Py.get (fields data) "building").
  set (floor := Py.get (fields data) "floor").
  set (section := Py.get (fields data) "section").
  set (device := Py.get (fields data) "device_type").
  split; [|split].
  - unfold Ack._draw_location_section. cbn [snd].
    fold building floor section. rewrite !marks_app.
    rewrite (building_marks _ building (Py.get (fields data) "building_other")).
    2:{ intros i b. rewrite !marks_app, radio_marks.
        by destruct (Ack.is_others b building). }
    rewrite (floor_marks _ floor (Py.get (fields data) "floor_other")).
    2:{ intros i f. rewrite !marks_app, radio_marks. unfold floor_label.
        by destruct (bool_decide _), (Ack.is_others f floor). }
    rewrite (section_marks _ section).
    2:{ intros i s. by rewrite !marks_app, radio_marks. }
    reflexivity.
  - destruct (building_selected building) as [_ Hb2].
    destruct (floor_selected floor) as [_ Hf2].
    unfold Ack._draw_location_section. cbn [snd]. fold building floor section.
    rewrite !count_app.
    rewrite (count_concat_imap _ _ (fun b => one_if (Ack.is_others b building))).
    2:{ intros i x. rewrite !count_app, (proj2 (radio_counts _ _ _)), count_if.
        destruct (Ack.is_others x _); cbn; lia. }
    rewrite (count_concat_imap _ _ (fun b => one_if (Ack.is_others b floor))).
    2:{ intros i x. rewrite !count_app, (proj2 (radio_counts _ _ _)), !count_if.
        destruct (bool_decide _), (Ack.is_others x _); cbn; lia. }
    rewrite (count_concat_imap _ _ (fun b => 0%nat)).
    2:{ intros i x. rewrite !count_app, (proj2 (radio_counts _ _ _)). cbn. lia. }
    rewrite Hb2, Hf2. cbn. lia.
  - unfold Ack._draw_device_selection. fold device.
    match goal with |- context [draw_lines ?x ?y0 ?st ?ls] =>
      pose proof (marks_draw_lines x y0 st ls) as Hl;
      destruct (draw_lines x y0 st ls) as [y' out] end.
    cbn [snd] in *. rewrite !marks_app, !radio_marks, Hl.
    generalize (map Text (word_wrap (fun s => stringWidth e s "Helvetica" 8)
                            (Ack.width - 2 * Ack.margin - 0.4 * inch) Ack.office_text)).
    intros ls. by destruct (String.eqb device "Office"), (String.eqb device "Lab").
Qed.
